(** * chin-up: motion and physiological-signal analysis engine

    A shallow embedding of the pose-analysis core of the application:

    - the [usePresage] hook (movement buffers, rep detection, breathing
      analysis, predictions), and
    - the exercise form classifiers [analyzeSquat] and [analyzePushUp].

    JavaScript numbers are IEEE 754 binary64 values; they are embedded as
    Rocq's primitive [float], whose operations are the same correctly
    rounded binary64 operations.  A decimal literal denotes the nearest
    binary64 value, in the source as well as here. *)

From Stdlib Require Import Floats Bool List String Ascii Arith ZArith Lia.
From Stdlib Require Import DecimalString.
Import ListNotations.

Set Warnings "-inexact-float".

Open Scope string_scope.
Open Scope list_scope.
Open Scope bool_scope.

(* ================================================================== *)
(** ** JavaScript value semantics used by the sources *)

Module JS.

Open Scope float_scope.

(** [a > b] on numbers; false as soon as one side is NaN. *)
Definition gt (a b : float) : bool := b <? a.

(** [a < b] on numbers. *)
Definition lt (a b : float) : bool := a <? b.

(** [a >= b] on numbers. *)
Definition ge (a b : float) : bool := b <=? a.

(** [a <= b] on numbers. *)
Definition le (a b : float) : bool := a <=? b.

(** ToBoolean on a number: [+0], [-0] and [NaN] are falsy. *)
Definition truthy (v : float) : bool :=
  negb (v =? 0) && negb (PrimFloat.is_nan v).

(** ToBoolean on a value that is a number, [null] or [undefined]. *)
Definition truthy_opt (v : option float) : bool :=
  match v with
  | Some n => truthy n
  | None => false
  end.

(** ToBoolean on a string (or an absent one): only [''] is falsy. *)
Definition truthy_str (s : string) : bool :=
  negb (String.eqb s "").

(** ToNumber on a number or [null]: [null] converts to [+0]. *)
Definition toNumber (v : option float) : float :=
  match v with
  | Some n => n
  | None => 0
  end.

(** [v || d] where [v] is a number and the result is used as a number. *)
Definition or_num (v d : float) : float :=
  if truthy v then v else d.

(** [a || b] on objects (or [undefined]). *)
Definition or_obj {A : Type} (a b : option A) : option A :=
  match a with
  | Some _ => a
  | None => b
  end.

(** The length of an array, as a number. *)
Definition of_nat (n : nat) : float :=
  PrimFloat.of_uint63 (Uint63.of_Z (Z.of_nat n)).

(** [Math.pow(v, 2)], taken to be the correctly rounded square. *)
Definition pow2 (v : float) : float := v * v.

(** [arr.slice(-n)]: the last [n] elements (all of them when fewer). *)
Definition slice_last {A : Type} (n : nat) (l : list A) : list A :=
  skipn (List.length l - n) l.

(** [arr.reduce(f)] without an initial value: the first element seeds
    the accumulator; on an empty array the call throws ([None]). *)
Definition reduce1 {A : Type} (f : A -> A -> A) (l : list A) : option A :=
  match l with
  | [] => None
  | a :: rest => Some (fold_left f rest a)
  end.

(** [arr.reduce((sum, v) => sum + v, 0)]. *)
Definition sum (l : list float) : float :=
  fold_left PrimFloat.add l 0.

(** [c.toLowerCase()] on one ASCII character. *)
Definition lower_ascii (c : ascii) : ascii :=
  let n := nat_of_ascii c in
  if (65 <=? n)%nat && (n <=? 90)%nat then ascii_of_nat (n + 32) else c.

(** [s.toLowerCase()], on ASCII strings. *)
Fixpoint toLowerCase (s : string) : string :=
  match s with
  | EmptyString => EmptyString
  | String c rest => String (lower_ascii c) (toLowerCase rest)
  end.

(** [s.includes(t)]: [t] occurs in [s] as a contiguous substring. *)
Fixpoint includes (s t : string) : bool :=
  if String.prefix t s then true
  else match s with
       | EmptyString => false
       | String _ rest => includes rest t
       end.

(** A template literal's rendering of a non-negative integer. *)
Definition string_of_nat (n : nat) : string :=
  NilEmpty.string_of_uint (Nat.to_uint n).

End JS.

(* ================================================================== *)
(** ** Keypoints *)

Module Keypoint.
Record t : Set := mk { name : string; x : float; y : float; score : float }.
End Keypoint.

(** A frame is an array whose entries may be [null]. *)
Definition Frame : Set := list (option Keypoint.t).

(** The test of the [find] callback of [getKeypoint]:
    [kp && kp.name && kp.name.toLowerCase().includes(name.toLowerCase())
     && kp.score > 0.3]. *)
Definition getKeypoint_test (name : string) (kp : option Keypoint.t) : bool :=
  match kp with
  | None => false
  | Some k =>
      JS.truthy_str (Keypoint.name k)
      && JS.includes (JS.toLowerCase (Keypoint.name k)) (JS.toLowerCase name)
      && JS.gt (Keypoint.score k) 0.3%float
  end.

(** [getKeypoint] of [createDataPoint] (and its copy in [trackRep]):
    [keypoints.find(...)]; [None] is [undefined]. *)
Definition getKeypoint (keypoints : Frame) (name : string) : option Keypoint.t :=
  match find (getKeypoint_test name) keypoints with
  | Some (Some k) => Some k
  | _ => None
  end.

(* ================================================================== *)
(** ** Data model of the hook *)

(** What a form classifier returns: [{ feedback, isValid, ...angles }].
    The named angles are the extra fields of the object; an angle that is
    [null] is listed with [None], a field that is absent is not listed. *)
Module FormResult.
Record t : Set := mk {
  feedback : string;
  isValid : bool;
  angles : list (string * option float)
}.
End FormResult.

Module DataPoint.
Record t : Set := mk {
  timestamp : float;
  hipY : option float;
  kneeY : option float;
  shoulderY : option float;
  chestY : option float;
  centerY : option float;
  hasFullBody : bool
}.
End DataPoint.

Inductive FormQuality : Set := good | poor.

Module RepRecord.
Record t : Set := mk {
  timestamp : float;
  duration : float;
  formQuality : FormQuality
}.
End RepRecord.

Module BreathingSample.
Record t : Set := mk { timestamp : float; chestY : float }.
End BreathingSample.

(** [BREATHING_RATE], [BREATHING_CONSISTENCY], [SIGNAL_CONFIDENCE]. *)
Inductive BreathingRate : Set := SLOW | NORMAL | FAST.
Inductive BreathingConsistency : Set := STEADY | ERRATIC.
Inductive SignalConfidence : Set := LOW | MEDIUM | HIGH.

(** The levels ['low'], ['medium'], ['high'] of a prediction and of a
    suggestion's priority, and the suggestion types. *)
Inductive Level : Set := low | medium | high.
Inductive SuggestionType : Set := fatigue | form | encouragement.

Module Suggestion.
Record t : Set := mk {
  type : SuggestionType;
  message : string;
  priority : Level
}.
End Suggestion.

Module Prediction.
Record t : Set := mk {
  fatigueLevel : Level;
  riskOfMistake : Level;
  suggestions : list Suggestion.t
}.
End Prediction.

(** One instance of the hook: its two arguments as of the last render,
    its [useState] cells and its [useRef] cells. *)
Record Session : Set := mkSession {
  exercise : option string;
  isActive : bool;
  predictions : option Prediction.t;
  isAnalyzing : bool;
  breathingRate : BreathingRate;
  breathingConsistency : BreathingConsistency;
  signalConfidence : SignalConfidence;
  movementHistoryRef : list DataPoint.t;
  repHistoryRef : list RepRecord.t;
  breathingHistoryRef : list BreathingSample.t;
  lastRepTimeRef : option float;
  lastPredictionTimeRef : float;
  lastBreathingAnalysisRef : float
}.

Definition set_props (e : option string) (a : bool) (s : Session) : Session :=
  mkSession e a (predictions s) (isAnalyzing s) (breathingRate s)
    (breathingConsistency s) (signalConfidence s) (movementHistoryRef s)
    (repHistoryRef s) (breathingHistoryRef s) (lastRepTimeRef s)
    (lastPredictionTimeRef s) (lastBreathingAnalysisRef s).

Definition setPredictions (p : option Prediction.t) (s : Session) : Session :=
  mkSession (exercise s) (isActive s) p (isAnalyzing s) (breathingRate s)
    (breathingConsistency s) (signalConfidence s) (movementHistoryRef s)
    (repHistoryRef s) (breathingHistoryRef s) (lastRepTimeRef s)
    (lastPredictionTimeRef s) (lastBreathingAnalysisRef s).

Definition setIsAnalyzing (b : bool) (s : Session) : Session :=
  mkSession (exercise s) (isActive s) (predictions s) b (breathingRate s)
    (breathingConsistency s) (signalConfidence s) (movementHistoryRef s)
    (repHistoryRef s) (breathingHistoryRef s) (lastRepTimeRef s)
    (lastPredictionTimeRef s) (lastBreathingAnalysisRef s).

Definition setBreathingRate (r : BreathingRate) (s : Session) : Session :=
  mkSession (exercise s) (isActive s) (predictions s) (isAnalyzing s) r
    (breathingConsistency s) (signalConfidence s) (movementHistoryRef s)
    (repHistoryRef s) (breathingHistoryRef s) (lastRepTimeRef s)
    (lastPredictionTimeRef s) (lastBreathingAnalysisRef s).

Definition setBreathingConsistency (c : BreathingConsistency) (s : Session)
  : Session :=
  mkSession (exercise s) (isActive s) (predictions s) (isAnalyzing s)
    (breathingRate s) c (signalConfidence s) (movementHistoryRef s)
    (repHistoryRef s) (breathingHistoryRef s) (lastRepTimeRef s)
    (lastPredictionTimeRef s) (lastBreathingAnalysisRef s).

Definition setSignalConfidence (c : SignalConfidence) (s : Session) : Session :=
  mkSession (exercise s) (isActive s) (predictions s) (isAnalyzing s)
    (breathingRate s) (breathingConsistency s) c (movementHistoryRef s)
    (repHistoryRef s) (breathingHistoryRef s) (lastRepTimeRef s)
    (lastPredictionTimeRef s) (lastBreathingAnalysisRef s).

Definition set_movementHistory (h : list DataPoint.t) (s : Session) : Session :=
  mkSession (exercise s) (isActive s) (predictions s) (isAnalyzing s)
    (breathingRate s) (breathingConsistency s) (signalConfidence s) h
    (repHistoryRef s) (breathingHistoryRef s) (lastRepTimeRef s)
    (lastPredictionTimeRef s) (lastBreathingAnalysisRef s).

Definition set_repHistory (h : list RepRecord.t) (s : Session) : Session :=
  mkSession (exercise s) (isActive s) (predictions s) (isAnalyzing s)
    (breathingRate s) (breathingConsistency s) (signalConfidence s)
    (movementHistoryRef s) h (breathingHistoryRef s) (lastRepTimeRef s)
    (lastPredictionTimeRef s) (lastBreathingAnalysisRef s).

Definition set_breathingHistory (h : list BreathingSample.t) (s : Session)
  : Session :=
  mkSession (exercise s) (isActive s) (predictions s) (isAnalyzing s)
    (breathingRate s) (breathingConsistency s) (signalConfidence s)
    (movementHistoryRef s) (repHistoryRef s) h (lastRepTimeRef s)
    (lastPredictionTimeRef s) (lastBreathingAnalysisRef s).

Definition set_lastRepTime (t : option float) (s : Session) : Session :=
  mkSession (exercise s) (isActive s) (predictions s) (isAnalyzing s)
    (breathingRate s) (breathingConsistency s) (signalConfidence s)
    (movementHistoryRef s) (repHistoryRef s) (breathingHistoryRef s) t
    (lastPredictionTimeRef s) (lastBreathingAnalysisRef s).

Definition set_lastPredictionTime (t : float) (s : Session) : Session :=
  mkSession (exercise s) (isActive s) (predictions s) (isAnalyzing s)
    (breathingRate s) (breathingConsistency s) (signalConfidence s)
    (movementHistoryRef s) (repHistoryRef s) (breathingHistoryRef s)
    (lastRepTimeRef s) t (lastBreathingAnalysisRef s).

Definition set_lastBreathingAnalysis (t : float) (s : Session) : Session :=
  mkSession (exercise s) (isActive s) (predictions s) (isAnalyzing s)
    (breathingRate s) (breathingConsistency s) (signalConfidence s)
    (movementHistoryRef s) (repHistoryRef s) (breathingHistoryRef s)
    (lastRepTimeRef s) (lastPredictionTimeRef s) t.

(** The hook as first mounted with the given arguments. *)
Definition usePresage_init (e : option string) (a : bool) : Session :=
  mkSession e a None false NORMAL STEADY MEDIUM [] [] [] None 0%float 0%float.

(** Configuration constants of the hook. *)
Definition HISTORY_WINDOW : float := 3000.
Definition PREDICTION_INTERVAL : float := 5000.
Definition MIN_REPS_FOR_ANALYSIS : nat := 3.
Definition BREATHING_ANALYSIS_INTERVAL : float := 3000.
Definition BREATHING_WINDOW : float := 10000.

(** [!exercise]: the selection is [null] or the empty string. *)
Definition exercise_selected (e : option string) : bool :=
  match e with
  | Some n => JS.truthy_str n
  | None => false
  end.

(** [exercise === name]. *)
Definition exercise_is (e : option string) (n : string) : bool :=
  match e with
  | Some m => String.eqb m n
  | None => false
  end.

(* ================================================================== *)
(** ** createDataPoint *)

(** [kp?.y]: [undefined] when the keypoint is. *)
Definition opt_y (kp : option Keypoint.t) : option float :=
  option_map Keypoint.y kp.

(** [a || b] where both sides are a number, [null] or [undefined]. *)
Definition or_val (a b : option float) : option float :=
  if JS.truthy_opt a then a else b.

Definition isSome {A : Type} (a : option A) : bool :=
  match a with Some _ => true | None => false end.

(** The chest position: the average of the shoulders, the one visible
    shoulder, or 50 units below the nose. *)
Definition chestEstimate (leftShoulder rightShoulder nose : option Keypoint.t)
  : option float :=
  match leftShoulder, rightShoulder with
  | Some l, Some r => Some ((Keypoint.y l + Keypoint.y r) / 2)%float
  | _, _ =>
      match JS.or_obj leftShoulder rightShoulder with
      | Some sh => Some (Keypoint.y sh)
      | None =>
          match nose with
          | Some n => Some (Keypoint.y n + 50)%float
          | None => None
          end
      end
  end.

Definition createDataPoint (keypoints : option Frame) (timestamp : float)
  : option DataPoint.t :=
  match keypoints with
  | None => None
  | Some kps =>
      if (List.length kps =? 0)%nat then None
      else
        let leftHip := getKeypoint kps "left_hip" in
        let rightHip := getKeypoint kps "right_hip" in
        let leftKnee := getKeypoint kps "left_knee" in
        let rightKnee := getKeypoint kps "right_knee" in
        let leftShoulder := getKeypoint kps "left_shoulder" in
        let rightShoulder := getKeypoint kps "right_shoulder" in
        let nose := getKeypoint kps "nose" in
        let hasUpperBody :=
          isSome leftShoulder || isSome rightShoulder || isSome nose in
        let hasLowerBody := isSome leftHip || isSome rightHip in
        if negb hasUpperBody && negb hasLowerBody then None
        else
          let chestY := chestEstimate leftShoulder rightShoulder nose in
          let hip := JS.or_obj leftHip rightHip in
          let knee := JS.or_obj leftKnee rightKnee in
          let shoulder := JS.or_obj leftShoulder rightShoulder in
          Some (DataPoint.mk
                  timestamp
                  (or_val (opt_y hip) None)
                  (or_val (opt_y knee) None)
                  (or_val (opt_y shoulder) None)
                  chestY
                  (if hasLowerBody
                   then Some ((JS.toNumber (or_val (opt_y hip) (Some 0%float))
                               + JS.toNumber (or_val (opt_y knee)
                                                (or_val (opt_y hip) (Some 0%float)))
                               + JS.toNumber (or_val (opt_y shoulder)
                                                (or_val (opt_y hip) (Some 0%float))))
                              / 3)%float
                   else chestY)
                  (hasLowerBody && hasUpperBody))
  end.

(* ================================================================== *)
(** ** The callbacks of usePresage

    [Date.now()] is read several times inside one callback; every reading
    is an argument of the embedded function, in the order of the calls. *)

(** [trackMovement(keypoints)]: [t0] stamps the data point, [t1] is read
    for the movement cutoff (only when an exercise is selected) and [t2]
    for the breathing cutoff. *)
Definition trackMovement (keypoints : option Frame) (t0 t1 t2 : float)
  (s : Session) : Session :=
  if negb (isActive s) || negb (isSome keypoints) then s
  else
    match createDataPoint keypoints t0 with
    | None => s
    | Some dataPoint =>
        let s1 :=
          match DataPoint.chestY dataPoint with
          | Some c =>
              if JS.truthy c
              then set_breathingHistory
                     (breathingHistoryRef s
                        ++ [BreathingSample.mk (DataPoint.timestamp dataPoint) c])
                     s
              else s
          | None => s
          end in
        let s2 :=
          if exercise_selected (exercise s1)
          then
            let pushed := movementHistoryRef s1 ++ [dataPoint] in
            let cutoff := (t1 - HISTORY_WINDOW)%float in
            set_movementHistory
              (filter (fun point => JS.gt (DataPoint.timestamp point) cutoff)
                 pushed)
              s1
          else s1 in
        let breathingCutoff := (t2 - BREATHING_WINDOW)%float in
        set_breathingHistory
          (filter (fun point => JS.gt (BreathingSample.timestamp point)
                                  breathingCutoff)
             (breathingHistoryRef s2))
          s2
    end.

(** [formAnalysis?.isValid] as a condition. *)
Definition formValid (formAnalysis : option FormResult.t) : bool :=
  match formAnalysis with
  | Some r => FormResult.isValid r
  | None => false
  end.

(** The body of [if (...) { // Rep completed ... }], which the squat and
    the push-up branch of [trackRep] share word for word. *)
Definition recordRep (formAnalysis : option FormResult.t) (now : float)
  (s : Session) : Session :=
  let s1 :=
    if JS.truthy_opt (lastRepTimeRef s)
    then
      let repDuration := (now - JS.toNumber (lastRepTimeRef s))%float in
      let pushed :=
        repHistoryRef s
          ++ [RepRecord.mk now repDuration
                (if formValid formAnalysis then good else poor)] in
      set_repHistory
        (if (10 <? List.length pushed)%nat then tl pushed else pushed) s
    else s in
  set_lastRepTime (Some now) s1.

(** [history.reduce(...)] of the squat branch: the point of greatest
    [centerY]. *)
Definition lowestCenter (history : list DataPoint.t) : option DataPoint.t :=
  JS.reduce1
    (fun min point =>
       if JS.gt (JS.toNumber (DataPoint.centerY point))
                (JS.toNumber (DataPoint.centerY min))
       then point else min)
    history.

(** [history.reduce(...)] of the push-up branch. *)
Definition lowestShoulder (history : list DataPoint.t) : option DataPoint.t :=
  JS.reduce1
    (fun min point =>
       if JS.truthy_opt (DataPoint.shoulderY point)
          && JS.truthy_opt (DataPoint.shoulderY min)
       then (if JS.gt (JS.toNumber (DataPoint.shoulderY point))
                      (JS.toNumber (DataPoint.shoulderY min))
             then point else min)
       else min)
    history.

(** The condition [wasLower && !isAtBottom && formAnalysis?.isValid] of
    the squat branch. *)
Definition squatRepCompleted (history : list DataPoint.t)
  (dataPoint lowestPoint : DataPoint.t) (formAnalysis : option FormResult.t)
  : bool :=
  let isAtBottom :=
    JS.lt (PrimFloat.abs (JS.toNumber (DataPoint.centerY dataPoint)
                          - JS.toNumber (DataPoint.centerY lowestPoint))%float)
          20%float in
  let recentPoints := JS.slice_last 5 history in
  let wasLower :=
    existsb (fun p => JS.gt (JS.toNumber (DataPoint.centerY p))
                        (JS.toNumber (DataPoint.centerY dataPoint) + 30)%float)
      recentPoints in
  wasLower && negb isAtBottom && formValid formAnalysis.

Section Hook.

(** [calculateAngle] of [lib/angleUtils]: the angle at the middle point,
    in degrees. *)
Variable calculateAngle : Keypoint.t -> Keypoint.t -> Keypoint.t -> float.

(** The condition [wasLower && !isAtBottom && isAtTop &&
    formAnalysis?.isValid] of the push-up branch. *)
Definition pushUpRepCompleted (history : list DataPoint.t)
  (dataPoint lowestPoint : DataPoint.t) (shoulder elbow wrist : Keypoint.t)
  (formAnalysis : option FormResult.t) : bool :=
  let isAtBottom :=
    JS.lt (PrimFloat.abs (JS.toNumber (DataPoint.shoulderY dataPoint)
                          - JS.toNumber (DataPoint.shoulderY lowestPoint))%float)
          20%float in
  let recentPoints := JS.slice_last 5 history in
  let wasLower :=
    existsb (fun p =>
               JS.truthy_opt (DataPoint.shoulderY p)
               && JS.truthy_opt (DataPoint.shoulderY dataPoint)
               && JS.gt (JS.toNumber (DataPoint.shoulderY p))
                    (JS.toNumber (DataPoint.shoulderY dataPoint) + 30)%float)
      recentPoints in
  let elbowAngle := calculateAngle shoulder elbow wrist in
  let isAtTop := JS.gt elbowAngle 160%float in
  wasLower && negb isAtBottom && isAtTop && formValid formAnalysis.

(** [trackRep(keypoints, formAnalysis)]: [t0] stamps the data point and
    [now] is the reading taken when a rep is completed. *)
Definition trackRep (keypoints : option Frame)
  (formAnalysis : option FormResult.t) (t0 now : float) (s : Session)
  : Session :=
  if negb (isActive s) || negb (exercise_selected (exercise s))
     || negb (isSome keypoints)
  then s
  else
    match createDataPoint keypoints t0 with
    | None => s
    | Some dataPoint =>
        let history := movementHistoryRef s in
        if (List.length history <? 10)%nat then s
        else if exercise_is (exercise s) "squat" then
          match lowestCenter history with
          | None => s
          | Some lowestPoint =>
              if squatRepCompleted history dataPoint lowestPoint formAnalysis
              then recordRep formAnalysis now s
              else s
          end
        else if exercise_is (exercise s) "push-up" then
          if negb (JS.truthy_opt (DataPoint.shoulderY dataPoint)) then s
          else
            match lowestShoulder history with
            | None => s
            | Some lowestPoint =>
                if negb (JS.truthy_opt (DataPoint.shoulderY lowestPoint))
                then s
                else
                  let kps := match keypoints with Some k => k | None => [] end in
                  match getKeypoint kps "shoulder",
                        getKeypoint kps "elbow",
                        getKeypoint kps "wrist" with
                  | Some shoulder, Some elbow, Some wrist =>
                      if pushUpRepCompleted history dataPoint lowestPoint
                           shoulder elbow wrist formAnalysis
                      then recordRep formAnalysis now s
                      else s
                  | _, _, _ => s
                  end
            end
        else s
    end.

End Hook.

(* ================================================================== *)
(** ** analyzeAndPredict and getPredictions *)

Definition msg_slowing : string :=
  "You're slowing down. Consider taking a short break soon.".
Definition msg_break : string :=
  "Take a short break to avoid fatigue and maintain good form.".
Definition msg_focus : string :=
  "Focus on maintaining your form. Slow down if needed.".
Definition msg_posture : string :=
  "Your posture may weaken after the next rep. Slow down and focus on form.".

(** The template literal of the milestone suggestion. *)
Definition msg_milestone (count : nat) : string :=
  "Great work! You've completed " ++ JS.string_of_nat count
    ++ " reps. Keep it up!".

(** The milestone suggestion for a given count. *)
Definition encouragementFor (count : nat) : Suggestion.t :=
  Suggestion.mk encouragement (msg_milestone count) low.

Definition sumDurations (reps : list RepRecord.t) : float :=
  fold_left (fun sum rep => (sum + RepRecord.duration rep)%float) reps 0%float.

Definition isGood (rep : RepRecord.t) : bool :=
  match RepRecord.formQuality rep with good => true | poor => false end.

(** [speedIncrease] of [analyzeAndPredict]. *)
Definition speedIncrease (recentReps : list RepRecord.t) : bool :=
  let avgRepDuration :=
    (sumDurations recentReps / JS.of_nat (List.length recentReps))%float in
  let speedTrend :=
    if (3 <=? List.length recentReps)%nat
    then (sumDurations (JS.slice_last 3 recentReps) / 3)%float
    else avgRepDuration in
  JS.gt speedTrend (avgRepDuration * 1.2)%float.

(** [recentFormQuality] of [analyzeAndPredict]: the fraction of the
    recent reps whose form was good. *)
Definition recentFormQuality (recentReps : list RepRecord.t) : float :=
  (JS.of_nat (List.length (filter isGood recentReps))
   / JS.of_nat (List.length recentReps))%float.

(** [formDeclining] of [analyzeAndPredict]. *)
Definition formDeclining (recentReps : list RepRecord.t) : bool :=
  JS.lt (recentFormQuality recentReps) 0.6%float.

(** The variance of a list of numbers, as both analyses compute it. *)
Definition variance (values : list float) : float :=
  let avg := (JS.sum values / JS.of_nat (List.length values))%float in
  (fold_left (fun sum v => (sum + JS.pow2 (v - avg))%float) values 0%float
   / JS.of_nat (List.length values))%float.

(** [highVariability] of [analyzeAndPredict]. *)
Definition highVariability (history : list DataPoint.t) : bool :=
  let recentPoints := JS.slice_last 30 history in
  let centerYValues :=
    map (fun p => JS.toNumber (DataPoint.centerY p)) recentPoints in
  JS.gt (variance centerYValues) 1000%float.

(** Pushing a suggestion and, for the four risk rules, setting a level. *)
Definition push_suggestion (sg : Suggestion.t) (p : Prediction.t)
  : Prediction.t :=
  Prediction.mk (Prediction.fatigueLevel p) (Prediction.riskOfMistake p)
    (Prediction.suggestions p ++ [sg]).

Definition set_fatigueLevel (l : Level) (p : Prediction.t) : Prediction.t :=
  Prediction.mk l (Prediction.riskOfMistake p) (Prediction.suggestions p).

Definition set_riskOfMistake (l : Level) (p : Prediction.t) : Prediction.t :=
  Prediction.mk (Prediction.fatigueLevel p) l (Prediction.suggestions p).

(** The part of [analyzeAndPredict] after its guards: the object
    [predictions] is created afresh and the rules run in order. *)
Definition buildPrediction (history : list DataPoint.t)
  (reps : list RepRecord.t) : Prediction.t :=
  let recentReps := JS.slice_last 5 reps in
  let speedIncrease := speedIncrease recentReps in
  let formDeclining := formDeclining recentReps in
  let highVariability := highVariability history in
  let p0 := Prediction.mk low low [] in
  let p1 :=
    if speedIncrease && (3 <=? List.length recentReps)%nat
    then push_suggestion (Suggestion.mk fatigue msg_slowing medium)
           (set_fatigueLevel medium p0)
    else p0 in
  let p2 :=
    if speedIncrease && formDeclining
    then push_suggestion (Suggestion.mk fatigue msg_break high)
           (set_fatigueLevel high p1)
    else p1 in
  let p3 :=
    if formDeclining && negb speedIncrease
    then push_suggestion (Suggestion.mk form msg_focus medium)
           (set_riskOfMistake medium p2)
    else p2 in
  let p4 :=
    if highVariability && formDeclining
    then push_suggestion (Suggestion.mk form msg_posture high)
           (set_riskOfMistake high p3)
    else p3 in
  if (0 <? List.length reps)%nat && (List.length reps mod 5 =? 0)%nat
  then push_suggestion (encouragementFor (List.length reps)) p4
  else p4.

(** [analyzeAndPredict()]: the returned value and the session after the
    two [setIsAnalyzing] calls (the last one wins). *)
Definition analyzeAndPredict (s : Session) : option Prediction.t * Session :=
  if negb (isActive s) || negb (exercise_selected (exercise s)) then (None, s)
  else
    let history := movementHistoryRef s in
    let reps := repHistoryRef s in
    if (List.length history <? 20)%nat
       || (List.length reps <? MIN_REPS_FOR_ANALYSIS)%nat
    then (None, s)
    else
      let predictions := buildPrediction history reps in
      let s1 := setIsAnalyzing false (setIsAnalyzing true s) in
      (if (0 <? List.length (Prediction.suggestions predictions))%nat
       then Some predictions else None,
       s1).

(** [getPredictions()], with the reading [now] of the clock. *)
Definition getPredictions (now : float) (s : Session)
  : option Prediction.t * Session :=
  if JS.lt (now - lastPredictionTimeRef s)%float PREDICTION_INTERVAL
  then (predictions s, s)
  else
    let s1 := set_lastPredictionTime now s in
    let (newPredictions, s2) := analyzeAndPredict s1 in
    match newPredictions with
    | Some p => (Some p, setPredictions (Some p) s2)
    | None => (None, s2)
    end.

(** [repCount] of the object the hook returns. *)
Definition repCount (s : Session) : nat := List.length (repHistoryRef s).

(* ================================================================== *)
(** ** analyzeBreathing *)

(** The confidence policy: the chain of comparisons on [stdDev]. *)
Definition confidenceOf (stdDev : float) : SignalConfidence :=
  if JS.lt stdDev 5%float then LOW
  else if JS.gt stdDev 50%float then LOW
  else if JS.gt stdDev 20%float then MEDIUM
  else HIGH.

(** [stdDev] of [analyzeBreathing]. *)
Definition chestStdDev (breathingData : list BreathingSample.t) : float :=
  let chestPositions := map BreathingSample.chestY breathingData in
  PrimFloat.sqrt (variance chestPositions).

Module Extremum.
Record t : Set := mk { index : nat; value : float; timestamp : float }.
End Extremum.

(** The loop [for (i = 1; i < length - 1; i++)]: [i] is the index of the
    second element of the list. *)
Fixpoint extrema (i : nat) (data : list BreathingSample.t)
  : list Extremum.t * list Extremum.t :=
  match data with
  | prev :: ((cur :: next :: _) as rest) =>
      let (peaks, valleys) := extrema (S i) rest in
      let c := BreathingSample.chestY cur in
      let e := Extremum.mk i c (BreathingSample.timestamp cur) in
      (if JS.gt c (BreathingSample.chestY prev)
          && JS.gt c (BreathingSample.chestY next)
       then e :: peaks else peaks,
       if JS.lt c (BreathingSample.chestY prev)
          && JS.lt c (BreathingSample.chestY next)
       then e :: valleys else valleys)
  | _ => ([], [])
  end.

(** [cycleDurations]: the differences of consecutive peak timestamps. *)
Fixpoint cycleDurations (peaks : list Extremum.t) : list float :=
  match peaks with
  | a :: ((b :: _) as rest) =>
      (Extremum.timestamp b - Extremum.timestamp a)%float :: cycleDurations rest
  | _ => []
  end.

Definition analyzeBreathing (s : Session) : Session :=
  let breathingData := breathingHistoryRef s in
  if (List.length breathingData <? 30)%nat then setSignalConfidence LOW s
  else
    let s1 := setSignalConfidence (confidenceOf (chestStdDev breathingData)) s in
    let (peaks, valleys) := extrema 1 breathingData in
    if (List.length peaks <? 2)%nat || (List.length valleys <? 2)%nat then s1
    else
      let timeSpan :=
        (BreathingSample.timestamp
           (last breathingData (BreathingSample.mk 0 0))
         - BreathingSample.timestamp
             (hd (BreathingSample.mk 0 0) breathingData))%float in
      let cycles := JS.of_nat (Nat.min (List.length peaks) (List.length valleys)) in
      let cyclesPerMinute := (cycles / timeSpan * 60000)%float in
      let s2 :=
        setBreathingRate
          (if JS.lt cyclesPerMinute 10%float then SLOW
           else if JS.gt cyclesPerMinute 25%float then FAST
           else NORMAL) s1 in
      let durations := cycleDurations peaks in
      if (2 <=? List.length durations)%nat
      then
        let avgDuration :=
          (JS.sum durations / JS.of_nat (List.length durations))%float in
        let durationStdDev := PrimFloat.sqrt (variance durations) in
        let coefficientOfVariation := (durationStdDev / avgDuration)%float in
        setBreathingConsistency
          (if JS.gt coefficientOfVariation 0.3%float then ERRATIC else STEADY) s2
      else s2.

(** One firing of the 3-second interval, which exists while the hook is
    active. *)
Definition breathingTick (now : float) (s : Session) : Session :=
  if JS.ge (now - lastBreathingAnalysisRef s)%float BREATHING_ANALYSIS_INTERVAL
  then set_lastBreathingAnalysis now (analyzeBreathing s)
  else s.

(* ================================================================== *)
(** ** The reset effect and rendering *)

(** The body of the effect "Reset tracking when exercise changes or
    stops". *)
Definition resetEffect (s : Session) : Session :=
  if negb (isActive s)
  then
    setSignalConfidence MEDIUM
      (setBreathingConsistency STEADY
         (setBreathingRate NORMAL
            (setPredictions None
               (set_lastRepTime None
                  (set_breathingHistory []
                     (set_repHistory []
                        (set_movementHistory [] s)))))))
  else s.

Definition same_exercise (a b : option string) : bool :=
  match a, b with
  | Some x, Some y => String.eqb x y
  | None, None => true
  | _, _ => false
  end.

(** A render of the component with arguments [(e, a)]: the effect runs
    when one of its dependencies [[isActive, exercise]] has changed. *)
Definition render (e : option string) (a : bool) (s : Session) : Session :=
  let s' := set_props e a s in
  if same_exercise (exercise s) e && Bool.eqb (isActive s) a
  then s'
  else resetEffect s'.

(** The first render: the effect always runs after mounting. *)
Definition mount (e : option string) (a : bool) : Session :=
  resetEffect (usePresage_init e a).

(* ================================================================== *)
(** ** The exercise form classifiers

    [findKeypoint] and [calculateAngle] come from [lib/angleUtils]; the
    classifiers are embedded over any pair of them.  Every call of
    [calculateAngle] is recorded next to the result, so that "no angle
    was computed" is a statement about the classifier. *)

Definition AngleCall : Set := (Keypoint.t * Keypoint.t * Keypoint.t)%type.

(** A value together with the angle computations performed for it. *)
Definition Traced (A : Type) : Type := (A * list AngleCall)%type.

Definition ret {A : Type} (a : A) : Traced A := (a, []).

Definition bind {A B : Type} (m : Traced A) (k : A -> Traced B) : Traced B :=
  let (a, l1) := m in
  let (b, l2) := k a in
  (b, l1 ++ l2).

Notation "x <- m ;; k" := (bind m (fun x => k))
  (at level 61, m at next level, right associativity).

(** The running pair [feedback], [isValid] that the checks assign to. *)
Definition Verdict : Set := (string * bool)%type.

Definition squat_bend : string :=
  "Bend your knees more to go deeper into the squat".
Definition squat_great_depth : string :=
  "Great depth! Keep your knees aligned with your toes".
Definition squat_good_form : string :=
  "Good form! You're getting deep into the squat".
Definition squat_keep_up : string :=
  "You're doing great! Keep it up!".
Definition squat_back : string :=
  "Keep your back straight and chest up".
Definition squat_knees : string :=
  "Keep your knees aligned with your toes, don't let them cave in".

Definition pushup_lower_more : string :=
  "Lower your body more to get full range of motion".
Definition pushup_excellent : string :=
  "Excellent depth! You're going all the way down".
Definition pushup_good_depth : string :=
  "Good depth! Keep your body straight".
Definition pushup_deeper : string :=
  "You're doing great! Try to go a bit deeper".
Definition pushup_complete : string :=
  "Lower your body more for a complete push-up".
Definition pushup_line : string :=
  "Keep your body in a straight line from head to toe".
Definition pushup_hands : string :=
  "Keep your hands directly under your shoulders".
Definition pushup_elbows : string :=
  "Keep your elbows closer to your body, not flared out".

(** Knee angle analysis (squat depth). *)
Definition squatDepth (kneeAngle : float) : Verdict :=
  if JS.gt kneeAngle 160%float then (squat_bend, false)
  else if JS.lt kneeAngle 70%float then (squat_great_depth, true)
  else if JS.lt kneeAngle 100%float then (squat_good_form, true)
  else (squat_keep_up, true).

(** Back alignment check: [hipAngle !== null] and [hipAngle < 150]. *)
Definition backCheckTriggers (hipAngle : option float) : bool :=
  match hipAngle with
  | Some a => JS.lt a 150%float
  | None => false
  end.

Definition backAlignmentCheck (hipAngle : option float) (v : Verdict) : Verdict :=
  if backCheckTriggers hipAngle then (squat_back, false) else v.

(** [alignmentRatio] of the knee alignment check. *)
Definition alignmentRatio (hip knee ankle : Keypoint.t) : float :=
  let kneeAnkleAlignment := PrimFloat.abs (Keypoint.x knee - Keypoint.x ankle) in
  let hipKneeDistance :=
    PrimFloat.sqrt (JS.pow2 (Keypoint.x hip - Keypoint.x knee)
                    + JS.pow2 (Keypoint.y hip - Keypoint.y knee)) in
  (kneeAnkleAlignment / JS.or_num hipKneeDistance 1)%float.

Definition kneeCheckTriggers (hip knee ankle : Keypoint.t) : bool :=
  JS.gt (alignmentRatio hip knee ankle) 0.3%float.

Definition kneeAlignmentCheck (hip knee ankle : Keypoint.t) (v : Verdict)
  : Verdict :=
  if kneeCheckTriggers hip knee ankle then (squat_knees, false) else v.

(** Elbow angle analysis (push-up depth). *)
Definition pushUpDepth (elbowAngle : float) : Verdict :=
  if JS.gt elbowAngle 170%float then (pushup_lower_more, false)
  else if JS.lt elbowAngle 80%float then (pushup_excellent, true)
  else if JS.lt elbowAngle 100%float then (pushup_good_depth, true)
  else if JS.lt elbowAngle 140%float then (pushup_deeper, true)
  else (pushup_complete, false).

(** [flareRatio] of the elbow flare check. *)
Definition flareRatio (shoulder elbow : Keypoint.t) : float :=
  let horizontalDistance := PrimFloat.abs (Keypoint.x elbow - Keypoint.x shoulder) in
  let verticalDistance := PrimFloat.abs (Keypoint.y elbow - Keypoint.y shoulder) in
  (horizontalDistance / JS.or_num verticalDistance 1)%float.

Section Analyzers.

Variable findKeypoint : Frame -> string -> option Keypoint.t.
Variable calculateAngle : Keypoint.t -> Keypoint.t -> Keypoint.t -> float.

(** The side policy of every classifier: the left joint, else the
    right one ([leftHip || rightHip]). *)
Definition preferLeft (keypoints : Frame) (joint : string)
  : option Keypoint.t :=
  JS.or_obj (findKeypoint keypoints ("left_" ++ joint))
    (findKeypoint keypoints ("right_" ++ joint)).

(** A call of [calculateAngle], recorded. *)
Definition angle (a b c : Keypoint.t) : Traced float :=
  (calculateAngle a b c, [(a, b, c)]).

Definition analyzeSquat (keypoints : Frame) : Traced FormResult.t :=
  let leftHip := findKeypoint keypoints "left_hip" in
  let rightHip := findKeypoint keypoints "right_hip" in
  let leftKnee := findKeypoint keypoints "left_knee" in
  let rightKnee := findKeypoint keypoints "right_knee" in
  let leftAnkle := findKeypoint keypoints "left_ankle" in
  let rightAnkle := findKeypoint keypoints "right_ankle" in
  let leftShoulder := findKeypoint keypoints "left_shoulder" in
  let rightShoulder := findKeypoint keypoints "right_shoulder" in
  let hip := JS.or_obj leftHip rightHip in
  let knee := JS.or_obj leftKnee rightKnee in
  let ankle := JS.or_obj leftAnkle rightAnkle in
  let shoulder := JS.or_obj leftShoulder rightShoulder in
  match hip, knee, ankle with
  | Some hip, Some knee, Some ankle =>
      kneeAngle <- angle hip knee ankle ;;
      hipAngle <- match shoulder with
                  | Some shoulder =>
                      a <- angle shoulder hip knee ;; ret (Some a)
                  | None => ret None
                  end ;;
      let v := squatDepth kneeAngle in
      let v := backAlignmentCheck hipAngle v in
      let v := kneeAlignmentCheck hip knee ankle v in
      ret (FormResult.mk (fst v) (snd v)
             [("kneeAngle", Some kneeAngle); ("hipAngle", hipAngle)])
  | _, _, _ => ret (FormResult.mk "" false [])
  end.

Definition analyzePushUp (keypoints : Frame) : Traced FormResult.t :=
  let leftShoulder := findKeypoint keypoints "left_shoulder" in
  let rightShoulder := findKeypoint keypoints "right_shoulder" in
  let leftElbow := findKeypoint keypoints "left_elbow" in
  let rightElbow := findKeypoint keypoints "right_elbow" in
  let leftWrist := findKeypoint keypoints "left_wrist" in
  let rightWrist := findKeypoint keypoints "right_wrist" in
  let leftHip := findKeypoint keypoints "left_hip" in
  let rightHip := findKeypoint keypoints "right_hip" in
  let leftAnkle := findKeypoint keypoints "left_ankle" in
  let rightAnkle := findKeypoint keypoints "right_ankle" in
  let shoulder := JS.or_obj leftShoulder rightShoulder in
  let elbow := JS.or_obj leftElbow rightElbow in
  let wrist := JS.or_obj leftWrist rightWrist in
  let hip := JS.or_obj leftHip rightHip in
  let ankle := JS.or_obj leftAnkle rightAnkle in
  match shoulder, elbow, wrist with
  | Some shoulder, Some elbow, Some wrist =>
      elbowAngle <- angle shoulder elbow wrist ;;
      let v := pushUpDepth elbowAngle in
      v <- match hip, ankle with
           | Some hip, Some ankle =>
               bodyAngle <- angle shoulder hip ankle ;;
               ret (if JS.lt bodyAngle 160%float
                    then (pushup_line, false) else v)
           | _, _ => ret v
           end ;;
      let v :=
        if JS.lt (Keypoint.x wrist) (Keypoint.x shoulder - 50)%float
        then (pushup_hands, false) else v in
      let v :=
        if JS.gt (flareRatio shoulder elbow) 1.5%float
        then (pushup_elbows, false) else v in
      ret (FormResult.mk (fst v) (snd v) [("elbowAngle", Some elbowAngle)])
  | _, _, _ => ret (FormResult.mk "" false [])
  end.

End Analyzers.

(* ================================================================== *)
(** ** The hook as a state machine *)

(** What can happen to a mounted hook: a call of one of its callbacks, a
    firing of the breathing interval, or a render with new arguments. *)
Inductive Event : Set :=
| TrackMovement (keypoints : option Frame) (t0 t1 t2 : float)
| TrackRep (keypoints : option Frame) (formAnalysis : option FormResult.t)
    (t0 now : float)
| GetPredictions (now : float)
| BreathingTick (now : float)
| Render (e : option string) (a : bool).

Section Machine.

Variable calculateAngle : Keypoint.t -> Keypoint.t -> Keypoint.t -> float.

Definition step (ev : Event) (s : Session) : Session :=
  match ev with
  | TrackMovement keypoints t0 t1 t2 => trackMovement keypoints t0 t1 t2 s
  | TrackRep keypoints formAnalysis t0 now =>
      trackRep calculateAngle keypoints formAnalysis t0 now s
  | GetPredictions now => snd (getPredictions now s)
  | BreathingTick now => if isActive s then breathingTick now s else s
  | Render e a => render e a s
  end.

Definition run (evs : list Event) (s : Session) : Session :=
  fold_left (fun acc ev => step ev acc) evs s.

(** The sessions a mounted hook can be in. *)
Inductive reachable : Session -> Prop :=
| reach_mount (e : option string) (a : bool) : reachable (mount e a)
| reach_step (ev : Event) (s : Session) :
    reachable s -> reachable (step ev s).

(** "A rep completion is detected" by [trackRep] on this input: the
    guards pass, the hysteresis condition of the selected exercise
    holds and the form result is valid. *)
Definition repCompleted (keypoints : option Frame)
  (formAnalysis : option FormResult.t) (t0 : float) (s : Session) : bool :=
  isActive s && exercise_selected (exercise s) && isSome keypoints
  && match createDataPoint keypoints t0 with
     | None => false
     | Some dataPoint =>
         let history := movementHistoryRef s in
         (10 <=? List.length history)%nat
         && if exercise_is (exercise s) "squat" then
              match lowestCenter history with
              | Some lowestPoint =>
                  squatRepCompleted history dataPoint lowestPoint formAnalysis
              | None => false
              end
            else if exercise_is (exercise s) "push-up" then
              JS.truthy_opt (DataPoint.shoulderY dataPoint)
              && match lowestShoulder history with
                 | Some lowestPoint =>
                     JS.truthy_opt (DataPoint.shoulderY lowestPoint)
                     && match keypoints with
                        | Some kps =>
                            match getKeypoint kps "shoulder",
                                  getKeypoint kps "elbow",
                                  getKeypoint kps "wrist" with
                            | Some shoulder, Some elbow, Some wrist =>
                                pushUpRepCompleted calculateAngle history
                                  dataPoint lowestPoint shoulder elbow wrist
                                  formAnalysis
                            | _, _, _ => false
                            end
                        | None => false
                        end
                 | None => false
                 end
            else false
     end.

End Machine.

(* ================================================================== *)
(** ** Statement vocabulary and sample inputs *)

(** A keypoint that [getKeypoint] may select for [name]: it has a name
    whose lower-cased form contains the lower-cased [name], and a score
    strictly above 0.3. *)
Definition usable (name : string) (k : Keypoint.t) : Prop :=
  Keypoint.name k <> ""
  /\ (exists u v,
         JS.toLowerCase (Keypoint.name k)
         = (u ++ JS.toLowerCase name ++ v)%string)
  /\ JS.gt (Keypoint.score k) 0.3%float = true.

Definition kp (name : string) (x y score : float) : option Keypoint.t :=
  Some (Keypoint.mk name x y score).

(** A frame whose only point has a score of exactly 0.3. *)
Definition point_at_threshold : Keypoint.t :=
  Keypoint.mk "left_hip" 100 200 0.3.

Definition frame_at_threshold : Frame := [Some point_at_threshold].

(** Two points match ['hip']; the first has a capitalised name. *)
Definition frame_two_hips : Frame :=
  [kp "nose" 100 20 0.9; kp "Left_Hip" 90 200 0.8; kp "right_hip" 110 201 0.9].

(** [pairs] repetitions of the two chest heights [lo] and [hi]. *)
Fixpoint oscillation (pairs : nat) (lo hi : float) : list BreathingSample.t :=
  match pairs with
  | O => []
  | S n => BreathingSample.mk 0 lo :: BreathingSample.mk 0 hi :: oscillation n lo hi
  end.

(** An active session without exercise, holding the given breathing
    window. *)
Definition breathing_session (data : list BreathingSample.t) : Session :=
  set_breathingHistory data (usePresage_init None true).

(** A frame whose hip, knee and shoulder put the centre of mass at
    height [y]. *)
Definition body (y : float) : Frame :=
  [kp "left_shoulder" 100 (y - 100) 0.9;
   kp "left_hip" 100 y 0.9;
   kp "left_knee" 100 (y + 100) 0.9].

Definition validForm : FormResult.t := FormResult.mk squat_keep_up true [].

(** An angle function for runs in which no angle matters. *)
Definition flatAngle (a b c : Keypoint.t) : float := 180.

(** Twenty frames at the bottom of a squat, a millisecond apart. *)
Definition warmup : list Event :=
  map (fun i => let t := (1000 + JS.of_nat i)%float in
                TrackMovement (Some (body 300)) t t t)
    (seq 1 20).

(** The [i]-th call of [trackRep] on a frame that has come up by 100
    units, one second after the previous one. *)
Definition repEvent (i : nat) : Event :=
  let t := (2000 + 1000 * JS.of_nat i)%float in
  TrackRep (Some (body 200)) (Some validForm) t t.

(** A squat session in which [trackRep] has detected [n] completed reps. *)
Definition session_after (n : nat) : Session :=
  run flatAngle (warmup ++ map repEvent (seq 1 n)) (mount (Some "squat") true).

(** The squat session after five recorded reps, a prediction that
    congratulated on them, and one more recorded rep. *)
Definition session_stale : Session :=
  run flatAngle
    (warmup ++ map repEvent (seq 1 6) ++ [GetPredictions 20000; repEvent 7])
    (mount (Some "squat") true).

(** What holds of the rep history of every session. *)
Definition rep_invariant (s : Session) : Prop :=
  Forall (fun r => RepRecord.formQuality r = good) (repHistoryRef s)
  /\ List.length (repHistoryRef s) <= 10.

(** Both shoulders on the top edge of the image. *)
Definition frame_top_edge : Frame :=
  [kp "left_shoulder" 100 0 0.9; kp "right_shoulder" 140 0 0.9].

(** The same shoulders one unit lower. *)
Definition frame_below_edge : Frame :=
  [kp "left_shoulder" 100 1 0.9; kp "right_shoulder" 140 1 0.9].

(** The neutral result of a classifier. *)
Definition noOpinion : FormResult.t := FormResult.mk "" false [].

(** A squat frame with the knee 60 units in front of the ankle. *)
Definition frame_knee_forward : Frame :=
  [kp "left_shoulder" 100 100 0.9; kp "left_hip" 100 200 0.9;
   kp "left_knee" 160 300 0.9; kp "left_ankle" 100 400 0.9].

(** A frame without ankles and without arms. *)
Definition frame_torso_only : Frame :=
  [kp "left_shoulder" 100 100 0.9; kp "left_hip" 100 200 0.9;
   kp "left_knee" 100 300 0.9].

(** An angle function that reports a bent joint everywhere. *)
Definition bentAngle (a b c : Keypoint.t) : float := 140.

(* ================================================================== *)
(** ** useFormAnalysis

    [analyzeWallSit] and [analyzeRomanianDeadlift] are classifiers of
    [lib/exerciseAnalyzers] like the two above; the dispatcher is
    embedded over any pair of them. *)

Section FormAnalysis.

Variable findKeypoint : Frame -> string -> option Keypoint.t.
Variable calculateAngle : Keypoint.t -> Keypoint.t -> Keypoint.t -> float.
Variable analyzeWallSit : Frame -> Traced FormResult.t.
Variable analyzeRomanianDeadlift : Frame -> Traced FormResult.t.

(** [analyzeForm(keypoints)] of the hook called with [exercise]. *)
Definition analyzeForm (exercise : option string) (keypoints : option Frame)
  : Traced FormResult.t :=
  match keypoints with
  | None => ret (FormResult.mk "" false [])
  | Some kps =>
      if negb (exercise_selected exercise) then ret (FormResult.mk "" false [])
      else if exercise_is exercise "squat"
      then analyzeSquat findKeypoint calculateAngle kps
      else if exercise_is exercise "push-up"
      then analyzePushUp findKeypoint calculateAngle kps
      else if exercise_is exercise "wall-sit" then analyzeWallSit kps
      else if exercise_is exercise "barbell-rdl" then analyzeRomanianDeadlift kps
      else ret (FormResult.mk "" false [])
  end.

End FormAnalysis.

(* ================================================================== *)
(** ** useVoiceFeedback: voice settings *)

(** [Math.min] and [Math.max] on two numbers: [NaN] if one of them is,
    and the negative zero counts as smaller than the positive one. *)
Module JSMath.

Definition is_neg_zero (v : float) : bool :=
  (v =? 0)%float && (1 / v <? 0)%float.

Definition min (a b : float) : float :=
  if PrimFloat.is_nan a || PrimFloat.is_nan b then nan
  else if (a <? b)%float then a
  else if (b <? a)%float then b
  else if is_neg_zero a then a else b.

Definition max (a b : float) : float :=
  if PrimFloat.is_nan a || PrimFloat.is_nan b then nan
  else if (a <? b)%float then b
  else if (b <? a)%float then a
  else if is_neg_zero a then b else a.

End JSMath.

(** The values of [BREATHING_RATE], [BREATHING_CONSISTENCY] and
    [SIGNAL_CONFIDENCE], and of [VOICE_PERSONALITY]. *)
Definition BREATHING_RATE (r : BreathingRate) : string :=
  match r with SLOW => "slow" | NORMAL => "normal" | FAST => "fast" end.

Definition BREATHING_CONSISTENCY (c : BreathingConsistency) : string :=
  match c with STEADY => "steady" | ERRATIC => "erratic" end.

Definition SIGNAL_CONFIDENCE (c : SignalConfidence) : string :=
  match c with LOW => "low" | MEDIUM => "medium" | HIGH => "high" end.

Inductive VoicePersonality : Set := CALM | ENERGETIC | NEUTRAL.

Definition VOICE_PERSONALITY (p : VoicePersonality) : string :=
  match p with CALM => "calm" | ENERGETIC => "energetic" | NEUTRAL => "neutral" end.

Module PersonalitySettings.
Record t : Set := mk {
  baseRate : float;
  basePitch : float;
  baseStability : float;
  voiceId : string
}.
End PersonalitySettings.

Module VoiceSettings.
Record t : Set := mk {
  rate : float;
  pitch : float;
  stability : float;
  volume : float;
  confidenceMultiplier : float;
  voiceId : string
}.
End VoiceSettings.

(** [getPersonalitySettings(personality)]: a [switch] whose default is
    the neutral case. *)
Definition getPersonalitySettings (personality : string)
  : PersonalitySettings.t :=
  if String.eqb personality (VOICE_PERSONALITY CALM)
  then PersonalitySettings.mk 0.85 0.95 0.7 "21m00Tcm4TlvDq8ikWAM"
  else if String.eqb personality (VOICE_PERSONALITY ENERGETIC)
  then PersonalitySettings.mk 0.95 1.1 0.3 "21m00Tcm4TlvDq8ikWAM"
  else PersonalitySettings.mk 0.9 1.0 0.5 "21m00Tcm4TlvDq8ikWAM".

(** [adaptVoiceSettings(personality, breathingRate, breathingConsistency,
    signalConfidence)]. *)
Definition adaptVoiceSettings
  (personality breathingRate breathingConsistency signalConfidence : string)
  : VoiceSettings.t :=
  let personalitySettings := getPersonalitySettings personality in
  let rate := PersonalitySettings.baseRate personalitySettings in
  let pitch := PersonalitySettings.basePitch personalitySettings in
  let stability := PersonalitySettings.baseStability personalitySettings in
  let volume := 1.0%float in
  let '(rate, pitch, stability) :=
    if String.eqb breathingRate "fast"
    then (JSMath.min rate 0.85,
          JSMath.max (pitch - 0.05) 0.9,
          JSMath.min (stability + 0.1) 0.8)%float
    else if String.eqb breathingRate "slow"
    then (JSMath.min (rate + 0.05) 1.0,
          JSMath.min (pitch + 0.05) 1.15,
          JSMath.max (stability - 0.1) 0.2)%float
    else (rate, pitch, stability) in
  let '(rate, stability) :=
    if String.eqb breathingConsistency "erratic"
    then (JSMath.min rate 0.88, JSMath.min (stability + 0.1) 0.8)%float
    else (rate, stability) in
  let confidenceMultiplier :=
    if String.eqb signalConfidence "low" then 1.5%float
    else if String.eqb signalConfidence "medium" then 1.2%float
    else 1.0%float in
  VoiceSettings.mk rate pitch stability volume confidenceMultiplier
    (PersonalitySettings.voiceId personalitySettings).

(* ================================================================== *)
(** ** useVoiceFeedback: the audio queue

    The queue of the class [AudioQueue], with two logs beside its two
    fields: the URLs for which an [Audio] was created and played (the
    n-th of them is audio n), and the calls of the promise callbacks of
    those audios (audio n resolved: [(n, true)], rejected: [(n, false)]). *)

Module AudioQueue.

Record t : Set := mk {
  queue : list string;
  isPlaying : bool;
  started : list string;
  settled : list (nat * bool)
}.

(** [new AudioQueue()]. *)
Definition empty : t := mk [] false [] [].

(** [processQueue()], up to the call of [audio.play()]. *)
Definition processQueue (q : t) : t :=
  if isPlaying q || (List.length (queue q) =? 0)%nat then q
  else
    match queue q with
    | audioUrl :: rest => mk rest true (started q ++ [audioUrl]) (settled q)
    | [] => q
    end.

(** [add(audioUrl)]: the executor of the promise runs at once. *)
Definition add (audioUrl : string) (q : t) : t :=
  processQueue (mk (queue q ++ [audioUrl]) (isPlaying q) (started q) (settled q)).

(** [audio.onended] of audio [n]. *)
Definition onended (n : nat) (q : t) : t :=
  processQueue (mk (queue q) false (started q) (settled q ++ [(n, true)])).

(** [audio.onerror] of audio [n]. *)
Definition onerror (n : nat) (q : t) : t :=
  processQueue (mk (queue q) false (started q) (settled q ++ [(n, false)])).

(** The [catch] branch around [await audio.play()] for audio [n]. *)
Definition caught (n : nat) (q : t) : t :=
  processQueue (mk (queue q) false (started q) (settled q ++ [(n, false)])).

(** What happens to a queue: a caller adds a URL, or one of the three
    handlers of an audio runs.  Nothing in the class keeps a handler
    from running for an audio that is no longer the current one, or two
    handlers from running for the same audio (a load failure fires
    [onerror] and rejects [play()]). *)
Inductive Event : Set :=
| Add (audioUrl : string)
| Ended (n : nat)
| Failed (n : nat)
| Caught (n : nat).

(** The audio whose handler an event runs, if it is a handler. *)
Definition audioOf (ev : Event) : option nat :=
  match ev with
  | Add _ => None
  | Ended n | Failed n | Caught n => Some n
  end.

(** Handlers exist for the audios that were created. *)
Definition step (ev : Event) (q : t) : t :=
  match ev with
  | Add audioUrl => add audioUrl q
  | Ended n => if (n <? List.length (started q))%nat then onended n q else q
  | Failed n => if (n <? List.length (started q))%nat then onerror n q else q
  | Caught n => if (n <? List.length (started q))%nat then caught n q else q
  end.

Definition run (evs : list Event) (q : t) : t :=
  fold_left (fun acc ev => step ev acc) evs q.

(** The URLs added by a list of events, in order. *)
Fixpoint added (evs : list Event) : list string :=
  match evs with
  | [] => []
  | Add audioUrl :: rest => audioUrl :: added rest
  | _ :: rest => added rest
  end.

(** The audios for which a handler has run. *)
Definition handled (q : t) : list nat := map fst (settled q).

(** A list of events in which every handler runs for an audio that was
    created and for which no handler has run before: each audio ends or
    fails once. *)
Fixpoint oncePerAudio (evs : list Event) (q : t) : bool :=
  match evs with
  | [] => true
  | ev :: rest =>
      match audioOf ev with
      | None => true
      | Some n =>
          (n <? List.length (started q))%nat
          && negb (existsb (Nat.eqb n) (handled q))
      end
      && oncePerAudio rest (step ev q)
  end.

End AudioQueue.

(* ================================================================== *)
(** ** Further statement vocabulary and sample inputs *)

(** A frame that shows the knees and nothing else. *)
Definition frame_knees_only : Frame :=
  [kp "left_knee" 100 300 0.9; kp "right_knee" 140 300 0.9].

(** The joints [createDataPoint] needs one of. *)
Definition noTrackablePoint (keypoints : Frame) : Prop :=
  getKeypoint keypoints "left_shoulder" = None
  /\ getKeypoint keypoints "right_shoulder" = None
  /\ getKeypoint keypoints "nose" = None
  /\ getKeypoint keypoints "left_hip" = None
  /\ getKeypoint keypoints "right_hip" = None.

(** A session that holds nothing: empty buffers, no rep timestamp, no
    prediction, and the breathing metrics at their initial values. *)
Definition holdsNothing (s : Session) : Prop :=
  movementHistoryRef s = [] /\ repHistoryRef s = []
  /\ breathingHistoryRef s = [] /\ lastRepTimeRef s = None
  /\ predictions s = None
  /\ breathingRate s = NORMAL /\ breathingConsistency s = STEADY
  /\ signalConfidence s = MEDIUM.

(** Everything of a session that rep tracking has no business with. *)
Definition sameButReps (s s' : Session) : Prop :=
  exercise s' = exercise s /\ isActive s' = isActive s
  /\ predictions s' = predictions s /\ isAnalyzing s' = isAnalyzing s
  /\ breathingRate s' = breathingRate s
  /\ breathingConsistency s' = breathingConsistency s
  /\ signalConfidence s' = signalConfidence s
  /\ movementHistoryRef s' = movementHistoryRef s
  /\ breathingHistoryRef s' = breathingHistoryRef s
  /\ lastPredictionTimeRef s' = lastPredictionTimeRef s
  /\ lastBreathingAnalysisRef s' = lastBreathingAnalysisRef s.

(** Completed reps recorded one after the other, at the given clock
    readings. *)
Definition recordAll (formAnalysis : option FormResult.t) (times : list float)
  (s : Session) : Session :=
  fold_left (fun acc now => recordRep formAnalysis now acc) times s.

(** The records those reps append, given the timestamp before them. *)
Fixpoint recordsOf (quality : FormQuality) (last : float) (times : list float)
  : list RepRecord.t :=
  match times with
  | [] => []
  | now :: rest =>
      RepRecord.mk now (now - last) quality :: recordsOf quality now rest
  end.

(** [cyclesPerMinute] of [analyzeBreathing], for a window and the
    extrema found in it. *)
Definition cyclesPerMinute (breathingData : list BreathingSample.t)
  (peaks valleys : list Extremum.t) : float :=
  let timeSpan :=
    (BreathingSample.timestamp (last breathingData (BreathingSample.mk 0 0))
     - BreathingSample.timestamp (hd (BreathingSample.mk 0 0) breathingData))%float in
  (JS.of_nat (Nat.min (List.length peaks) (List.length valleys))
   / timeSpan * 60000)%float.

(** Thirty chest samples a third of a second apart that rise for six
    samples and fall for six. *)
Definition slow_wave : list BreathingSample.t :=
  map (fun i =>
         BreathingSample.mk (333 * JS.of_nat i)
           (100 + JS.of_nat (if (i mod 12 <? 6)%nat then i mod 12
                             else 12 - i mod 12)))%float
    (seq 0 30).

(** [e] describes a strict local extremum of the chest heights of
    [data]: the sample at its index, which has a sample before and one
    after it, lies strictly [beyond] both neighbours, and [e] carries its
    height and timestamp. *)
Definition extremumAt (beyond : float -> float -> bool)
  (data : list BreathingSample.t) (e : Extremum.t) : Prop :=
  exists prev cur next,
    1 <= Extremum.index e
    /\ nth_error data (Extremum.index e - 1) = Some prev
    /\ nth_error data (Extremum.index e) = Some cur
    /\ nth_error data (Extremum.index e + 1) = Some next
    /\ beyond (BreathingSample.chestY cur) (BreathingSample.chestY prev) = true
    /\ beyond (BreathingSample.chestY cur) (BreathingSample.chestY next) = true
    /\ Extremum.value e = BreathingSample.chestY cur
    /\ Extremum.timestamp e = BreathingSample.timestamp cur.

(** The slowdown warning of the fatigue rule. *)
Definition slowdownWarning : Suggestion.t :=
  Suggestion.mk fatigue msg_slowing medium.

(** The conditions of the three secondary checks of [analyzePushUp]:
    the body line (only with a hip and an ankle), the hand position and
    the elbow flare. *)
Definition lineCheckTriggers
  (calculateAngle : Keypoint.t -> Keypoint.t -> Keypoint.t -> float)
  (shoulder : Keypoint.t) (hip ankle : option Keypoint.t) : bool :=
  match hip, ankle with
  | Some h, Some a => JS.lt (calculateAngle shoulder h a) 160%float
  | _, _ => false
  end.

Definition handsCheckTriggers (shoulder wrist : Keypoint.t) : bool :=
  JS.lt (Keypoint.x wrist) (Keypoint.x shoulder - 50)%float.

Definition flareCheckTriggers (shoulder elbow : Keypoint.t) : bool :=
  JS.gt (flareRatio shoulder elbow) 1.5%float.

(** A push-up frame with the arm bent and the elbow far out. *)
Definition frame_elbow_out : Frame :=
  [kp "left_shoulder" 100 100 0.9; kp "left_elbow" 200 110 0.9;
   kp "left_wrist" 100 200 0.9].

(** A form result that is not valid. *)
Definition invalidForm : FormResult.t := FormResult.mk squat_bend false [].

(** A wall-sit session with a full motion window, and the squat frame
    that has come up by 100 units. *)
Definition wallSit_session : Session :=
  set_props (Some "wall-sit") true (session_after 3).

(** What the audio queue keeps true of itself whatever handlers run,
    for the URLs [urls] added so far: every URL is either started or
    still waiting, in the order of adding; nothing waits while nothing
    plays; and a promise callback was only called for a created audio. *)
Definition queue_invariant (urls : list string) (q : AudioQueue.t) : Prop :=
  AudioQueue.started q ++ AudioQueue.queue q = urls
  /\ (AudioQueue.isPlaying q = false -> AudioQueue.queue q = [])
  /\ Forall (fun n => n < List.length (AudioQueue.started q))
       (AudioQueue.handled q).

(** What it keeps true besides when each audio ends or fails once:
    no audio was handled twice, and there is one more started audio
    than handled ones exactly while [isPlaying] holds. *)
Definition queue_single (q : AudioQueue.t) : Prop :=
  NoDup (AudioQueue.handled q)
  /\ List.length (AudioQueue.started q)
     = List.length (AudioQueue.handled q)
       + (if AudioQueue.isPlaying q then 1 else 0).

(** A data point with another timestamp. *)
Definition retime (t : float) (p : DataPoint.t) : DataPoint.t :=
  DataPoint.mk t (DataPoint.hipY p) (DataPoint.kneeY p) (DataPoint.shoulderY p)
    (DataPoint.chestY p) (DataPoint.centerY p) (DataPoint.hasFullBody p).

(** The messages of the two classifiers. *)
Definition squat_messages : list string :=
  [squat_bend; squat_great_depth; squat_good_form; squat_keep_up;
   squat_back; squat_knees].

Definition pushup_messages : list string :=
  [pushup_lower_more; pushup_excellent; pushup_good_depth; pushup_deeper;
   pushup_complete; pushup_line; pushup_hands; pushup_elbows].

(* ================================================================== *)
(** ** Facts about the string helpers *)

Lemma prefix_app (t s : string) :
  String.prefix t s = true <-> exists v, s = (t ++ v)%string.
Proof.
  revert s; induction t as [|c t IH]; intros s.
  - split; [intros _; now exists s | intros _; now destruct s].
  - destruct s as [|d s]; simpl.
    + split; [discriminate | intros [v Hv]; discriminate].
    + destruct (Ascii.ascii_dec c d) as [->|Hne].
      * rewrite IH. split; intros [v Hv]; exists v.
        -- now rewrite Hv.
        -- now inversion Hv.
      * split; [discriminate | intros [v Hv]; congruence].
Qed.

Lemma includes_eq (s t : string) :
  JS.includes s t =
  if String.prefix t s then true
  else match s with
       | EmptyString => false
       | String _ rest => JS.includes rest t
       end.
Proof. destruct s; reflexivity. Qed.

Lemma includes_app (s t : string) :
  JS.includes s t = true <-> exists u v, s = (u ++ t ++ v)%string.
Proof.
  induction s as [|c s IH]; rewrite includes_eq.
  - destruct (String.prefix t "") eqn:Hp.
    + split; [intros _ | reflexivity].
      apply prefix_app in Hp as [v Hv]. now exists "", v.
    + split; [discriminate|].
      intros [u [v Huv]]. destruct u; simpl in Huv.
      * assert (String.prefix t "" = true) by (apply prefix_app; now exists v).
        congruence.
      * discriminate.
  - destruct (String.prefix t (String c s)) eqn:Hp.
    + split; [intros _ | reflexivity].
      apply prefix_app in Hp as [v Hv]. now exists "", v.
    + rewrite IH. split.
      * intros [u [v Huv]]. exists (String c u), v. simpl. now rewrite Huv.
      * intros [u [v Huv]]. destruct u as [|d u]; simpl in Huv.
        -- assert (String.prefix t (String c s) = true)
             by (apply prefix_app; now exists v).
           congruence.
        -- inversion Huv. now exists u, v.
Qed.

Lemma lower_ascii_idem (c : ascii) :
  JS.lower_ascii (JS.lower_ascii c) = JS.lower_ascii c.
Proof.
  destruct c as [[|] [|] [|] [|] [|] [|] [|] [|]]; reflexivity.
Qed.

Lemma toLowerCase_idem (s : string) :
  JS.toLowerCase (JS.toLowerCase s) = JS.toLowerCase s.
Proof.
  induction s as [|c s IH]; simpl; [reflexivity|].
  now rewrite lower_ascii_idem, IH.
Qed.

Lemma find_pointwise {A : Type} (f g : A -> bool) (l : list A) :
  (forall a, f a = g a) -> find f l = find g l.
Proof.
  intros Hfg. induction l as [|a l IH]; simpl; [reflexivity|].
  now rewrite Hfg, IH.
Qed.

(* ================================================================== *)
(** ** Order facts on binary64 values

    Comparisons of an arbitrary number against the constants of the
    sources, from the specification of the primitive comparisons. *)

Ltac sf_order v :=
  rewrite ?ltb_spec, ?leb_spec in *;
  unfold SFltb, SFleb in *;
  destruct (Prim2SF v) as [sg|sg| |sg m e];
  repeat match goal with
    | H : context [Prim2SF ?c] |- _ =>
        let r := eval vm_compute in (Prim2SF c) in
        change (Prim2SF c) with r in H
    | |- context [Prim2SF ?c] =>
        let r := eval vm_compute in (Prim2SF c) in
        change (Prim2SF c) with r
    end;
  cbn [SFcompare] in *;
  try destruct sg; try congruence;
  repeat match goal with
    | H : context [Z.compare ?a ?b] |- _ => destruct (Z.compare_spec a b)
    | |- context [Z.compare ?a ?b] => destruct (Z.compare_spec a b)
    end;
  try congruence; try lia;
  do 2 try match goal with
    | H : context [PosDef.Pos.compare_cont Eq ?a ?b] |- _ =>
        let E := fresh "E" in
        destruct (PosDef.Pos.compare_cont Eq a b) eqn:E;
        [ apply (proj1 (Pos.compare_eq_iff a b)) in E
        | apply (proj1 (Pos.compare_lt_iff a b)) in E
        | apply (proj1 (Pos.compare_gt_iff a b)) in E ]
    | |- context [PosDef.Pos.compare_cont Eq ?a ?b] =>
        let E := fresh "E" in
        destruct (PosDef.Pos.compare_cont Eq a b) eqn:E;
        [ apply (proj1 (Pos.compare_eq_iff a b)) in E
        | apply (proj1 (Pos.compare_lt_iff a b)) in E
        | apply (proj1 (Pos.compare_gt_iff a b)) in E ]
    end;
  try reflexivity; try discriminate;
  try (exfalso; subst; eapply Pos.lt_irrefl; eassumption);
  try (exfalso; eapply Pos.lt_irrefl; eapply Pos.lt_trans; eassumption).

Lemma le20_not_gt50 (v : float) :
  JS.le v 20%float = true -> JS.gt v 50%float = false.
Proof. unfold JS.le, JS.gt. intros H. sf_order v. Qed.

Lemma le50_not_gt50 (v : float) :
  JS.le v 50%float = true -> JS.gt v 50%float = false.
Proof. unfold JS.le, JS.gt. intros H. sf_order v. Qed.

Lemma le20_not_gt20 (v : float) :
  JS.le v 20%float = true -> JS.gt v 20%float = false.
Proof. unfold JS.le, JS.gt. intros H. sf_order v. Qed.

Lemma gt20_not_lt5 (v : float) :
  JS.gt v 20%float = true -> JS.lt v 5%float = false.
Proof. unfold JS.lt, JS.gt. intros H. sf_order v. Qed.

Lemma ge5_not_lt5 (v : float) :
  JS.ge v 5%float = true -> JS.lt v 5%float = false.
Proof. unfold JS.ge, JS.lt. intros H. sf_order v. Qed.

(* ================================================================== *)
(** ** Keypoint selection *)

Lemma getKeypoint_test_usable (name : string) (k : Keypoint.t) :
  getKeypoint_test name (Some k) = true <-> usable name k.
Proof.
  unfold getKeypoint_test, usable, JS.truthy_str.
  rewrite !andb_true_iff, negb_true_iff, String.eqb_neq, includes_app.
  tauto.
Qed.

Lemma find_first {A : Type} (f : A -> bool) (l : list A) (a : A) :
  find f l = Some a <->
  exists pre post, l = pre ++ a :: post /\ f a = true
                   /\ Forall (fun e => f e = false) pre.
Proof.
  induction l as [|b l IH]; simpl.
  - split; [discriminate|].
    intros (pre & post & H & _). destruct pre; discriminate.
  - destruct (f b) eqn:Hb.
    + split.
      * intros [= ->]. exists [], l. auto.
      * intros (pre & post & H & Ha & Hpre). destruct pre as [|c pre].
        -- now inversion H.
        -- inversion H; subst. inversion Hpre; congruence.
    + rewrite IH. split.
      * intros (pre & post & -> & Ha & Hpre). exists (b :: pre), post. auto.
      * intros (pre & post & H & Ha & Hpre). destruct pre as [|c pre].
        -- inversion H; congruence.
        -- inversion H; subst. inversion Hpre. now exists pre, post.
Qed.

(** C10, as the code has it: [getKeypoint] returns the first entry, in
    input order, that is a point whose lower-cased name contains the
    lower-cased canonical name and whose score is strictly greater than
    0.3; a point whose score is exactly 0.3 is never selected, and the
    case of the canonical name makes no difference. *)
Theorem getKeypoint_first_usable :
  (forall (keypoints : Frame) (name : string) (k : Keypoint.t),
      getKeypoint keypoints name = Some k <->
      exists pre post,
        keypoints = pre ++ Some k :: post
        /\ usable name k
        /\ Forall (fun e => forall k', e = Some k' -> ~ usable name k') pre)
  /\ (forall (keypoints : Frame) (name : string) (k : Keypoint.t),
         Keypoint.score k = 0.3%float ->
         getKeypoint keypoints name <> Some k)
  /\ (forall (keypoints : Frame) (name : string),
         getKeypoint keypoints (JS.toLowerCase name) = getKeypoint keypoints name).
Proof.
  assert (Hchar : forall keypoints name k,
             getKeypoint keypoints name = Some k <->
             exists pre post,
               keypoints = pre ++ Some k :: post
               /\ usable name k
               /\ Forall (fun e => forall k', e = Some k' -> ~ usable name k') pre).
  { intros keypoints name k. unfold getKeypoint. split.
    - destruct (find _ keypoints) as [[k0|]|] eqn:Hf; try discriminate.
      intros [= ->]. apply find_first in Hf as (pre & post & -> & Hk & Hpre).
      exists pre, post. split; [reflexivity|split].
      + now apply getKeypoint_test_usable.
      + eapply Forall_impl; [|exact Hpre]. intros e He k' ->.
        rewrite <- getKeypoint_test_usable. congruence.
    - intros (pre & post & -> & Hk & Hpre).
      assert (Hf : find (getKeypoint_test name) (pre ++ Some k :: post)
                   = Some (Some k)).
      { apply find_first. exists pre, post. split; [reflexivity|split].
        - now apply getKeypoint_test_usable.
        - eapply Forall_impl; [|exact Hpre]. intros [k'|] He; [|reflexivity].
          destruct (getKeypoint_test name (Some k')) eqn:Ht; [|reflexivity].
          apply getKeypoint_test_usable in Ht. now destruct (He k' eq_refl). }
      now rewrite Hf. }
  split; [exact Hchar|]. split.
  - intros keypoints name k Hs Hget.
    apply Hchar in Hget as (_ & _ & _ & (_ & _ & Hgt) & _).
    rewrite Hs in Hgt. discriminate.
  - intros keypoints name. unfold getKeypoint.
    rewrite (find_pointwise (getKeypoint_test (JS.toLowerCase name))
               (getKeypoint_test name)); [reflexivity|].
    intros [k|]; [|reflexivity]. unfold getKeypoint_test.
    now rewrite toLowerCase_idem.
Qed.

(** C10, refuted as stated: a point named [left_hip] whose score is
    exactly 0.3 satisfies "score >= 0.3" and is not selected; with a
    score of 0.31 it is. *)
Lemma getKeypoint_rejects_threshold_score :
  JS.ge (Keypoint.score point_at_threshold) 0.3%float = true
  /\ getKeypoint frame_at_threshold "left_hip" = None
  /\ getKeypoint [kp "left_hip" 100 200 0.31] "left_hip"
     = kp "left_hip" 100 200 0.31.
Proof. repeat split. Qed.

(** The first of two matching points wins, whatever the case of its
    name. *)
Lemma getKeypoint_first_usable_witness :
  getKeypoint frame_two_hips "hip" = kp "Left_Hip" 90 200 0.8
  /\ exists pre post,
      frame_two_hips = pre ++ kp "Left_Hip" 90 200 0.8 :: post
      /\ usable "hip" (Keypoint.mk "Left_Hip" 90 200 0.8)
      /\ Forall (fun e => forall k', e = Some k' -> ~ usable "hip" k') pre.
Proof.
  split; [reflexivity|].
  apply (proj1 getKeypoint_first_usable frame_two_hips "hip"
           (Keypoint.mk "Left_Hip" 90 200 0.8)).
  reflexivity.
Defined.

(* ================================================================== *)
(** ** Breathing signal confidence *)

Lemma analyzeBreathing_confidence (s : Session) :
  30 <= List.length (breathingHistoryRef s) ->
  signalConfidence (analyzeBreathing s)
  = confidenceOf (chestStdDev (breathingHistoryRef s)).
Proof.
  intros Hlen. unfold analyzeBreathing.
  destruct (Nat.ltb_spec (List.length (breathingHistoryRef s)) 30) as [Hlt|_];
    [lia|].
  destruct (extrema 1 (breathingHistoryRef s)) as [peaks valleys].
  destruct (_ || _); [reflexivity|].
  destruct (2 <=? _)%nat; reflexivity.
Qed.

Lemma confidenceOf_bands (stdDev : float) :
  (JS.lt stdDev 5%float = true -> confidenceOf stdDev = LOW)
  /\ (JS.gt stdDev 50%float = true -> confidenceOf stdDev = LOW)
  /\ (JS.gt stdDev 20%float = true -> JS.le stdDev 50%float = true ->
      confidenceOf stdDev = MEDIUM)
  /\ (JS.ge stdDev 5%float = true -> JS.le stdDev 20%float = true ->
      confidenceOf stdDev = HIGH).
Proof.
  unfold confidenceOf. repeat split.
  - intros ->. reflexivity.
  - intros ->. now destruct (JS.lt stdDev 5).
  - intros Hgt Hle.
    now rewrite (gt20_not_lt5 _ Hgt), (le50_not_gt50 _ Hle), Hgt.
  - intros Hge Hle.
    now rewrite (ge5_not_lt5 _ Hge), (le20_not_gt50 _ Hle), (le20_not_gt20 _ Hle).
Qed.

(** C6, as the code has it: with at least 30 buffered chest samples the
    confidence is read off the standard deviation of the chest heights:
    below 5 it is low, above 50 it is low, above 20 and up to 50 it is
    medium, from 5 up to and including 20 it is high.  Standard
    deviations of 4, 6, 25 and 60 give low, high, medium and low; one of
    exactly 20 gives high, as does one of exactly 5, and one of exactly
    50 gives medium. *)
Theorem analyzeBreathing_signal_confidence :
  (forall s : Session,
      30 <= List.length (breathingHistoryRef s) ->
      let stdDev := chestStdDev (breathingHistoryRef s) in
      let confidence := signalConfidence (analyzeBreathing s) in
      (JS.lt stdDev 5%float = true -> confidence = LOW)
      /\ (JS.gt stdDev 50%float = true -> confidence = LOW)
      /\ (JS.gt stdDev 20%float = true -> JS.le stdDev 50%float = true ->
          confidence = MEDIUM)
      /\ (JS.ge stdDev 5%float = true -> JS.le stdDev 20%float = true ->
          confidence = HIGH))
  /\ (let at_stdDev lo hi :=
        (chestStdDev (oscillation 15 lo hi),
         signalConfidence (analyzeBreathing (breathing_session (oscillation 15 lo hi)))) in
      at_stdDev 96%float 104%float = (4%float, LOW)
      /\ at_stdDev 94%float 106%float = (6%float, HIGH)
      /\ at_stdDev 75%float 125%float = (25%float, MEDIUM)
      /\ at_stdDev 40%float 160%float = (60%float, LOW)
      /\ at_stdDev 95%float 105%float = (5%float, HIGH)
      /\ at_stdDev 80%float 120%float = (20%float, HIGH)
      /\ at_stdDev 50%float 150%float = (50%float, MEDIUM)).
Proof.
  split.
  - intros s Hlen stdDev confidence. subst confidence.
    rewrite (analyzeBreathing_confidence s Hlen). apply confidenceOf_bands.
  - vm_compute. repeat split.
Qed.

(** C6, refuted as stated: thirty chest samples whose standard deviation
    is exactly 20 are classified high, not medium. *)
Lemma stdDev_20_is_high :
  List.length (oscillation 15 80 120) = 30
  /\ chestStdDev (oscillation 15 80 120) = 20%float
  /\ signalConfidence (analyzeBreathing (breathing_session (oscillation 15 80 120)))
     = HIGH.
Proof. vm_compute. repeat split. Qed.

Lemma analyzeBreathing_signal_confidence_witness :
  30 <= List.length (breathingHistoryRef (breathing_session (oscillation 15 75 125)))
  /\ signalConfidence (analyzeBreathing (breathing_session (oscillation 15 75 125)))
     = MEDIUM.
Proof.
  assert (Hlen : 30 <= List.length
                         (breathingHistoryRef (breathing_session (oscillation 15 75 125))))
    by (simpl; lia).
  split; [exact Hlen|].
  apply (proj1 analyzeBreathing_signal_confidence
           (breathing_session (oscillation 15 75 125)) Hlen);
    vm_compute; reflexivity.
Defined.


(* ================================================================== *)
(** ** Rep detection and the rep history *)

Section RepHistory.

Variable calculateAngle : Keypoint.t -> Keypoint.t -> Keypoint.t -> float.

(** [trackRep] records a rep exactly on a detected completion, and
    does nothing otherwise. *)
Lemma trackRep_repCompleted keypoints formAnalysis t0 now s :
  trackRep calculateAngle keypoints formAnalysis t0 now s
  = if repCompleted calculateAngle keypoints formAnalysis t0 s
    then recordRep formAnalysis now s
    else s.
Proof.
  unfold trackRep, repCompleted.
  destruct (isActive s); [|reflexivity].
  destruct (exercise_selected (exercise s)); [|reflexivity].
  destruct keypoints as [kps|]; [|reflexivity].
  cbn [negb orb andb isSome].
  destruct (createDataPoint (Some kps) t0) as [dataPoint|]; [|reflexivity].
  rewrite Nat.leb_antisym.
  destruct (List.length (movementHistoryRef s) <? 10)%nat; [reflexivity|].
  cbn [negb andb].
  destruct (exercise_is (exercise s) "squat").
  { destruct (lowestCenter (movementHistoryRef s)); reflexivity. }
  destruct (exercise_is (exercise s) "push-up"); [|reflexivity].
  destruct (JS.truthy_opt (DataPoint.shoulderY dataPoint)); [|reflexivity].
  cbn [negb andb].
  destruct (lowestShoulder (movementHistoryRef s)) as [lowestPoint|];
    [|reflexivity].
  destruct (JS.truthy_opt (DataPoint.shoulderY lowestPoint)); [|reflexivity].
  cbn [negb andb].
  destruct (getKeypoint kps "shoulder"); [|reflexivity].
  destruct (getKeypoint kps "elbow"); [|reflexivity].
  destruct (getKeypoint kps "wrist"); reflexivity.
Qed.

(** A detected completion comes with a valid form result. *)
Lemma repCompleted_formValid keypoints formAnalysis t0 s :
  repCompleted calculateAngle keypoints formAnalysis t0 s = true ->
  formValid formAnalysis = true.
Proof.
  unfold repCompleted, squatRepCompleted, pushUpRepCompleted.
  intros H.
  repeat match type of H with
    | (_ && _) = true => apply andb_true_iff in H as [? H]
    | match ?x with _ => _ end = true => destruct x; try discriminate
    | (if ?x then _ else _) = true => destruct x; try discriminate
    end.
  all: repeat match goal with
         | H : (_ && _) = true |- _ => apply andb_true_iff in H as [? ?]
         end; assumption.
Qed.

Lemma repHistory_trackMovement keypoints t0 t1 t2 s :
  repHistoryRef (trackMovement keypoints t0 t1 t2 s) = repHistoryRef s
  /\ lastRepTimeRef (trackMovement keypoints t0 t1 t2 s) = lastRepTimeRef s.
Proof.
  unfold trackMovement.
  destruct (negb (isActive s) || negb (isSome keypoints)); [now split|].
  destruct (createDataPoint keypoints t0) as [dataPoint|]; [|now split].
  destruct (DataPoint.chestY dataPoint) as [c|]; [destruct (JS.truthy c)|];
    cbn; destruct (exercise_selected (exercise s)); now split.
Qed.

Lemma repHistory_analyzeAndPredict s :
  repHistoryRef (snd (analyzeAndPredict s)) = repHistoryRef s
  /\ lastRepTimeRef (snd (analyzeAndPredict s)) = lastRepTimeRef s
  /\ predictions (snd (analyzeAndPredict s)) = predictions s.
Proof.
  unfold analyzeAndPredict.
  destruct (_ || _); [now repeat split|].
  destruct (_ || _); now repeat split.
Qed.

Lemma repHistory_getPredictions now s :
  repHistoryRef (snd (getPredictions now s)) = repHistoryRef s
  /\ lastRepTimeRef (snd (getPredictions now s)) = lastRepTimeRef s.
Proof.
  unfold getPredictions.
  destruct (JS.lt _ _); [now split|].
  pose proof (repHistory_analyzeAndPredict (set_lastPredictionTime now s))
    as (Hr & Hl & _).
  destruct (analyzeAndPredict (set_lastPredictionTime now s)) as [[p|] s2];
    cbn in *; now split.
Qed.

Lemma repHistory_analyzeBreathing s :
  repHistoryRef (analyzeBreathing s) = repHistoryRef s
  /\ lastRepTimeRef (analyzeBreathing s) = lastRepTimeRef s.
Proof.
  unfold analyzeBreathing.
  destruct (_ <? 30)%nat; [now split|].
  destruct (extrema 1 (breathingHistoryRef s)) as [peaks valleys].
  destruct (_ || _); [now split|].
  destruct (2 <=? _)%nat; now split.
Qed.

(** What [recordRep] leaves behind. *)
Lemma recordRep_history formAnalysis now s :
  lastRepTimeRef (recordRep formAnalysis now s) = Some now
  /\ (forall last,
         lastRepTimeRef s = Some last -> JS.truthy last = true ->
         let pushed :=
           repHistoryRef s
             ++ [RepRecord.mk now (now - last)
                   (if formValid formAnalysis then good else poor)] in
         repHistoryRef (recordRep formAnalysis now s)
         = if (10 <? List.length pushed)%nat then tl pushed else pushed)
  /\ (lastRepTimeRef s = None ->
      repHistoryRef (recordRep formAnalysis now s) = repHistoryRef s)
  /\ movementHistoryRef (recordRep formAnalysis now s) = movementHistoryRef s
  /\ breathingHistoryRef (recordRep formAnalysis now s) = breathingHistoryRef s.
Proof.
  unfold recordRep. repeat split.
  - intros last Hlast Htruthy. rewrite Hlast. cbn [JS.truthy_opt JS.toNumber].
    rewrite Htruthy. reflexivity.
  - intros Hnone. rewrite Hnone. reflexivity.
  - destruct (JS.truthy_opt (lastRepTimeRef s)); reflexivity.
  - destruct (JS.truthy_opt (lastRepTimeRef s)); reflexivity.
Qed.

(** What [trackRep] does on a detected rep completion:
    [lastRepTimestamp] becomes the current time; when a previous rep
    timestamp exists, a record with the elapsed duration and quality
    'good' is appended and the oldest entry is evicted if the buffer
    then exceeds 10; on the very first detected rep, which has no
    previous timestamp, no record is appended and the rep history is
    left as it is. *)
Theorem detected_rep_is_recorded keypoints formAnalysis t0 now s :
  repCompleted calculateAngle keypoints formAnalysis t0 s = true ->
  let s' := trackRep calculateAngle keypoints formAnalysis t0 now s in
  lastRepTimeRef s' = Some now
  /\ (forall last,
         lastRepTimeRef s = Some last -> JS.truthy last = true ->
         let pushed :=
           repHistoryRef s ++ [RepRecord.mk now (now - last) good] in
         repHistoryRef s'
         = if (10 <? List.length pushed)%nat then tl pushed else pushed)
  /\ (lastRepTimeRef s = None -> repHistoryRef s' = repHistoryRef s).
Proof.
  intros Hdet s'. subst s'.
  rewrite trackRep_repCompleted, Hdet.
  pose proof (repCompleted_formValid _ _ _ _ Hdet) as Hvalid.
  pose proof (recordRep_history formAnalysis now s) as (H1 & H2 & H3 & _).
  rewrite Hvalid in H2. auto.
Qed.

End RepHistory.

(** C1, at the failing input: the first completion that [trackRep]
    detects in a fresh squat session appends no record (the history
    stays empty and the rep count stays 0), although the same call
    detects a completion and sets the rep timestamp; the second one
    appends.  The record is pushed inside [if (lastRepTimeRef.current)],
    so the first completed rep is never counted. *)
Lemma first_detected_rep_appends_nothing :
  repCompleted flatAngle (Some (body 200)) (Some validForm) 3000
    (session_after 0) = true
  /\ lastRepTimeRef (session_after 0) = None
  /\ repHistoryRef (session_after 1) = []
  /\ lastRepTimeRef (session_after 1) = Some 3000%float
  /\ repHistoryRef (session_after 2) = [RepRecord.mk 4000 1000 good].
Proof. vm_compute. repeat split. Qed.

Lemma detected_rep_is_recorded_witness :
  repCompleted flatAngle (Some (body 200)) (Some validForm) 4000
    (session_after 1) = true
  /\ (let s' := trackRep flatAngle (Some (body 200)) (Some validForm) 4000 4000
                  (session_after 1) in
      lastRepTimeRef s' = Some 4000%float
      /\ repHistoryRef s' = [RepRecord.mk 4000 1000 good]).
Proof.
  assert (H : repCompleted flatAngle (Some (body 200)) (Some validForm) 4000
                (session_after 1) = true) by (vm_compute; reflexivity).
  split; [exact H|].
  destruct (detected_rep_is_recorded flatAngle (Some (body 200))
              (Some validForm) 4000 4000 (session_after 1) H)
    as (Hlast & Hpush & _).
  split; [exact Hlast|].
  rewrite (Hpush 3000%float); vm_compute; reflexivity.
Defined.

(* ================================================================== *)
(** ** Invariants of the reachable sessions *)

Lemma Forall_skipn {A : Type} (P : A -> Prop) (n : nat) (l : list A) :
  Forall P l -> Forall P (skipn n l).
Proof.
  revert l; induction n as [|n IH]; intros l H; [exact H|].
  destruct l as [|a l]; [exact H|]. inversion H; subst. now apply IH.
Qed.

Lemma filter_all {A : Type} (f : A -> bool) (l : list A) :
  Forall (fun a => f a = true) l -> filter f l = l.
Proof.
  induction 1 as [|a l Ha _ IH]; simpl; [reflexivity|].
  now rewrite Ha, IH.
Qed.

Section Reachable.

Variable calculateAngle : Keypoint.t -> Keypoint.t -> Keypoint.t -> float.

Lemma run_reachable (evs : list Event) (s : Session) :
  reachable calculateAngle s -> reachable calculateAngle (run calculateAngle evs s).
Proof.
  revert s; induction evs as [|ev evs IH]; intros s H; [exact H|].
  apply IH. now constructor.
Qed.

Lemma recordRep_repHistory formAnalysis now s :
  repHistoryRef (recordRep formAnalysis now s)
  = if JS.truthy_opt (lastRepTimeRef s)
    then
      let pushed :=
        repHistoryRef s
          ++ [RepRecord.mk now (now - JS.toNumber (lastRepTimeRef s))
                (if formValid formAnalysis then good else poor)] in
      if (10 <? List.length pushed)%nat then tl pushed else pushed
    else repHistoryRef s.
Proof.
  unfold recordRep. now destruct (JS.truthy_opt (lastRepTimeRef s)).
Qed.

Lemma recordRep_invariant formAnalysis now s :
  formValid formAnalysis = true ->
  rep_invariant s -> rep_invariant (recordRep formAnalysis now s).
Proof.
  intros Hvalid [Hgood Hlen]. unfold rep_invariant.
  rewrite recordRep_repHistory, Hvalid.
  destruct (JS.truthy_opt (lastRepTimeRef s)); [|now split].
  set (pushed := repHistoryRef s ++ _). cbv zeta.
  assert (Hp : Forall (fun r => RepRecord.formQuality r = good) pushed).
  { apply Forall_app. split; [exact Hgood|]. now repeat constructor. }
  assert (Hl : List.length pushed = S (List.length (repHistoryRef s))).
  { unfold pushed. rewrite length_app. simpl. lia. }
  destruct (Nat.ltb_spec 10 (List.length pushed)) as [Hgt|Hle].
  - split.
    + destruct pushed; [exact Hp|]. now inversion Hp.
    + destruct pushed; simpl in *; lia.
  - split; [exact Hp|lia].
Qed.

Lemma step_invariant (ev : Event) (s : Session) :
  rep_invariant s -> rep_invariant (step calculateAngle ev s).
Proof.
  intros Hinv. unfold rep_invariant in *.
  destruct ev as [kps t0 t1 t2|kps fa t0 now|now|now|e a]; cbn [step].
  - now rewrite (proj1 (repHistory_trackMovement kps t0 t1 t2 s)).
  - rewrite trackRep_repCompleted.
    destruct (repCompleted calculateAngle kps fa t0 s) eqn:Hdet; [|exact Hinv].
    apply recordRep_invariant; [|exact Hinv].
    now apply (repCompleted_formValid calculateAngle kps fa t0 s).
  - now rewrite (proj1 (repHistory_getPredictions now s)).
  - destruct (isActive s); [|exact Hinv]. unfold breathingTick.
    destruct (JS.ge _ _); [|exact Hinv]. cbn.
    now rewrite (proj1 (repHistory_analyzeBreathing s)).
  - unfold render. destruct (_ && _); [exact Hinv|].
    unfold resetEffect. cbn. destruct a; cbn; [exact Hinv|].
    split; [constructor|lia].
Qed.

Lemma reachable_invariant (s : Session) :
  reachable calculateAngle s -> rep_invariant s.
Proof.
  induction 1 as [e a|ev s _ IH].
  - unfold rep_invariant, mount, resetEffect. destruct a; cbn;
      (split; [constructor|lia]).
  - now apply step_invariant.
Qed.

End Reachable.

(** With only good reps on record the form is never declining. *)
Lemma all_good_not_declining (reps : list RepRecord.t) :
  Forall (fun r => RepRecord.formQuality r = good) reps ->
  (reps <> [] -> recentFormQuality (JS.slice_last 5 reps) = 1%float)
  /\ formDeclining (JS.slice_last 5 reps) = false.
Proof.
  intros Hgood.
  assert (Hrecent : Forall (fun r => isGood r = true) (JS.slice_last 5 reps)).
  { apply Forall_skipn. eapply Forall_impl; [|exact Hgood].
    intros r Hr. unfold isGood. now rewrite Hr. }
  assert (Hlen : List.length (JS.slice_last 5 reps) <= 5
                 /\ (reps <> [] -> List.length (JS.slice_last 5 reps) <> 0)).
  { unfold JS.slice_last. rewrite length_skipn. split; [lia|].
    destruct reps; [congruence|]. simpl List.length. lia. }
  unfold formDeclining, recentFormQuality.
  rewrite (filter_all _ _ Hrecent).
  destruct Hlen as [Hle Hnz].
  destruct (List.length (JS.slice_last 5 reps)) as [|[|[|[|[|[|n]]]]]];
    try lia; (split; [intros Hne; try reflexivity; now destruct (Hnz Hne)
                     | reflexivity]).
Qed.

Lemma analyzeAndPredict_Some (s : Session) (p : Prediction.t) :
  fst (analyzeAndPredict s) = Some p ->
  p = buildPrediction (movementHistoryRef s) (repHistoryRef s)
  /\ Prediction.suggestions p <> []
  /\ isActive s = true
  /\ exercise_selected (exercise s) = true
  /\ 20 <= List.length (movementHistoryRef s)
  /\ 3 <= List.length (repHistoryRef s).
Proof.
  unfold analyzeAndPredict, MIN_REPS_FOR_ANALYSIS.
  destruct (isActive s); [|discriminate].
  destruct (exercise_selected (exercise s)); [|discriminate].
  cbn [negb orb].
  destruct (Nat.ltb_spec (List.length (movementHistoryRef s)) 20);
    [discriminate|].
  destruct (Nat.ltb_spec (List.length (repHistoryRef s)) 3); [discriminate|].
  cbn [orb fst].
  destruct (Prediction.suggestions (buildPrediction _ _)) eqn:Hs;
    [discriminate|].
  intros [= <-]. rewrite Hs. repeat split; auto. discriminate.
Qed.

Lemma analyzeAndPredict_guards (s : Session) :
  isActive s = true ->
  exercise_selected (exercise s) = true ->
  20 <= List.length (movementHistoryRef s) ->
  3 <= List.length (repHistoryRef s) ->
  fst (analyzeAndPredict s)
  = let p := buildPrediction (movementHistoryRef s) (repHistoryRef s) in
    match Prediction.suggestions p with
    | [] => None
    | _ :: _ => Some p
    end.
Proof.
  intros Ha He Hh Hr. unfold analyzeAndPredict, MIN_REPS_FOR_ANALYSIS.
  rewrite Ha, He. cbn [negb orb].
  destruct (Nat.ltb_spec (List.length (movementHistoryRef s)) 20); [lia|].
  destruct (Nat.ltb_spec (List.length (repHistoryRef s)) 3); [lia|].
  cbn [orb fst].
  now destruct (Prediction.suggestions (buildPrediction _ _)).
Qed.

(** Without declining form only the slowdown rule and the milestone rule
    can fire. *)
Lemma buildPrediction_good_form history reps :
  formDeclining (JS.slice_last 5 reps) = false ->
  let p := buildPrediction history reps in
  Prediction.fatigueLevel p <> high
  /\ Prediction.riskOfMistake p = low
  /\ Forall (fun sg => Suggestion.priority sg <> high
                       /\ Suggestion.type sg <> form)
       (Prediction.suggestions p).
Proof.
  intros Hfd. unfold buildPrediction. rewrite Hfd.
  rewrite !andb_false_r. cbn [andb].
  destruct (speedIncrease _ && _); destruct (_ && _); cbn;
    repeat split; try discriminate;
    repeat constructor; discriminate.
Qed.

(** C3: every record that is ever in the rep history has quality
    'good'; so the fraction of good recent reps is 1, the form is never
    found declining, and no evaluation sets the fatigue level to 'high'
    or the risk of mistake to anything but 'low' (nor emits a high
    priority or a form suggestion). *)
Theorem recorded_reps_are_good calculateAngle (s : Session) :
  reachable calculateAngle s ->
  Forall (fun r => RepRecord.formQuality r = good) (repHistoryRef s)
  /\ (repHistoryRef s <> [] ->
      recentFormQuality (JS.slice_last 5 (repHistoryRef s)) = 1%float)
  /\ formDeclining (JS.slice_last 5 (repHistoryRef s)) = false
  /\ (forall p, fst (analyzeAndPredict s) = Some p ->
                Prediction.fatigueLevel p <> high
                /\ Prediction.riskOfMistake p = low
                /\ Forall (fun sg => Suggestion.priority sg <> high
                                     /\ Suggestion.type sg <> form)
                     (Prediction.suggestions p)).
Proof.
  intros Hreach.
  destruct (reachable_invariant calculateAngle s Hreach) as [Hgood _].
  destruct (all_good_not_declining _ Hgood) as [Hone Hfd].
  split; [exact Hgood|]. split; [exact Hone|]. split; [exact Hfd|].
  intros p Hp. apply analyzeAndPredict_Some in Hp as (-> & _).
  now apply buildPrediction_good_form.
Qed.

Lemma recorded_reps_are_good_witness :
  reachable flatAngle (session_after 6)
  /\ Forall (fun r => RepRecord.formQuality r = good)
       (repHistoryRef (session_after 6))
  /\ repCount (session_after 6) = 5.
Proof.
  assert (H : reachable flatAngle (session_after 6))
    by (apply run_reachable; constructor).
  split; [exact H|]. split; [|reflexivity].
  apply (recorded_reps_are_good flatAngle (session_after 6) H).
Defined.

(* ================================================================== *)
(** ** Predictions *)

Ltac rule_cases history reps :=
  cbv zeta;
  generalize (speedIncrease (JS.slice_last 5 reps))
    (formDeclining (JS.slice_last 5 reps))
    (highVariability history)
    (3 <=? List.length (JS.slice_last 5 reps))%nat;
  intros [|] [|] [|] [|];
  cbn [andb negb push_suggestion set_fatigueLevel set_riskOfMistake
         Prediction.suggestions Prediction.fatigueLevel
         Prediction.riskOfMistake app In].

Lemma buildPrediction_encouragement history reps (sg : Suggestion.t) :
  In sg (Prediction.suggestions (buildPrediction history reps)) ->
  Suggestion.type sg = encouragement ->
  sg = encouragementFor (List.length reps)
  /\ 0 < List.length reps /\ List.length reps mod 5 = 0.
Proof.
  unfold buildPrediction.
  destruct ((0 <? List.length reps)%nat && (List.length reps mod 5 =? 0)%nat)
    eqn:Hm.
  - apply andb_true_iff in Hm as [Hpos Hmod].
    apply Nat.ltb_lt in Hpos. apply Nat.eqb_eq in Hmod.
    rule_cases history reps; intros Hin Hty;
      repeat (destruct Hin as [<-|Hin]; [try discriminate Hty; auto|]);
      destruct Hin.
  - rule_cases history reps; intros Hin Hty;
      repeat (destruct Hin as [<-|Hin]; [discriminate Hty|]);
      destruct Hin.
Qed.

Lemma buildPrediction_milestone history reps :
  0 < List.length reps -> List.length reps mod 5 = 0 ->
  In (encouragementFor (List.length reps))
    (Prediction.suggestions (buildPrediction history reps)).
Proof.
  intros Hpos Hmod. unfold buildPrediction.
  apply Nat.ltb_lt in Hpos. apply Nat.eqb_eq in Hmod. rewrite Hpos, Hmod.
  cbn [andb push_suggestion Prediction.suggestions].
  apply in_or_app. right. now left.
Qed.

(** The milestone rule as the code has it: its count is the
    length of the rep history, which never exceeds 10.  An evaluation
    that returns a prediction contains an encouragement suggestion only
    with that length interpolated and only when the length is 5 or 10;
    and an evaluation that passes the guards with a history of 5 or 10
    records returns a prediction that contains it.  With 6 records there
    is no such entry, and no evaluation ever reports a count of 15. *)
Theorem milestone_encouragement calculateAngle (s : Session) :
  reachable calculateAngle s ->
  repCount s <= 10
  /\ (forall p sg,
         fst (analyzeAndPredict s) = Some p ->
         In sg (Prediction.suggestions p) ->
         Suggestion.type sg = encouragement ->
         sg = encouragementFor (repCount s)
         /\ Suggestion.priority sg = low
         /\ (repCount s = 5 \/ repCount s = 10))
  /\ (isActive s = true ->
      exercise_selected (exercise s) = true ->
      20 <= List.length (movementHistoryRef s) ->
      repCount s = 5 \/ repCount s = 10 ->
      exists p, fst (analyzeAndPredict s) = Some p
                /\ In (encouragementFor (repCount s)) (Prediction.suggestions p)).
Proof.
  intros Hreach.
  destruct (reachable_invariant calculateAngle s Hreach) as [_ Hlen].
  unfold repCount. split; [exact Hlen|]. split.
  - intros p sg Hp Hin Hty.
    apply analyzeAndPredict_Some in Hp as (-> & _).
    destruct (buildPrediction_encouragement _ _ _ Hin Hty) as (-> & Hpos & Hmod).
    split; [reflexivity|]. split; [reflexivity|].
    pose proof (Nat.div_mod_eq (List.length (repHistoryRef s)) 5). lia.
  - intros Ha He Hh Hcount.
    assert (Hin : In (encouragementFor (List.length (repHistoryRef s)))
                    (Prediction.suggestions
                       (buildPrediction (movementHistoryRef s) (repHistoryRef s)))).
    { apply buildPrediction_milestone; destruct Hcount as [-> | ->];
        (lia || reflexivity). }
    rewrite (analyzeAndPredict_guards s Ha He Hh) by lia. cbv zeta.
    destruct (Prediction.suggestions (buildPrediction _ _)) eqn:Hs;
      [destruct Hin|].
    eexists. split; [reflexivity|]. now rewrite Hs.
Qed.

(** C4, at the failing input: after 15 (or 14, or 11) records have been
    appended the history holds 10 of them and the evaluation
    congratulates on 10 reps; no entry carries the count 15, and the
    11th rep is congratulated though 11 is no multiple of 5.  The count
    also misses the first rep: the sixth detected completion is
    congratulated as the fifth. *)
Lemma fifteenth_rep_reports_ten :
  repCount (session_after 6) = 5
  /\ fst (analyzeAndPredict (session_after 6))
     = Some (Prediction.mk low low [encouragementFor 5])
  /\ repCount (session_after 16) = 10
  /\ fst (analyzeAndPredict (session_after 16))
     = Some (Prediction.mk low low [encouragementFor 10])
  /\ fst (analyzeAndPredict (session_after 15))
     = Some (Prediction.mk low low [encouragementFor 10])
  /\ fst (analyzeAndPredict (session_after 12))
     = Some (Prediction.mk low low [encouragementFor 10])
  /\ encouragementFor 10
     = Suggestion.mk encouragement
         "Great work! You've completed 10 reps. Keep it up!" low
  /\ encouragementFor 15
     = Suggestion.mk encouragement
         "Great work! You've completed 15 reps. Keep it up!" low.
Proof. vm_compute. repeat split. Qed.

Lemma milestone_encouragement_witness :
  reachable flatAngle (session_after 6)
  /\ repCount (session_after 6) <= 10
  /\ fst (analyzeAndPredict (session_after 6))
     = Some (Prediction.mk low low [encouragementFor 5])
  /\ fst (analyzeAndPredict (session_after 7)) = None
  /\ fst (analyzeAndPredict (session_after 11))
     = Some (Prediction.mk low low [encouragementFor 10]).
Proof.
  assert (H : reachable flatAngle (session_after 6))
    by (apply run_reachable; constructor).
  split; [exact H|]. split.
  - apply (milestone_encouragement flatAngle (session_after 6) H).
  - vm_compute. repeat split.
Defined.

(** The evaluation reads the arguments of the hook and the two
    histories, and nothing else of the session. *)
Lemma analyzeAndPredict_reads (s1 s2 : Session) :
  isActive s1 = isActive s2 ->
  exercise s1 = exercise s2 ->
  movementHistoryRef s1 = movementHistoryRef s2 ->
  repHistoryRef s1 = repHistoryRef s2 ->
  fst (analyzeAndPredict s1) = fst (analyzeAndPredict s2).
Proof.
  intros Ha He Hm Hr. unfold analyzeAndPredict. rewrite Ha, He, Hm, Hr.
  destruct (_ || _); [reflexivity|]. now destruct (_ || _).
Qed.

(** A call of [getPredictions] after the interval is an evaluation. *)
Lemma getPredictions_due (now : float) (s : Session) :
  JS.lt (now - lastPredictionTimeRef s)%float PREDICTION_INTERVAL = false ->
  fst (getPredictions now s) = fst (analyzeAndPredict s)
  /\ predictions (snd (getPredictions now s))
     = match fst (analyzeAndPredict s) with
       | Some p => Some p
       | None => predictions s
       end.
Proof.
  intros Hdue. unfold getPredictions. rewrite Hdue.
  pose proof (repHistory_analyzeAndPredict (set_lastPredictionTime now s))
    as (_ & _ & Hkeep).
  assert (Hfst : fst (analyzeAndPredict (set_lastPredictionTime now s))
                 = fst (analyzeAndPredict s))
    by now apply analyzeAndPredict_reads.
  rewrite <- Hfst.
  destruct (analyzeAndPredict (set_lastPredictionTime now s)) as [[q|] s2];
    cbn [fst snd] in *; split; auto.
Qed.

(** C5, as the code has it: an evaluation (a call of [getPredictions]
    once the interval has elapsed) computes its result from the buffers
    alone, whatever prediction was exposed before; a result that is a
    prediction replaces the exposed value whole; an evaluation that
    generates no suggestions returns null, and then the exposed value is
    left as it was. *)
Theorem getPredictions_recomputes (now : float) (s : Session) :
  JS.lt (now - lastPredictionTimeRef s)%float PREDICTION_INTERVAL = false ->
  let result := fst (getPredictions now s) in
  let s' := snd (getPredictions now s) in
  (forall prior, fst (getPredictions now (setPredictions prior s)) = result)
  /\ (forall p, result = Some p ->
                predictions s' = Some p
                /\ p = buildPrediction (movementHistoryRef s) (repHistoryRef s))
  /\ (result = None -> predictions s' = predictions s)
  /\ (Prediction.suggestions
        (buildPrediction (movementHistoryRef s) (repHistoryRef s)) = [] ->
      result = None).
Proof.
  intros Hdue result s'. subst result s'.
  destruct (getPredictions_due now s Hdue) as [Hres Hexp].
  rewrite Hres, Hexp.
  split; [|split; [|split]].
  - intros prior.
    rewrite (proj1 (getPredictions_due now (setPredictions prior s) Hdue)).
    now apply analyzeAndPredict_reads.
  - intros p Hp. rewrite Hp. split; [reflexivity|].
    now destruct (analyzeAndPredict_Some s p Hp) as (-> & _).
  - intros ->. reflexivity.
  - intros Hnone.
    destruct (fst (analyzeAndPredict s)) as [q|] eqn:Hq; [|reflexivity].
    destruct (analyzeAndPredict_Some s q Hq) as (-> & Hne & _).
    now destruct Hne.
Qed.

(** C5, refuted as stated: a prediction congratulating on 5 reps is
    exposed; after one more rep the next evaluation generates no
    suggestion and returns null, yet the exposed prediction is still the
    old one, and the next early call returns it from the cache. *)
Lemma null_evaluation_keeps_old_prediction :
  predictions session_stale = Some (Prediction.mk low low [encouragementFor 5])
  /\ repCount session_stale = 6
  /\ fst (getPredictions 30000 session_stale) = None
  /\ predictions (snd (getPredictions 30000 session_stale))
     = Some (Prediction.mk low low [encouragementFor 5])
  /\ fst (getPredictions 31000 (snd (getPredictions 30000 session_stale)))
     = Some (Prediction.mk low low [encouragementFor 5]).
Proof. vm_compute. repeat split. Qed.

Lemma getPredictions_recomputes_witness :
  JS.lt (20000 - lastPredictionTimeRef (session_after 6))%float
    PREDICTION_INTERVAL = false
  /\ predictions (snd (getPredictions 20000 (session_after 6)))
     = Some (Prediction.mk low low [encouragementFor 5]).
Proof.
  assert (H : JS.lt (20000 - lastPredictionTimeRef (session_after 6))%float
                PREDICTION_INTERVAL = false) by (vm_compute; reflexivity).
  split; [exact H|].
  apply (getPredictions_recomputes 20000 (session_after 6) H).
  vm_compute. reflexivity.
Defined.

(* ================================================================== *)
(** ** The reset effect *)

(** Deactivating the hook clears every buffer and the rep timestamp. *)
Lemma render_inactive_resets (e : option string) (s : Session) :
  isActive s = true ->
  let s' := render e false s in
  movementHistoryRef s' = [] /\ repHistoryRef s' = []
  /\ breathingHistoryRef s' = [] /\ lastRepTimeRef s' = None
  /\ predictions s' = None.
Proof.
  intros Ha. unfold render. rewrite Ha. cbn [Bool.eqb].
  rewrite andb_false_r. now repeat split.
Qed.

(** C2, at the failing input: while the hook stays active, a render
    with another exercise runs the effect, whose guard [!isActive] skips
    the reset; the movement, rep and breathing buffers and the last rep
    timestamp are what they were. *)
Theorem exercise_change_keeps_buffers (e : option string) (s : Session) :
  isActive s = true ->
  let s' := render e true s in
  exercise s' = e
  /\ movementHistoryRef s' = movementHistoryRef s
  /\ repHistoryRef s' = repHistoryRef s
  /\ breathingHistoryRef s' = breathingHistoryRef s
  /\ lastRepTimeRef s' = lastRepTimeRef s.
Proof.
  intros Ha. unfold render, resetEffect.
  destruct (_ && _); cbn; now repeat split.
Qed.

Lemma exercise_change_keeps_buffers_witness :
  isActive (session_after 3) = true
  /\ exercise (session_after 3) = Some "squat"
  /\ (let s' := render (Some "push-up") true (session_after 3) in
      exercise s' = Some "push-up"
      /\ List.length (movementHistoryRef s') = 20
      /\ List.length (repHistoryRef s') = 2
      /\ List.length (breathingHistoryRef s') = 20
      /\ lastRepTimeRef s' = Some 5000%float).
Proof.
  assert (H : isActive (session_after 3) = true) by reflexivity.
  split; [exact H|]. split; [reflexivity|].
  destruct (exercise_change_keeps_buffers (Some "push-up") (session_after 3) H)
    as (He & Hm & Hr & Hb & Hl).
  cbv zeta. rewrite He, Hm, Hr, Hb, Hl. vm_compute. repeat split.
Defined.

(* ================================================================== *)
(** ** Breathing samples *)



(** C9, at the failing input: both shoulders lie on the top edge of the
    image, so the chest estimate exists and is 0; [if (dataPoint.chestY)]
    takes 0 for "no estimate" and no breathing sample is appended, while
    the same shoulders one unit lower are sampled. *)
Theorem chest_at_zero_is_not_sampled :
  option_map DataPoint.chestY (createDataPoint (Some frame_top_edge) 1000)
  = Some (Some 0%float)
  /\ breathingHistoryRef
       (trackMovement (Some frame_top_edge) 1000 1000 1000
          (usePresage_init None true)) = []
  /\ breathingHistoryRef
       (trackMovement (Some frame_below_edge) 1000 1000 1000
          (usePresage_init None true)) = [BreathingSample.mk 1000 1].
Proof. vm_compute. repeat split. Qed.

(* ================================================================== *)
(** ** The form classifiers *)

Section Classifiers.

Variable findKeypoint : Frame -> string -> option Keypoint.t.
Variable calculateAngle : Keypoint.t -> Keypoint.t -> Keypoint.t -> float.

Local Abbreviation joint := (preferLeft findKeypoint).
Local Abbreviation squat := (analyzeSquat findKeypoint calculateAngle).
Local Abbreviation pushUp := (analyzePushUp findKeypoint calculateAngle).

(** The squat classifier on a frame whose mandatory joints resolve. *)
Lemma analyzeSquat_resolved keypoints hip knee ankle :
  joint keypoints "hip" = Some hip ->
  joint keypoints "knee" = Some knee ->
  joint keypoints "ankle" = Some ankle ->
  let kneeAngle := calculateAngle hip knee ankle in
  let hipAngle :=
    option_map (fun shoulder => calculateAngle shoulder hip knee)
      (joint keypoints "shoulder") in
  let v := kneeAlignmentCheck hip knee ankle
             (backAlignmentCheck hipAngle (squatDepth kneeAngle)) in
  fst (squat keypoints)
  = FormResult.mk (fst v) (snd v)
      [("kneeAngle", Some kneeAngle); ("hipAngle", hipAngle)].
Proof.
  unfold preferLeft, analyzeSquat.
  cbn [append]. intros -> -> ->.
  destruct (JS.or_obj (findKeypoint keypoints "left_shoulder") _);
    reflexivity.
Qed.

(** C7: on a squat frame that triggers the back-alignment check and
    the knee-alignment check, the feedback is the knee-alignment
    message and the frame is invalid.  A triggered check always writes
    its message and [isValid = false] (the knee check, being last,
    always shows; the back check shows unless the knee check
    triggers), and a result is valid only if the depth classification
    was valid and no check triggered. *)
Theorem squat_checks_last_writer_wins keypoints hip knee ankle :
  joint keypoints "hip" = Some hip ->
  joint keypoints "knee" = Some knee ->
  joint keypoints "ankle" = Some ankle ->
  let result := fst (squat keypoints) in
  let hipAngle :=
    option_map (fun shoulder => calculateAngle shoulder hip knee)
      (joint keypoints "shoulder") in
  let back := backCheckTriggers hipAngle in
  let knees := kneeCheckTriggers hip knee ankle in
  (back = true -> knees = true ->
   FormResult.feedback result = squat_knees
   /\ FormResult.isValid result = false)
  /\ (knees = true ->
      FormResult.feedback result = squat_knees
      /\ FormResult.isValid result = false)
  /\ (back = true -> knees = false ->
      FormResult.feedback result = squat_back
      /\ FormResult.isValid result = false)
  /\ (FormResult.isValid result = true ->
      snd (squatDepth (calculateAngle hip knee ankle)) = true
      /\ back = false /\ knees = false).
Proof.
  intros Hh Hk Ha result hipAngle back knees. subst result back knees.
  rewrite (analyzeSquat_resolved keypoints hip knee ankle Hh Hk Ha).
  cbv zeta. fold hipAngle.
  unfold kneeAlignmentCheck, backAlignmentCheck.
  cbn [FormResult.feedback FormResult.isValid].
  destruct (kneeCheckTriggers hip knee ankle), (backCheckTriggers hipAngle);
    cbn [fst snd]; repeat split; try discriminate; auto.
Qed.

(** C8: when a mandatory joint (hip, knee or ankle for the squat;
    shoulder, elbow or wrist for the push-up) resolves on neither side,
    the classifier returns [{ feedback: '', isValid: false }] without
    angle fields, and has called [calculateAngle] not once. *)
Theorem missing_joint_no_opinion keypoints :
  (joint keypoints "hip" = None
   \/ joint keypoints "knee" = None
   \/ joint keypoints "ankle" = None ->
   squat keypoints = (noOpinion, []))
  /\ (joint keypoints "shoulder" = None
      \/ joint keypoints "elbow" = None
      \/ joint keypoints "wrist" = None ->
      pushUp keypoints = (noOpinion, [])).
Proof.
  unfold preferLeft, analyzeSquat, analyzePushUp.
  cbn [append]. split.
  - intros [H | [H | H]]; rewrite H.
    + reflexivity.
    + now destruct (JS.or_obj (findKeypoint keypoints "left_hip") _).
    + destruct (JS.or_obj (findKeypoint keypoints "left_hip") _);
        [|reflexivity].
      now destruct (JS.or_obj (findKeypoint keypoints "left_knee") _).
  - intros [H | [H | H]]; rewrite H.
    + reflexivity.
    + now destruct (JS.or_obj (findKeypoint keypoints "left_shoulder") _).
    + destruct (JS.or_obj (findKeypoint keypoints "left_shoulder") _);
        [|reflexivity].
      now destruct (JS.or_obj (findKeypoint keypoints "left_elbow") _).
Qed.

End Classifiers.

Lemma squat_checks_last_writer_wins_witness :
  backCheckTriggers
    (option_map (fun shoulder =>
                   bentAngle shoulder (Keypoint.mk "left_hip" 100 200 0.9)
                     (Keypoint.mk "left_knee" 160 300 0.9))
       (preferLeft getKeypoint frame_knee_forward "shoulder")) = true
  /\ kneeCheckTriggers (Keypoint.mk "left_hip" 100 200 0.9)
       (Keypoint.mk "left_knee" 160 300 0.9)
       (Keypoint.mk "left_ankle" 100 400 0.9) = true
  /\ FormResult.feedback (fst (analyzeSquat getKeypoint bentAngle frame_knee_forward))
     = squat_knees
  /\ FormResult.isValid (fst (analyzeSquat getKeypoint bentAngle frame_knee_forward))
     = false.
Proof.
  split; [reflexivity|]. split; [reflexivity|].
  apply (squat_checks_last_writer_wins getKeypoint bentAngle frame_knee_forward
           (Keypoint.mk "left_hip" 100 200 0.9)
           (Keypoint.mk "left_knee" 160 300 0.9)
           (Keypoint.mk "left_ankle" 100 400 0.9)
           eq_refl eq_refl eq_refl);
    reflexivity.
Defined.

Lemma missing_joint_no_opinion_witness :
  preferLeft getKeypoint frame_torso_only "ankle" = None
  /\ preferLeft getKeypoint frame_torso_only "elbow" = None
  /\ analyzeSquat getKeypoint flatAngle frame_torso_only = (noOpinion, [])
  /\ analyzePushUp getKeypoint flatAngle frame_torso_only = (noOpinion, []).
Proof.
  split; [reflexivity|]. split; [reflexivity|]. split.
  - apply (proj1 (missing_joint_no_opinion getKeypoint flatAngle frame_torso_only)).
    right; right; reflexivity.
  - apply (proj2 (missing_joint_no_opinion getKeypoint flatAngle frame_torso_only)).
    right; left; reflexivity.
Defined.


(* ================================================================== *)
(** ** Further properties of usePresage *)

Lemma or_val_null_truthy (a : option float) (v : float) :
  or_val a None = Some v -> JS.truthy v = true.
Proof.
  unfold or_val. destruct a as [n|]; cbn [JS.truthy_opt]; [|discriminate].
  destruct (JS.truthy n) eqn:Hn; [|discriminate]. now intros [= <-].
Qed.

Lemma isSome_false {A : Type} (a : option A) : isSome a = false <-> a = None.
Proof. destruct a; split; (discriminate || reflexivity). Qed.

(** X1: [createDataPoint] gives [null] for a frame exactly when the
    frame is empty or shows none of the two shoulders, the nose and the
    two hips; knees alone do not make a data point. *)
Theorem createDataPoint_null_iff (keypoints : Frame) (t : float) :
  createDataPoint (Some keypoints) t = None
  <-> keypoints = [] \/ noTrackablePoint keypoints.
Proof.
  unfold createDataPoint, noTrackablePoint.
  destruct keypoints as [|k rest]; [split; auto|].
  change (List.length (k :: rest) =? 0)%nat with false. cbv iota.
  set (kps := k :: rest).
  destruct (getKeypoint kps "left_shoulder"), (getKeypoint kps "right_shoulder"),
    (getKeypoint kps "nose"), (getKeypoint kps "left_hip"),
    (getKeypoint kps "right_hip"); cbn [isSome orb negb andb];
    (split;
     [ intros H; first [discriminate H | right; now repeat split]
     | intros [Hnil | (H1 & H2 & H3 & H4 & H5)];
       first [reflexivity | discriminate] ]).
Qed.

(** X2: a data point made by [createDataPoint] carries the given
    timestamp, its [centerY] is never [null], a joint height it stores
    is never 0 or NaN, and without a chest estimate it is not a full
    body. *)
Theorem createDataPoint_wellformed keypoints t dataPoint :
  createDataPoint keypoints t = Some dataPoint ->
  DataPoint.timestamp dataPoint = t
  /\ DataPoint.centerY dataPoint <> None
  /\ (forall v, DataPoint.hipY dataPoint = Some v -> JS.truthy v = true)
  /\ (forall v, DataPoint.kneeY dataPoint = Some v -> JS.truthy v = true)
  /\ (forall v, DataPoint.shoulderY dataPoint = Some v -> JS.truthy v = true)
  /\ (DataPoint.chestY dataPoint = None -> DataPoint.hasFullBody dataPoint = false).
Proof.
  unfold createDataPoint. destruct keypoints as [kps|]; [|discriminate].
  destruct (_ =? 0)%nat; [discriminate|].
  destruct (negb _ && negb _) eqn:Hbody; [discriminate|].
  intros [= <-]. cbn [DataPoint.timestamp DataPoint.centerY DataPoint.hipY
                        DataPoint.kneeY DataPoint.shoulderY DataPoint.chestY
                        DataPoint.hasFullBody].
  split; [reflexivity|]. split; [|split; [|split; [|split]]].
  - destruct (isSome (getKeypoint kps "left_hip") || isSome (getKeypoint kps "right_hip"))
      eqn:Hlow; [discriminate|].
    rewrite andb_true_r in Hbody. unfold chestEstimate.
    destruct (getKeypoint kps "left_shoulder"), (getKeypoint kps "right_shoulder"),
      (getKeypoint kps "nose"); cbn in Hbody |- *; discriminate.
  - apply or_val_null_truthy.
  - apply or_val_null_truthy.
  - apply or_val_null_truthy.
  - unfold chestEstimate.
    destruct (getKeypoint kps "left_shoulder"), (getKeypoint kps "right_shoulder"),
      (getKeypoint kps "nose"); cbn [JS.or_obj isSome orb]; try discriminate.
    intros _. apply andb_false_r.
Qed.

Lemma createDataPoint_wellformed_witness :
  createDataPoint (Some (body 200)) 5
  = Some (DataPoint.mk 5 (Some 200) (Some 300) (Some 100) (Some 100)
            (Some 200) true)%float
  /\ DataPoint.centerY
       (DataPoint.mk 5 (Some 200) (Some 300) (Some 100) (Some 100)
          (Some 200) true)%float <> None.
Proof.
  assert (H : createDataPoint (Some (body 200)) 5
              = Some (DataPoint.mk 5 (Some 200) (Some 300) (Some 100) (Some 100)
                        (Some 200) true)%float) by (vm_compute; reflexivity).
  split; [exact H|].
  apply (createDataPoint_wellformed _ _ _ H).
Defined.

Lemma Forall_filter {A : Type} (f : A -> bool) (l : list A) :
  Forall (fun a => f a = true) (filter f l).
Proof.
  apply Forall_forall. intros a Ha. now apply filter_In in Ha.
Qed.

(** X3: after [trackMovement] has processed a frame, every breathing
    sample is newer than the breathing cutoff (10 seconds before the
    last clock reading) and, with an exercise selected, every motion
    sample is newer than the movement cutoff (3 seconds); each buffer
    has grown by at most the one new sample. *)
Theorem trackMovement_windows keypoints t0 t1 t2 s dataPoint :
  isActive s = true ->
  createDataPoint (Some keypoints) t0 = Some dataPoint ->
  let s' := trackMovement (Some keypoints) t0 t1 t2 s in
  Forall (fun p => JS.gt (BreathingSample.timestamp p)
                     (t2 - BREATHING_WINDOW)%float = true)
    (breathingHistoryRef s')
  /\ List.length (breathingHistoryRef s') <= S (List.length (breathingHistoryRef s))
  /\ (exercise_selected (exercise s) = true ->
      Forall (fun p => JS.gt (DataPoint.timestamp p)
                         (t1 - HISTORY_WINDOW)%float = true)
        (movementHistoryRef s')
      /\ List.length (movementHistoryRef s') <= S (List.length (movementHistoryRef s)))
  /\ (exercise_selected (exercise s) = false ->
      movementHistoryRef s' = movementHistoryRef s).
Proof.
  intros Ha Hdp s'. subst s'. unfold trackMovement. rewrite Ha, Hdp.
  cbn [negb orb isSome].
  set (s1 := match DataPoint.chestY dataPoint with Some _ => _ | None => _ end).
  assert (Hs1 : exercise s1 = exercise s
                /\ movementHistoryRef s1 = movementHistoryRef s
                /\ List.length (breathingHistoryRef s1)
                   <= S (List.length (breathingHistoryRef s))).
  { subst s1. destruct (DataPoint.chestY dataPoint) as [c|];
      [destruct (JS.truthy c)|]; cbn; repeat split; auto.
    rewrite length_app. simpl. lia. }
  destruct Hs1 as (He & Hm & Hb). rewrite He.
  destruct (exercise_selected (exercise s));
    cbn [breathingHistoryRef movementHistoryRef set_breathingHistory
           set_movementHistory].
  - split; [apply Forall_filter|]. split.
    + etransitivity; [apply filter_length_le|exact Hb].
    + split; [|discriminate]. intros _. split; [apply Forall_filter|].
      etransitivity; [apply filter_length_le|].
      rewrite length_app, Hm. simpl. lia.
  - split; [apply Forall_filter|]. split.
    + etransitivity; [apply filter_length_le|exact Hb].
    + split; [discriminate|]. intros _. exact Hm.
Qed.

Lemma trackMovement_windows_witness :
  isActive (session_after 0) = true
  /\ createDataPoint (Some (body 250)) 5000
     = Some (DataPoint.mk 5000 (Some 250) (Some 350) (Some 150)
               (Some 150) (Some 250) true)%float
  /\ Forall (fun p => JS.gt (BreathingSample.timestamp p)
                        (5000 - BREATHING_WINDOW)%float = true)
       (breathingHistoryRef
          (trackMovement (Some (body 250)) 5000 5000 5000 (session_after 0))).
Proof.
  assert (Ha : isActive (session_after 0) = true) by reflexivity.
  assert (Hdp : createDataPoint (Some (body 250)) 5000
                = Some (DataPoint.mk 5000 (Some 250) (Some 350) (Some 150)
                          (Some 150) (Some 250) true)%float)
    by (vm_compute; reflexivity).
  split; [exact Ha|]. split; [exact Hdp|].
  apply (trackMovement_windows (body 250) 5000 5000 5000
           (session_after 0) _ Ha Hdp).
Defined.

Lemma analyzeBreathing_props (s : Session) :
  exercise (analyzeBreathing s) = exercise s
  /\ isActive (analyzeBreathing s) = isActive s
  /\ predictions (analyzeBreathing s) = predictions s
  /\ isAnalyzing (analyzeBreathing s) = isAnalyzing s
  /\ movementHistoryRef (analyzeBreathing s) = movementHistoryRef s
  /\ repHistoryRef (analyzeBreathing s) = repHistoryRef s
  /\ breathingHistoryRef (analyzeBreathing s) = breathingHistoryRef s
  /\ lastRepTimeRef (analyzeBreathing s) = lastRepTimeRef s
  /\ lastPredictionTimeRef (analyzeBreathing s) = lastPredictionTimeRef s
  /\ lastBreathingAnalysisRef (analyzeBreathing s) = lastBreathingAnalysisRef s.
Proof.
  unfold analyzeBreathing.
  destruct (_ <? 30)%nat; [now repeat split|].
  destruct (extrema 1 (breathingHistoryRef s)) as [peaks valleys].
  destruct (_ || _); [now repeat split|].
  destruct (2 <=? _)%nat; now repeat split.
Qed.

Lemma trackMovement_isActive keypoints t0 t1 t2 s :
  isActive (trackMovement keypoints t0 t1 t2 s) = isActive s
  /\ (isActive s = false -> trackMovement keypoints t0 t1 t2 s = s).
Proof.
  unfold trackMovement. destruct (isActive s) eqn:Ha; cbn [negb orb];
    [|now split].
  split; [|discriminate].
  destruct (negb (isSome keypoints)); [exact Ha|].
  destruct (createDataPoint keypoints t0) as [dataPoint|]; [|exact Ha].
  destruct (DataPoint.chestY dataPoint) as [c|]; [destruct (JS.truthy c)|];
    cbn; destruct (exercise_selected (exercise s)); exact Ha.
Qed.

Lemma getPredictions_inactive now s :
  isActive s = false ->
  snd (getPredictions now s) = s
  \/ snd (getPredictions now s) = set_lastPredictionTime now s.
Proof.
  intros Ha. unfold getPredictions. destruct (JS.lt _ _); [now left|].
  right. unfold analyzeAndPredict. cbn [isActive set_lastPredictionTime].
  rewrite Ha. reflexivity.
Qed.

Lemma getPredictions_isActive now s :
  isActive (snd (getPredictions now s)) = isActive s.
Proof.
  unfold getPredictions. destruct (JS.lt _ _); [reflexivity|].
  unfold analyzeAndPredict. cbn [isActive exercise set_lastPredictionTime].
  destruct (_ || _); [reflexivity|].
  destruct (_ || _); [reflexivity|].
  destruct (0 <? _)%nat; reflexivity.
Qed.

Section Inactive.

Variable calculateAngle : Keypoint.t -> Keypoint.t -> Keypoint.t -> float.

Lemma trackRep_isActive keypoints formAnalysis t0 now s :
  isActive (trackRep calculateAngle keypoints formAnalysis t0 now s) = isActive s
  /\ (isActive s = false ->
      trackRep calculateAngle keypoints formAnalysis t0 now s = s).
Proof.
  rewrite trackRep_repCompleted. split.
  - destruct (repCompleted _ _ _ _ _); [|reflexivity].
    unfold recordRep. now destruct (JS.truthy_opt _).
  - intros Ha. unfold repCompleted. now rewrite Ha.
Qed.

Lemma step_inactive (ev : Event) (s : Session) :
  (isActive s = false -> holdsNothing s) ->
  isActive (step calculateAngle ev s) = false ->
  holdsNothing (step calculateAngle ev s).
Proof.
  intros IH. destruct ev as [kps t0 t1 t2|kps fa t0 now|now|now|e a];
    cbn [step].
  - destruct (trackMovement_isActive kps t0 t1 t2 s) as [Hsame Hnoop].
    rewrite Hsame. intros Ha. rewrite (Hnoop Ha). now apply IH.
  - destruct (trackRep_isActive kps fa t0 now s) as [Hsame Hnoop].
    rewrite Hsame. intros Ha. rewrite (Hnoop Ha). now apply IH.
  - rewrite getPredictions_isActive. intros Ha.
    destruct (getPredictions_inactive now s Ha) as [-> | ->];
      [now apply IH|].
    specialize (IH Ha). unfold holdsNothing in *. exact IH.
  - destruct (isActive s) eqn:Ha; [|intros _; now apply IH].
    unfold breathingTick. destruct (JS.ge _ _); [|intros H; congruence].
    cbn [isActive set_lastBreathingAnalysis].
    rewrite (proj1 (proj2 (analyzeBreathing_props s))). congruence.
  - unfold render, resetEffect. destruct (_ && _) eqn:Hsame.
    + cbn [isActive set_props]. intros ->.
      apply andb_true_iff in Hsame as [_ Hact].
      apply Bool.eqb_prop in Hact. specialize (IH Hact).
      unfold holdsNothing in *. exact IH.
    + cbn [isActive set_props]. destruct a; cbn; [discriminate|].
      intros _. unfold holdsNothing. cbn. now repeat split.
Qed.

End Inactive.

(** X4: a session that is not active holds nothing.  Whatever has
    happened to a mounted hook, while [isActive] is false its three
    buffers are empty, the last rep timestamp and the prediction are
    null, and the breathing metrics are at their initial values. *)
Theorem inactive_session_holds_nothing calculateAngle (s : Session) :
  reachable calculateAngle s -> isActive s = false -> holdsNothing s.
Proof.
  induction 1 as [e a|ev s _ IH].
  - unfold mount, resetEffect. destruct a; cbn; [discriminate|].
    intros _. unfold holdsNothing. cbn. now repeat split.
  - now apply step_inactive.
Qed.

Lemma inactive_session_holds_nothing_witness :
  reachable flatAngle
    (step flatAngle (Render (Some "squat") false) (session_after 3))
  /\ isActive (step flatAngle (Render (Some "squat") false) (session_after 3))
     = false
  /\ repCount (session_after 3) = 2
  /\ holdsNothing
       (step flatAngle (Render (Some "squat") false) (session_after 3)).
Proof.
  assert (Hr : reachable flatAngle
                 (step flatAngle (Render (Some "squat") false) (session_after 3))).
  { apply reach_step. apply run_reachable. constructor. }
  assert (Ha : isActive (step flatAngle (Render (Some "squat") false)
                           (session_after 3)) = false)
    by (vm_compute; reflexivity).
  split; [exact Hr|]. split; [exact Ha|]. split; [vm_compute; reflexivity|].
  exact (inactive_session_holds_nothing flatAngle _ Hr Ha).
Defined.

Section RepTracking.

Variable calculateAngle : Keypoint.t -> Keypoint.t -> Keypoint.t -> float.

Lemma recordRep_sameButReps formAnalysis now s :
  sameButReps s (recordRep formAnalysis now s).
Proof.
  unfold sameButReps, recordRep.
  destruct (JS.truthy_opt (lastRepTimeRef s)); cbn; now repeat split.
Qed.

(** X5: [trackRep] writes nothing but the rep history and the last rep
    timestamp; it adds at most one record per call; and it does nothing
    at all unless the exercise is 'squat' or 'push-up' and the motion
    window holds at least 10 samples. *)
Theorem trackRep_footprint keypoints formAnalysis t0 now s :
  let s' := trackRep calculateAngle keypoints formAnalysis t0 now s in
  sameButReps s s'
  /\ List.length (repHistoryRef s') <= S (List.length (repHistoryRef s))
  /\ (exercise_is (exercise s) "squat" = false ->
      exercise_is (exercise s) "push-up" = false -> s' = s)
  /\ (List.length (movementHistoryRef s) < 10 -> s' = s).
Proof.
  cbv zeta. rewrite trackRep_repCompleted.
  destruct (repCompleted calculateAngle keypoints formAnalysis t0 s) eqn:Hdet.
  - split; [apply recordRep_sameButReps|]. split; [|split].
    + rewrite recordRep_repHistory.
      destruct (JS.truthy_opt (lastRepTimeRef s)); [|lia]. cbv zeta.
      set (pushed := repHistoryRef s ++ _).
      assert (Hl : List.length pushed = S (List.length (repHistoryRef s))).
      { unfold pushed. rewrite length_app. simpl. lia. }
      destruct (10 <? _)%nat; [|lia].
      destruct pushed; simpl in *; lia.
    + intros Hsq Hpu. exfalso. unfold repCompleted in Hdet.
      rewrite Hsq, Hpu in Hdet.
      destruct (createDataPoint keypoints t0);
        rewrite ?andb_false_r in Hdet; discriminate.
    + intros Hlen. exfalso. unfold repCompleted in Hdet.
      destruct (createDataPoint keypoints t0);
        [|rewrite andb_false_r in Hdet; discriminate].
      destruct (Nat.leb_spec 10 (List.length (movementHistoryRef s))); [lia|].
      rewrite andb_false_r in Hdet. discriminate.
  - split; [unfold sameButReps; now repeat split|]. split; [lia|]. now split.
Qed.

End RepTracking.

(* ---------------------------------------------------------------- *)
(** The rep history as a queue of the last ten records. *)

Lemma skipn_S_tl {A : Type} (k : nat) (l : list A) :
  skipn (S k) l = tl (skipn k l).
Proof.
  revert l; induction k as [|k IH]; intros l; [now destruct l|].
  destruct l as [|a l]; [reflexivity|]. exact (IH l).
Qed.

(** Pushing onto the last ten and shifting when that makes eleven is
    taking the last ten of the longer list. *)
Lemma push_shift_last10 {A : Type} (l : list A) (r : A) :
  (let pushed := JS.slice_last 10 l ++ [r] in
   if (10 <? List.length pushed)%nat then tl pushed else pushed)
  = JS.slice_last 10 (l ++ [r]).
Proof.
  cbv zeta. unfold JS.slice_last.
  rewrite !length_app, length_skipn. cbn [List.length].
  destruct (Nat.le_gt_cases (List.length l) 9) as [Hle|Hgt].
  - replace (List.length l - 10) with 0 by lia.
    replace (List.length l + 1 - 10) with 0 by lia.
    cbn [skipn]. destruct (Nat.ltb_spec 10 (List.length l - 0 + 1)); [lia|].
    reflexivity.
  - destruct (Nat.ltb_spec 10 (List.length l - (List.length l - 10) + 1)); [|lia].
    replace (List.length l + 1 - 10) with (S (List.length l - 10)) by lia.
    rewrite skipn_S_tl, skipn_app.
    replace (List.length l - 10 - List.length l) with 0 by lia.
    reflexivity.
Qed.

Lemma recordAll_last10 formAnalysis (times : list float) :
  forall (s : Session) (all : list RepRecord.t) (last : float),
    lastRepTimeRef s = Some last -> JS.truthy last = true ->
    Forall (fun t => JS.truthy t = true) times ->
    repHistoryRef s = JS.slice_last 10 all ->
    repHistoryRef (recordAll formAnalysis times s)
    = JS.slice_last 10
        (all ++ recordsOf (if formValid formAnalysis then good else poor)
                  last times).
Proof.
  induction times as [|now rest IH]; intros s all last Hlast Htr Hall Hhist.
  - cbn. now rewrite app_nil_r.
  - inversion Hall as [|? ? Hnow Hrest]; subst.
    cbn [recordAll fold_left recordsOf].
    change (fold_left _ rest ?x) with (recordAll formAnalysis rest x).
    assert (Hstep : repHistoryRef (recordRep formAnalysis now s)
                    = JS.slice_last 10
                        (all ++ [RepRecord.mk now (now - last)
                                   (if formValid formAnalysis then good else poor)])).
    { rewrite recordRep_repHistory, Hlast. cbn [JS.truthy_opt JS.toNumber].
      rewrite Htr, Hhist. apply push_shift_last10. }
    rewrite (IH (recordRep formAnalysis now s) _ now
               (proj1 (recordRep_history formAnalysis now s)) Hnow Hrest Hstep).
    now rewrite <- app_assoc.
Qed.

(** X6: the rep history is the queue of the last 10 records.  From a
    session with a (non-zero) last rep timestamp and at most 10 records,
    completed reps at non-zero clock readings leave the last 10 of the
    old records followed by one record per rep, each with the time since
    the rep before it; so the history holds min(old + new, 10) records
    and the oldest are the ones dropped. *)
Theorem rep_history_is_last_ten formAnalysis times s last :
  lastRepTimeRef s = Some last -> JS.truthy last = true ->
  Forall (fun t => JS.truthy t = true) times ->
  List.length (repHistoryRef s) <= 10 ->
  let s' := recordAll formAnalysis times s in
  repHistoryRef s'
  = JS.slice_last 10
      (repHistoryRef s
         ++ recordsOf (if formValid formAnalysis then good else poor) last times)
  /\ List.length (repHistoryRef s')
     = Nat.min (List.length (repHistoryRef s) + List.length times) 10.
Proof.
  intros Hlast Htr Hall Hlen s'. subst s'.
  assert (Hhist : repHistoryRef s = JS.slice_last 10 (repHistoryRef s)).
  { unfold JS.slice_last.
    now replace (List.length (repHistoryRef s) - 10) with 0 by lia. }
  rewrite (recordAll_last10 formAnalysis times s (repHistoryRef s) last
             Hlast Htr Hall Hhist).
  split; [reflexivity|].
  unfold JS.slice_last. rewrite length_skipn, length_app.
  assert (Hrec : forall q l ts, List.length (recordsOf q l ts) = List.length ts).
  { intros q l ts; revert l; induction ts; intros l; simpl; auto. }
  rewrite Hrec. lia.
Qed.

Lemma rep_history_is_last_ten_witness :
  lastRepTimeRef (session_after 1) = Some 3000%float
  /\ List.length
       (repHistoryRef
          (recordAll (Some validForm)
             (map (fun i => (3000 + 1000 * JS.of_nat i)%float) (seq 1 15))
             (session_after 1))) = 10
  /\ hd_error
       (repHistoryRef
          (recordAll (Some validForm)
             (map (fun i => (3000 + 1000 * JS.of_nat i)%float) (seq 1 15))
             (session_after 1)))
     = Some (RepRecord.mk 9000 1000 good).
Proof.
  assert (Hlast : lastRepTimeRef (session_after 1) = Some 3000%float)
    by (vm_compute; reflexivity).
  split; [exact Hlast|].
  destruct (rep_history_is_last_ten (Some validForm)
              (map (fun i => (3000 + 1000 * JS.of_nat i)%float) (seq 1 15))
              (session_after 1) 3000%float Hlast)
    as [Hhist Hlen].
  - reflexivity.
  - vm_compute. repeat constructor.
  - vm_compute. lia.
  - split.
    + rewrite Hlen. reflexivity.
    + rewrite Hhist. vm_compute. reflexivity.
Defined.

(* ---------------------------------------------------------------- *)
(** The breathing cycle extractor. *)

Lemma extrema_cons i prev cur next rest :
  extrema i (prev :: cur :: next :: rest)
  = let (peaks, valleys) := extrema (S i) (cur :: next :: rest) in
    let c := BreathingSample.chestY cur in
    let e := Extremum.mk i c (BreathingSample.timestamp cur) in
    (if JS.gt c (BreathingSample.chestY prev)
        && JS.gt c (BreathingSample.chestY next)
     then e :: peaks else peaks,
     if JS.lt c (BreathingSample.chestY prev)
        && JS.lt c (BreathingSample.chestY next)
     then e :: valleys else valleys).
Proof. reflexivity. Qed.

(** The extrema found from position [i] on are the strict local ones,
    numbered from [i]. *)
Lemma extrema_offset (data : list BreathingSample.t) :
  forall (i : nat) (e : Extremum.t),
    (In e (fst (extrema i data)) <->
     exists k prev cur next,
       nth_error data k = Some prev /\ nth_error data (S k) = Some cur
       /\ nth_error data (S (S k)) = Some next
       /\ JS.gt (BreathingSample.chestY cur) (BreathingSample.chestY prev) = true
       /\ JS.gt (BreathingSample.chestY cur) (BreathingSample.chestY next) = true
       /\ e = Extremum.mk (i + k) (BreathingSample.chestY cur)
                (BreathingSample.timestamp cur))
    /\ (In e (snd (extrema i data)) <->
        exists k prev cur next,
          nth_error data k = Some prev /\ nth_error data (S k) = Some cur
          /\ nth_error data (S (S k)) = Some next
          /\ JS.lt (BreathingSample.chestY cur) (BreathingSample.chestY prev) = true
          /\ JS.lt (BreathingSample.chestY cur) (BreathingSample.chestY next) = true
          /\ e = Extremum.mk (i + k) (BreathingSample.chestY cur)
                   (BreathingSample.timestamp cur)).
Proof.
  induction data as [|prev data IH]; intros i e.
  - split; (split; [intros []|]); intros (k & p & c & n & H & _);
      destruct k; discriminate.
  - destruct data as [|cur [|next rest]].
    + split; (split; [intros []|]); intros (k & p & c & n & _ & H & _);
        destruct k; discriminate.
    + split; (split; [intros []|]); intros (k & p & c & n & _ & _ & H & _);
        destruct k as [|[|k]]; discriminate.
    + rewrite extrema_cons.
      destruct (IH (S i) e) as [IHp IHv].
      destruct (extrema (S i) (cur :: next :: rest)) as [peaks valleys].
      cbv zeta. cbn [fst snd] in *. split.
      * split.
        -- intros Hin.
           assert (Hcase :
                     (JS.gt (BreathingSample.chestY cur) (BreathingSample.chestY prev)
                      && JS.gt (BreathingSample.chestY cur) (BreathingSample.chestY next)
                      = true
                      /\ e = Extremum.mk i (BreathingSample.chestY cur)
                               (BreathingSample.timestamp cur))
                     \/ In e peaks).
           { destruct (_ && _); [destruct Hin as [<-|Hin]|]; auto. }
           destruct Hcase as [[Hc ->]|Hin'].
           ++ apply andb_true_iff in Hc as [H1 H2].
              exists 0, prev, cur, next. rewrite Nat.add_0_r. now repeat split.
           ++ apply IHp in Hin' as (k & p & c & n & H1 & H2 & H3 & H4 & H5 & ->).
              exists (S k), p, c, n. rewrite Nat.add_succ_r. now repeat split.
        -- intros (k & p & c & n & H1 & H2 & H3 & H4 & H5 & ->).
           destruct k as [|k].
           ++ cbn in H1, H2, H3. injection H1 as <-. injection H2 as <-.
              injection H3 as <-. rewrite H4, H5, Nat.add_0_r. now left.
           ++ assert (Hin : In (Extremum.mk (i + S k) (BreathingSample.chestY c)
                                  (BreathingSample.timestamp c)) peaks).
              { apply IHp. exists k, p, c, n. rewrite Nat.add_succ_r.
                now repeat split. }
              destruct (_ && _); [now right|exact Hin].
      * split.
        -- intros Hin.
           assert (Hcase :
                     (JS.lt (BreathingSample.chestY cur) (BreathingSample.chestY prev)
                      && JS.lt (BreathingSample.chestY cur) (BreathingSample.chestY next)
                      = true
                      /\ e = Extremum.mk i (BreathingSample.chestY cur)
                               (BreathingSample.timestamp cur))
                     \/ In e valleys).
           { destruct (JS.lt _ _ && JS.lt _ _); [destruct Hin as [<-|Hin]|]; auto. }
           destruct Hcase as [[Hc ->]|Hin'].
           ++ apply andb_true_iff in Hc as [H1 H2].
              exists 0, prev, cur, next. rewrite Nat.add_0_r. now repeat split.
           ++ apply IHv in Hin' as (k & p & c & n & H1 & H2 & H3 & H4 & H5 & ->).
              exists (S k), p, c, n. rewrite Nat.add_succ_r. now repeat split.
        -- intros (k & p & c & n & H1 & H2 & H3 & H4 & H5 & ->).
           destruct k as [|k].
           ++ cbn in H1, H2, H3. injection H1 as <-. injection H2 as <-.
              injection H3 as <-. rewrite H4, H5, Nat.add_0_r. now left.
           ++ assert (Hin : In (Extremum.mk (i + S k) (BreathingSample.chestY c)
                                  (BreathingSample.timestamp c)) valleys).
              { apply IHv. exists k, p, c, n. rewrite Nat.add_succ_r.
                now repeat split. }
              destruct (JS.lt _ _ && JS.lt _ _); [now right|exact Hin].
Qed.

(** X7: the loop of [analyzeBreathing] finds exactly the strict local
    extrema: an entry is among the peaks if and only if it stands for an
    interior sample (one with a sample before and after it) whose chest
    height is strictly greater than both neighbours', with that sample's
    index, height and timestamp; and likewise, with strictly less, for
    the valleys. *)
Theorem extrema_are_strict_local (data : list BreathingSample.t)
  (e : Extremum.t) :
  (In e (fst (extrema 1 data)) <-> extremumAt JS.gt data e)
  /\ (In e (snd (extrema 1 data)) <-> extremumAt JS.lt data e).
Proof.
  destruct (extrema_offset data 1 e) as [Hp Hv]. unfold extremumAt.
  split; [rewrite Hp | rewrite Hv]; split.
  - intros (k & p & c & n & H1 & H2 & H3 & H4 & H5 & ->).
    exists p, c, n. cbn [Extremum.index Extremum.value Extremum.timestamp].
    replace (1 + k - 1) with k by lia. replace (1 + k + 1) with (S (S k)) by lia.
    repeat split; auto. lia.
  - intros (p & c & n & Hi & H1 & H2 & H3 & H4 & H5 & H6 & H7).
    exists (Extremum.index e - 1), p, c, n.
    replace (S (Extremum.index e - 1)) with (Extremum.index e) by lia.
    replace (S (Extremum.index e)) with (Extremum.index e + 1) by lia.
    repeat split; auto.
    destruct e as [ix v t]. cbn in *. subst. f_equal. lia.
  - intros (k & p & c & n & H1 & H2 & H3 & H4 & H5 & ->).
    exists p, c, n. cbn [Extremum.index Extremum.value Extremum.timestamp].
    replace (1 + k - 1) with k by lia. replace (1 + k + 1) with (S (S k)) by lia.
    repeat split; auto. lia.
  - intros (p & c & n & Hi & H1 & H2 & H3 & H4 & H5 & H6 & H7).
    exists (Extremum.index e - 1), p, c, n.
    replace (S (Extremum.index e - 1)) with (Extremum.index e) by lia.
    replace (S (Extremum.index e)) with (Extremum.index e + 1) by lia.
    repeat split; auto.
    destruct e as [ix v t]. cbn in *. subst. f_equal. lia.
Qed.

Lemma cycleDurations_length (peaks : list Extremum.t) :
  List.length (cycleDurations peaks) = List.length peaks - 1.
Proof.
  induction peaks as [|a [|b rest] IH]; [reflexivity|reflexivity|].
  change (cycleDurations (a :: b :: rest))
    with ((Extremum.timestamp b - Extremum.timestamp a)%float
            :: cycleDurations (b :: rest)).
  simpl List.length in *. lia.
Qed.

(** X8: what [analyzeBreathing] leaves stale.  With fewer than 30
    samples it sets the confidence to low and keeps rate and
    consistency; with fewer than 2 peaks or fewer than 2 valleys it
    keeps rate and consistency; with fewer than 3 peaks it keeps the
    consistency.  It never writes a buffer, a timestamp or the
    prediction. *)
Theorem analyzeBreathing_stale_values (s : Session) :
  let s' := analyzeBreathing s in
  let peaks := fst (extrema 1 (breathingHistoryRef s)) in
  let valleys := snd (extrema 1 (breathingHistoryRef s)) in
  (List.length (breathingHistoryRef s) < 30 ->
   signalConfidence s' = LOW /\ breathingRate s' = breathingRate s
   /\ breathingConsistency s' = breathingConsistency s)
  /\ (List.length peaks < 2 \/ List.length valleys < 2 ->
      breathingRate s' = breathingRate s
      /\ breathingConsistency s' = breathingConsistency s)
  /\ (List.length peaks < 3 ->
      breathingConsistency s' = breathingConsistency s)
  /\ movementHistoryRef s' = movementHistoryRef s
  /\ repHistoryRef s' = repHistoryRef s
  /\ breathingHistoryRef s' = breathingHistoryRef s
  /\ lastRepTimeRef s' = lastRepTimeRef s
  /\ predictions s' = predictions s.
Proof.
  cbv zeta.
  pose proof (analyzeBreathing_props s)
    as (_ & _ & Hp & _ & Hm & Hr & Hb & Hl & _).
  rewrite Hp, Hm, Hr, Hb, Hl.
  assert (Hmetrics :
            (List.length (breathingHistoryRef s) < 30 ->
             signalConfidence (analyzeBreathing s) = LOW
             /\ breathingRate (analyzeBreathing s) = breathingRate s
             /\ breathingConsistency (analyzeBreathing s) = breathingConsistency s)
            /\ (List.length (fst (extrema 1 (breathingHistoryRef s))) < 2
                \/ List.length (snd (extrema 1 (breathingHistoryRef s))) < 2 ->
                breathingRate (analyzeBreathing s) = breathingRate s
                /\ breathingConsistency (analyzeBreathing s)
                   = breathingConsistency s)
            /\ (List.length (fst (extrema 1 (breathingHistoryRef s))) < 3 ->
                breathingConsistency (analyzeBreathing s)
                = breathingConsistency s)).
  { unfold analyzeBreathing.
    destruct (Nat.ltb_spec (List.length (breathingHistoryRef s)) 30) as [Hlt|Hge].
    { now repeat split. }
    pose proof (cycleDurations_length (fst (extrema 1 (breathingHistoryRef s))))
      as Hcd.
    destruct (extrema 1 (breathingHistoryRef s)) as [peaks valleys].
    cbn [fst snd] in *.
    destruct (Nat.ltb_spec (List.length peaks) 2) as [Hp2|Hp2];
      [cbn [orb]; split; [lia|]; now repeat split|].
    destruct (Nat.ltb_spec (List.length valleys) 2) as [Hv2|Hv2];
      [cbn [orb]; split; [lia|]; now repeat split|].
    cbn [orb].
    destruct (Nat.leb_spec 2 (List.length (cycleDurations peaks))) as [Hd|Hd].
    - split; [lia|]. split; lia.
    - split; [lia|]. split; [lia|]. intros _. reflexivity. }
  destruct Hmetrics as (H1 & H2 & H3).
  split; [exact H1|]. split; [exact H2|]. split; [exact H3|].
  now repeat split.
Qed.

Lemma gt25_not_lt10 (v : float) :
  JS.gt v 25%float = true -> JS.lt v 10%float = false.
Proof. unfold JS.lt, JS.gt. intros H. sf_order v. Qed.

Lemma ge10_not_lt10 (v : float) :
  JS.ge v 10%float = true -> JS.lt v 10%float = false.
Proof. unfold JS.ge, JS.lt. intros H. sf_order v. Qed.

Lemma le25_not_gt25 (v : float) :
  JS.le v 25%float = true -> JS.gt v 25%float = false.
Proof. unfold JS.le, JS.gt. intros H. sf_order v. Qed.

(** X9: with at least 30 samples, 2 peaks and 2 valleys, the breathing
    rate is read off the cycles per minute (the smaller of the two
    counts, over the time spanned by the window): below 10 it is slow,
    above 25 it is fast, from 10 up to and including 25 it is normal. *)
Theorem analyzeBreathing_rate (s : Session) :
  30 <= List.length (breathingHistoryRef s) ->
  2 <= List.length (fst (extrema 1 (breathingHistoryRef s))) ->
  2 <= List.length (snd (extrema 1 (breathingHistoryRef s))) ->
  let perMinute :=
    cyclesPerMinute (breathingHistoryRef s)
      (fst (extrema 1 (breathingHistoryRef s)))
      (snd (extrema 1 (breathingHistoryRef s))) in
  let rate := breathingRate (analyzeBreathing s) in
  (JS.lt perMinute 10%float = true -> rate = SLOW)
  /\ (JS.gt perMinute 25%float = true -> rate = FAST)
  /\ (JS.ge perMinute 10%float = true -> JS.le perMinute 25%float = true ->
      rate = NORMAL).
Proof.
  intros Hlen Hp Hv. cbv zeta. unfold analyzeBreathing, cyclesPerMinute.
  destruct (Nat.ltb_spec (List.length (breathingHistoryRef s)) 30); [lia|].
  destruct (extrema 1 (breathingHistoryRef s)) as [peaks valleys].
  cbn [fst snd] in *.
  destruct (Nat.ltb_spec (List.length peaks) 2); [lia|].
  destruct (Nat.ltb_spec (List.length valleys) 2); [lia|].
  cbn [orb].
  set (perMinute := (_ / _ * 60000)%float).
  assert (Hrate : forall s1,
             breathingRate
               (if (2 <=? List.length (cycleDurations peaks))%nat
                then setBreathingConsistency
                       (if JS.gt (PrimFloat.sqrt (variance (cycleDurations peaks))
                                  / (JS.sum (cycleDurations peaks)
                                     / JS.of_nat (List.length (cycleDurations peaks))))%float
                             0.3%float
                        then ERRATIC else STEADY) s1
                else s1) = breathingRate s1).
  { intros s1. now destruct (2 <=? _)%nat. }
  rewrite Hrate. cbn [breathingRate setBreathingRate].
  split; [intros ->; reflexivity|]. split.
  - intros Hgt. now rewrite (gt25_not_lt10 _ Hgt), Hgt.
  - intros Hge Hle. now rewrite (ge10_not_lt10 _ Hge), (le25_not_gt25 _ Hle).
Qed.

Lemma analyzeBreathing_rate_witness :
  30 <= List.length (breathingHistoryRef (setBreathingRate FAST (breathing_session slow_wave)))
  /\ map Extremum.index (fst (extrema 1 slow_wave)) = [6; 18]
  /\ map Extremum.index (snd (extrema 1 slow_wave)) = [12; 24]
  /\ breathingRate
       (analyzeBreathing (setBreathingRate FAST (breathing_session slow_wave)))
     = NORMAL.
Proof.
  assert (Hlen : 30 <= List.length
                         (breathingHistoryRef
                            (setBreathingRate FAST (breathing_session slow_wave))))
    by (vm_compute; lia).
  split; [exact Hlen|]. split; [vm_compute; reflexivity|].
  split; [vm_compute; reflexivity|].
  apply (analyzeBreathing_rate
           (setBreathingRate FAST (breathing_session slow_wave)) Hlen).
  - vm_compute. lia.
  - vm_compute. lia.
  - vm_compute. reflexivity.
  - vm_compute. reflexivity.
Defined.

(* ---------------------------------------------------------------- *)
(** Predictions. *)

Lemma getPredictions_stamps (now : float) (s : Session) :
  JS.lt (now - lastPredictionTimeRef s)%float PREDICTION_INTERVAL = false ->
  lastPredictionTimeRef (snd (getPredictions now s)) = now.
Proof.
  intros Hdue. unfold getPredictions. rewrite Hdue.
  unfold analyzeAndPredict. cbn [isActive exercise set_lastPredictionTime].
  destruct (_ || _); [reflexivity|].
  destruct (_ || _); [reflexivity|].
  destruct (0 <? _)%nat; reflexivity.
Qed.

(** X10: a call of [getPredictions] that comes less than 5 seconds
    after an evaluation computes nothing: it leaves the session as it is
    and returns the exposed prediction, which is the result of the last
    evaluation if that was a prediction and the older exposed value if
    it was null. *)
Theorem getPredictions_early_call (now now' : float) (s : Session) :
  JS.lt (now - lastPredictionTimeRef s)%float PREDICTION_INTERVAL = false ->
  JS.lt (now' - now)%float PREDICTION_INTERVAL = true ->
  let s1 := snd (getPredictions now s) in
  getPredictions now' s1 = (predictions s1, s1)
  /\ predictions s1 = match fst (getPredictions now s) with
                      | Some p => Some p
                      | None => predictions s
                      end.
Proof.
  intros Hdue Hearly. cbv zeta. split.
  - unfold getPredictions at 1.
    now rewrite (getPredictions_stamps now s Hdue), Hearly.
  - destruct (getPredictions_due now s Hdue) as [Hres Hexp].
    now rewrite Hres, Hexp.
Qed.

Lemma getPredictions_early_call_witness :
  JS.lt (20000 - lastPredictionTimeRef (session_after 6))%float
    PREDICTION_INTERVAL = false
  /\ JS.lt (24999 - 20000)%float PREDICTION_INTERVAL = true
  /\ fst (getPredictions 24999 (snd (getPredictions 20000 (session_after 6))))
     = Some (Prediction.mk low low [encouragementFor 5]).
Proof.
  assert (H1 : JS.lt (20000 - lastPredictionTimeRef (session_after 6))%float
                 PREDICTION_INTERVAL = false) by (vm_compute; reflexivity).
  assert (H2 : JS.lt (24999 - 20000)%float PREDICTION_INTERVAL = true)
    by (vm_compute; reflexivity).
  split; [exact H1|]. split; [exact H2|].
  rewrite (proj1 (getPredictions_early_call 20000 24999 (session_after 6) H1 H2)).
  vm_compute. reflexivity.
Defined.

(** X11: a prediction that a session can ever return is one of three:
    the slowdown warning alone (fatigue medium), the milestone
    encouragement alone, or the warning followed by the encouragement;
    the risk of mistake is always low. *)
Theorem reachable_predictions calculateAngle (s : Session) (p : Prediction.t) :
  reachable calculateAngle s ->
  fst (analyzeAndPredict s) = Some p ->
  p = Prediction.mk medium low [slowdownWarning]
  \/ p = Prediction.mk low low [encouragementFor (repCount s)]
  \/ p = Prediction.mk medium low
           [slowdownWarning; encouragementFor (repCount s)].
Proof.
  intros Hreach Hp.
  destruct (reachable_invariant calculateAngle s Hreach) as [Hgood _].
  destruct (all_good_not_declining _ Hgood) as [_ Hfd].
  apply analyzeAndPredict_Some in Hp as (-> & Hne & _).
  revert Hne. unfold buildPrediction, repCount. rewrite Hfd.
  rewrite !andb_false_r. cbn [andb].
  destruct (speedIncrease _ && _), (_ && _);
    cbn [push_suggestion set_fatigueLevel Prediction.suggestions
           Prediction.fatigueLevel Prediction.riskOfMistake app];
    intros Hne; auto. now destruct Hne.
Qed.

Lemma reachable_predictions_witness :
  reachable flatAngle (session_after 6)
  /\ fst (analyzeAndPredict (session_after 6))
     = Some (Prediction.mk low low [encouragementFor 5])
  /\ (Prediction.mk low low [encouragementFor 5]
      = Prediction.mk medium low [slowdownWarning]
      \/ Prediction.mk low low [encouragementFor 5]
         = Prediction.mk low low [encouragementFor (repCount (session_after 6))]
      \/ Prediction.mk low low [encouragementFor 5]
         = Prediction.mk medium low
             [slowdownWarning; encouragementFor (repCount (session_after 6))]).
Proof.
  assert (Hr : reachable flatAngle (session_after 6))
    by (apply run_reachable; constructor).
  assert (Hp : fst (analyzeAndPredict (session_after 6))
               = Some (Prediction.mk low low [encouragementFor 5]))
    by (vm_compute; reflexivity).
  split; [exact Hr|]. split; [exact Hp|].
  exact (reachable_predictions flatAngle (session_after 6) _ Hr Hp).
Defined.

(** X12: the levels of a prediction in closed form.  The fatigue level
    is high when the reps slow down and the form declines, medium when
    they slow down over at least 3 recent reps and the form holds, low
    otherwise; the risk is high when the movement varies and the form
    declines, medium when the form declines without slowdown or high
    variability, low otherwise.  A level above low always comes with a
    suggestion of its type, and at most 4 suggestions are made. *)
Theorem buildPrediction_levels (history : list DataPoint.t)
  (reps : list RepRecord.t) :
  let recent := JS.slice_last 5 reps in
  let p := buildPrediction history reps in
  Prediction.fatigueLevel p
  = (if speedIncrease recent && formDeclining recent then high
     else if speedIncrease recent && (3 <=? List.length recent)%nat then medium
     else low)
  /\ Prediction.riskOfMistake p
     = (if highVariability history && formDeclining recent then high
        else if formDeclining recent && negb (speedIncrease recent) then medium
        else low)
  /\ (Prediction.fatigueLevel p <> low <->
      exists sg, In sg (Prediction.suggestions p) /\ Suggestion.type sg = fatigue)
  /\ (Prediction.riskOfMistake p <> low <->
      exists sg, In sg (Prediction.suggestions p) /\ Suggestion.type sg = form)
  /\ List.length (Prediction.suggestions p) <= 4.
Proof.
  cbv zeta. unfold buildPrediction.
  destruct ((0 <? List.length reps)%nat && (List.length reps mod 5 =? 0)%nat);
    rule_cases history reps;
    (split; [reflexivity|]); (split; [reflexivity|]);
    (split; [|split; [|cbn [List.length]; lia]]);
    (split;
     [ intros H; first [ now destruct H
                       | eexists; split; [left; reflexivity|reflexivity]
                       | eexists; split; [right; left; reflexivity|reflexivity]
                       | eexists; split; [right; right; left; reflexivity|reflexivity] ]
     | intros (sg & Hin & Hty); first [discriminate |
         repeat (destruct Hin as [<-|Hin]; [discriminate Hty|]); destruct Hin ] ]).
Qed.

(* ================================================================== *)
(** ** Further properties of the form classifiers *)

Section ClassifierTables.

Variable findKeypoint : Frame -> string -> option Keypoint.t.
Variable calculateAngle : Keypoint.t -> Keypoint.t -> Keypoint.t -> float.

Local Abbreviation joint := (preferLeft findKeypoint).
Local Abbreviation squat := (analyzeSquat findKeypoint calculateAngle).
Local Abbreviation pushUp := (analyzePushUp findKeypoint calculateAngle).

(** The push-up classifier on a frame whose mandatory joints resolve. *)
Lemma analyzePushUp_resolved keypoints shoulder elbow wrist :
  joint keypoints "shoulder" = Some shoulder ->
  joint keypoints "elbow" = Some elbow ->
  joint keypoints "wrist" = Some wrist ->
  let elbowAngle := calculateAngle shoulder elbow wrist in
  let hip := joint keypoints "hip" in
  let ankle := joint keypoints "ankle" in
  let v0 := pushUpDepth elbowAngle in
  let v1 := if lineCheckTriggers calculateAngle shoulder hip ankle
            then (pushup_line, false) else v0 in
  let v2 := if handsCheckTriggers shoulder wrist
            then (pushup_hands, false) else v1 in
  let v3 := if flareCheckTriggers shoulder elbow
            then (pushup_elbows, false) else v2 in
  pushUp keypoints
  = (FormResult.mk (fst v3) (snd v3) [("elbowAngle", Some elbowAngle)],
     (shoulder, elbow, wrist)
       :: match hip, ankle with
          | Some h, Some a => [(shoulder, h, a)]
          | _, _ => []
          end).
Proof.
  unfold preferLeft, analyzePushUp, lineCheckTriggers, handsCheckTriggers,
    flareCheckTriggers.
  cbn [append]. intros -> -> ->.
  destruct (JS.or_obj (findKeypoint keypoints "left_hip") _) as [h|];
    [destruct (JS.or_obj (findKeypoint keypoints "left_ankle") _) as [a|]|];
    reflexivity.
Qed.

(** X13: the verdict of [analyzePushUp] on a frame with shoulder, elbow
    and wrist is decided by the last check that triggers: the elbow flare
    message if the flare check triggers; else the hand position message
    if that check triggers; else the body line message if a hip and an
    ankle are visible and the body angle is below 160; else the depth
    classification of the elbow angle.  Every triggered check makes the
    frame invalid.  The elbow angle is reported, and [calculateAngle] is
    called once, for the elbow, and once more, for the body line, when
    a hip and an ankle are visible, and never otherwise. *)
Theorem pushUp_verdict keypoints shoulder elbow wrist :
  joint keypoints "shoulder" = Some shoulder ->
  joint keypoints "elbow" = Some elbow ->
  joint keypoints "wrist" = Some wrist ->
  let result := fst (pushUp keypoints) in
  let verdict := (FormResult.feedback result, FormResult.isValid result) in
  let line := lineCheckTriggers calculateAngle shoulder
                (joint keypoints "hip") (joint keypoints "ankle") in
  let hands := handsCheckTriggers shoulder wrist in
  let flare := flareCheckTriggers shoulder elbow in
  (flare = true -> verdict = (pushup_elbows, false))
  /\ (flare = false -> hands = true -> verdict = (pushup_hands, false))
  /\ (flare = false -> hands = false -> line = true ->
      verdict = (pushup_line, false))
  /\ (flare = false -> hands = false -> line = false ->
      verdict = pushUpDepth (calculateAngle shoulder elbow wrist))
  /\ FormResult.angles result
     = [("elbowAngle", Some (calculateAngle shoulder elbow wrist))]
  /\ snd (analyzePushUp findKeypoint calculateAngle keypoints)
     = (shoulder, elbow, wrist)
         :: match joint keypoints "hip", joint keypoints "ankle" with
            | Some hip, Some ankle => [(shoulder, hip, ankle)]
            | _, _ => []
            end.
Proof.
  intros Hs He Hw. cbv zeta.
  rewrite (analyzePushUp_resolved keypoints shoulder elbow wrist Hs He Hw).
  cbv zeta. cbn [fst snd FormResult.feedback FormResult.isValid FormResult.angles].
  destruct (flareCheckTriggers shoulder elbow), (handsCheckTriggers shoulder wrist),
    (lineCheckTriggers calculateAngle shoulder _ _);
    (repeat split; try discriminate; try reflexivity;
     try (intros; now destruct (pushUpDepth _))).
Qed.

(** X14: when neither secondary check of [analyzeSquat] triggers, the
    verdict is the depth classification of the knee angle; the result
    reports the knee angle and the hip angle (null without a shoulder),
    and [calculateAngle] was called for the knee and, with a shoulder
    visible, for the hip, in that order. *)
Theorem squat_verdict_without_checks keypoints hip knee ankle :
  joint keypoints "hip" = Some hip ->
  joint keypoints "knee" = Some knee ->
  joint keypoints "ankle" = Some ankle ->
  let kneeAngle := calculateAngle hip knee ankle in
  let hipAngle :=
    option_map (fun shoulder => calculateAngle shoulder hip knee)
      (joint keypoints "shoulder") in
  (backCheckTriggers hipAngle = false ->
   kneeCheckTriggers hip knee ankle = false ->
   (FormResult.feedback (fst (squat keypoints)),
    FormResult.isValid (fst (squat keypoints))) = squatDepth kneeAngle)
  /\ FormResult.angles (fst (squat keypoints))
     = [("kneeAngle", Some kneeAngle); ("hipAngle", hipAngle)]
  /\ snd (squat keypoints)
     = (hip, knee, ankle)
         :: match joint keypoints "shoulder" with
            | Some shoulder => [(shoulder, hip, knee)]
            | None => []
            end.
Proof.
  intros Hh Hk Ha. cbv zeta.
  rewrite (analyzeSquat_resolved findKeypoint calculateAngle keypoints
             hip knee ankle Hh Hk Ha).
  cbv zeta. cbn [FormResult.feedback FormResult.isValid FormResult.angles].
  split; [|split; [reflexivity|]].
  - intros Hb Hkn. unfold kneeAlignmentCheck, backAlignmentCheck.
    rewrite Hb, Hkn. now destruct (squatDepth _).
  - revert Hh Hk Ha. unfold preferLeft, analyzeSquat. cbn [append].
    intros -> -> ->.
    now destruct (JS.or_obj (findKeypoint keypoints "left_shoulder") _).
Qed.

(** X15: a classifier returns the empty feedback exactly when a
    mandatory joint is missing; on every other frame the feedback is one
    of its messages (six for the squat, eight for the push-up), none of
    which is empty.  So the empty string is the mark of "no opinion",
    for the squat and for the push-up. *)
Theorem empty_feedback_iff_missing_joint keypoints :
  let squatFeedback :=
    FormResult.feedback
      (fst (analyzeSquat findKeypoint calculateAngle keypoints)) in
  let pushUpFeedback :=
    FormResult.feedback
      (fst (analyzePushUp findKeypoint calculateAngle keypoints)) in
  (squatFeedback = ""
   <-> joint keypoints "hip" = None \/ joint keypoints "knee" = None
       \/ joint keypoints "ankle" = None)
  /\ (pushUpFeedback = ""
      <-> joint keypoints "shoulder" = None \/ joint keypoints "elbow" = None
          \/ joint keypoints "wrist" = None)
  /\ (squatFeedback <> "" -> In squatFeedback squat_messages)
  /\ (pushUpFeedback <> "" -> In pushUpFeedback pushup_messages)
  /\ ~ In "" squat_messages /\ ~ In "" pushup_messages.
Proof.
  cbv zeta.
  assert (Hsq : In (FormResult.feedback
                      (fst (analyzeSquat findKeypoint calculateAngle keypoints)))
                  ("" :: squat_messages)).
  { unfold analyzeSquat.
    destruct (JS.or_obj (findKeypoint keypoints "left_hip") _) as [hip|];
      [|now left].
    destruct (JS.or_obj (findKeypoint keypoints "left_knee") _) as [knee|];
      [|now left].
    destruct (JS.or_obj (findKeypoint keypoints "left_ankle") _) as [ankle|];
      [|now left].
    destruct (JS.or_obj (findKeypoint keypoints "left_shoulder") _);
      cbn [bind ret angle fst snd FormResult.feedback];
      unfold kneeAlignmentCheck, backAlignmentCheck, squatDepth;
      repeat match goal with
        | |- context [if ?b then _ else _] => destruct b
        end;
      cbn [fst]; unfold squat_messages; cbn [In]; tauto. }
  assert (Hpu : In (FormResult.feedback
                      (fst (analyzePushUp findKeypoint calculateAngle keypoints)))
                  ("" :: pushup_messages)).
  { unfold analyzePushUp.
    destruct (JS.or_obj (findKeypoint keypoints "left_shoulder") _) as [shoulder|];
      [|now left].
    destruct (JS.or_obj (findKeypoint keypoints "left_elbow") _) as [elbow|];
      [|now left].
    destruct (JS.or_obj (findKeypoint keypoints "left_wrist") _) as [wrist|];
      [|now left].
    destruct (JS.or_obj (findKeypoint keypoints "left_hip") _) as [hip|];
      [destruct (JS.or_obj (findKeypoint keypoints "left_ankle") _) as [ankle|]|];
      cbn [bind ret angle fst snd FormResult.feedback];
      unfold pushUpDepth;
      repeat match goal with
        | |- context [if ?b then _ else _] => destruct b
        end;
      cbn [fst]; unfold pushup_messages; cbn [In]; tauto. }
  assert (Hmain :
            (FormResult.feedback
               (fst (analyzeSquat findKeypoint calculateAngle keypoints)) = ""
             <-> joint keypoints "hip" = None \/ joint keypoints "knee" = None
                 \/ joint keypoints "ankle" = None)
            /\ (FormResult.feedback
                  (fst (analyzePushUp findKeypoint calculateAngle keypoints)) = ""
                <-> joint keypoints "shoulder" = None
                    \/ joint keypoints "elbow" = None
                    \/ joint keypoints "wrist" = None));
    [|destruct Hmain as [H1 H2]; split; [exact H1|]; split; [exact H2|];
      split; [intros Hne; destruct Hsq as [Heq|Hin]; [congruence|exact Hin]|];
      split; [intros Hne; destruct Hpu as [Heq|Hin]; [congruence|exact Hin]|];
      split; unfold squat_messages, pushup_messages; cbn [In];
      intros H; repeat (destruct H as [H|H]; [discriminate H|]); exact H].
  split.
  - destruct (joint keypoints "hip") as [hip|] eqn:Hh;
      [destruct (joint keypoints "knee") as [knee|] eqn:Hk;
       [destruct (joint keypoints "ankle") as [ankle|] eqn:Ha|]|].
    + rewrite (analyzeSquat_resolved findKeypoint calculateAngle keypoints
                 hip knee ankle Hh Hk Ha).
      cbv zeta. cbn [FormResult.feedback].
      unfold kneeAlignmentCheck, backAlignmentCheck, squatDepth.
      split; [|intros [H|[H|H]]; discriminate].
      repeat match goal with
        | |- context [if ?b then _ else _] => destruct b
        end; discriminate.
    + split; [intros _; auto|intros _].
      revert Hh Hk Ha. unfold preferLeft, analyzeSquat. cbn [append].
      now intros -> -> ->.
    + split; [intros _; auto|intros _].
      revert Hh Hk. unfold preferLeft, analyzeSquat. cbn [append].
      now intros -> ->.
    + split; [intros _; auto|intros _].
      revert Hh. unfold preferLeft, analyzeSquat. cbn [append].
      now intros ->.
  - destruct (joint keypoints "shoulder") as [shoulder|] eqn:Hs;
      [destruct (joint keypoints "elbow") as [elbow|] eqn:He;
       [destruct (joint keypoints "wrist") as [wrist|] eqn:Hw|]|].
    + rewrite (analyzePushUp_resolved keypoints shoulder elbow wrist Hs He Hw).
      cbv zeta. cbn [fst FormResult.feedback]. unfold pushUpDepth.
      split; [|intros [H|[H|H]]; discriminate].
      repeat match goal with
        | |- context [if ?b then _ else _] => destruct b
        end; discriminate.
    + split; [intros _; auto|intros _].
      revert Hs He Hw. unfold preferLeft, analyzePushUp. cbn [append].
      now intros -> -> ->.
    + split; [intros _; auto|intros _].
      revert Hs He. unfold preferLeft, analyzePushUp. cbn [append].
      now intros -> ->.
    + split; [intros _; auto|intros _].
      revert Hs. unfold preferLeft, analyzePushUp. cbn [append].
      now intros ->.
Qed.

End ClassifierTables.

Lemma pushUp_verdict_witness :
  flareCheckTriggers (Keypoint.mk "left_shoulder" 100 100 0.9)
    (Keypoint.mk "left_elbow" 200 110 0.9) = true
  /\ FormResult.feedback (fst (analyzePushUp getKeypoint bentAngle frame_elbow_out))
     = pushup_elbows
  /\ FormResult.isValid (fst (analyzePushUp getKeypoint bentAngle frame_elbow_out))
     = false.
Proof.
  split; [reflexivity|].
  destruct (pushUp_verdict getKeypoint bentAngle frame_elbow_out
              (Keypoint.mk "left_shoulder" 100 100 0.9)
              (Keypoint.mk "left_elbow" 200 110 0.9)
              (Keypoint.mk "left_wrist" 100 200 0.9)
              eq_refl eq_refl eq_refl) as (Hflare & _).
  specialize (Hflare eq_refl). now inversion Hflare.
Defined.

Lemma squat_verdict_without_checks_witness :
  preferLeft getKeypoint frame_knee_forward "hip" = kp "left_hip" 100 200 0.9
  /\ FormResult.angles (fst (analyzeSquat getKeypoint flatAngle frame_knee_forward))
     = [("kneeAngle", Some 180%float); ("hipAngle", Some 180%float)].
Proof.
  split; [reflexivity|].
  apply (squat_verdict_without_checks getKeypoint flatAngle frame_knee_forward
           (Keypoint.mk "left_hip" 100 200 0.9)
           (Keypoint.mk "left_knee" 160 300 0.9)
           (Keypoint.mk "left_ankle" 100 400 0.9)
           eq_refl eq_refl eq_refl).
Defined.

(** Comparisons against two constants that share a binary exponent. *)
Ltac sf_between v :=
  sf_order v;
  try (exfalso; subst;
       match goal with
       | H : (?c1 < ?c2)%positive |- _ =>
           tryif is_var c1 then fail else
             tryif is_var c2 then fail else
               (vm_compute in H; discriminate H)
       end);
  try (exfalso;
       match goal with
       | H1 : (?c1 < ?m)%positive, H2 : (?m < ?c2)%positive |- _ =>
           let H3 := fresh in
           pose proof (Pos.lt_trans _ _ _ H1 H2) as H3;
           vm_compute in H3; discriminate H3
       end).

Lemma depth_L1 (a : float) :
  JS.lt a 70%float = true -> JS.gt a 160%float = false.
Proof. unfold JS.lt, JS.gt. intros H. sf_between a. Qed.

Lemma depth_L2 (a : float) :
  JS.lt a 100%float = true -> JS.gt a 160%float = false.
Proof. unfold JS.lt, JS.gt. intros H. sf_between a. Qed.

Lemma depth_L3 (a : float) :
  JS.ge a 70%float = true -> JS.lt a 70%float = false.
Proof. unfold JS.ge, JS.lt. intros H. sf_between a. Qed.

Lemma depth_L4 (a : float) :
  JS.ge a 100%float = true -> JS.lt a 70%float = false.
Proof. unfold JS.ge, JS.lt. intros H. sf_between a. Qed.

Lemma depth_L5 (a : float) :
  JS.ge a 100%float = true -> JS.lt a 100%float = false.
Proof. unfold JS.ge, JS.lt. intros H. sf_between a. Qed.

Lemma depth_L6 (a : float) :
  JS.le a 160%float = true -> JS.gt a 160%float = false.
Proof. unfold JS.le, JS.gt. intros H. sf_between a. Qed.

Lemma depth_P1 (a : float) :
  JS.lt a 80%float = true -> JS.gt a 170%float = false.
Proof. unfold JS.lt, JS.gt. intros H. sf_between a. Qed.

Lemma depth_P2 (a : float) :
  JS.lt a 100%float = true -> JS.gt a 170%float = false.
Proof. unfold JS.lt, JS.gt. intros H. sf_between a. Qed.

Lemma depth_P3 (a : float) :
  JS.lt a 140%float = true -> JS.gt a 170%float = false.
Proof. unfold JS.lt, JS.gt. intros H. sf_between a. Qed.

Lemma depth_P4 (a : float) :
  JS.le a 170%float = true -> JS.gt a 170%float = false.
Proof. unfold JS.le, JS.gt. intros H. sf_between a. Qed.

Lemma depth_P5 (a : float) :
  JS.ge a 80%float = true -> JS.lt a 80%float = false.
Proof. unfold JS.ge, JS.lt. intros H. sf_between a. Qed.

Lemma depth_P6 (a : float) :
  JS.ge a 100%float = true -> JS.lt a 80%float = false.
Proof. unfold JS.ge, JS.lt. intros H. sf_between a. Qed.

Lemma depth_P7 (a : float) :
  JS.ge a 140%float = true -> JS.lt a 80%float = false.
Proof. unfold JS.ge, JS.lt. intros H. sf_between a. Qed.

Lemma depth_P8 (a : float) :
  JS.ge a 140%float = true -> JS.lt a 100%float = false.
Proof. unfold JS.ge, JS.lt. intros H. sf_between a. Qed.

Lemma depth_P9 (a : float) :
  JS.ge a 140%float = true -> JS.lt a 140%float = false.
Proof. unfold JS.ge, JS.lt. intros H. sf_between a. Qed.

(** X16: the depth classifications by bands.  Squat, by knee angle:
    above 160 "bend your knees" (invalid); below 70 "great depth"; from
    70 to below 100 "good form"; from 100 up to 160 "keep it up" (all
    three valid).  Push-up, by elbow angle: above 170 "lower more"
    (invalid); below 80 "excellent"; from 80 to below 100 "good depth";
    from 100 to below 140 "a bit deeper" (all three valid); from 140 up
    to 170 "lower for a complete push-up" (invalid). *)
Theorem depth_bands (a : float) :
  ((JS.gt a 160%float = true -> squatDepth a = (squat_bend, false))
   /\ (JS.lt a 70%float = true -> squatDepth a = (squat_great_depth, true))
   /\ (JS.ge a 70%float = true -> JS.lt a 100%float = true ->
       squatDepth a = (squat_good_form, true))
   /\ (JS.ge a 100%float = true -> JS.le a 160%float = true ->
       squatDepth a = (squat_keep_up, true)))
  /\ ((JS.gt a 170%float = true -> pushUpDepth a = (pushup_lower_more, false))
      /\ (JS.lt a 80%float = true -> pushUpDepth a = (pushup_excellent, true))
      /\ (JS.ge a 80%float = true -> JS.lt a 100%float = true ->
          pushUpDepth a = (pushup_good_depth, true))
      /\ (JS.ge a 100%float = true -> JS.lt a 140%float = true ->
          pushUpDepth a = (pushup_deeper, true))
      /\ (JS.ge a 140%float = true -> JS.le a 170%float = true ->
          pushUpDepth a = (pushup_complete, false))).
Proof.
  unfold squatDepth, pushUpDepth. split.
  - split; [intros ->; reflexivity|]. split; [|split].
    + intros H. now rewrite (depth_L1 a H), H.
    + intros H1 H2. now rewrite (depth_L2 a H2), (depth_L3 a H1), H2.
    + intros H1 H2. now rewrite (depth_L6 a H2), (depth_L4 a H1), (depth_L5 a H1).
  - split; [intros ->; reflexivity|]. split; [|split; [|split]].
    + intros H. now rewrite (depth_P1 a H), H.
    + intros H1 H2. now rewrite (depth_P2 a H2), (depth_P5 a H1), H2.
    + intros H1 H2. now rewrite (depth_P3 a H2), (depth_P6 a H1), (depth_L5 a H1), H2.
    + intros H1 H2. now rewrite (depth_P4 a H2), (depth_P7 a H1), (depth_P8 a H1), (depth_P9 a H1).
Qed.

(* ================================================================== *)
(** ** Form analysis feeding rep detection *)

Section FormDispatch.

Variable findKeypoint : Frame -> string -> option Keypoint.t.
Variable calculateAngle : Keypoint.t -> Keypoint.t -> Keypoint.t -> float.
Variable analyzeWallSit : Frame -> Traced FormResult.t.
Variable analyzeRomanianDeadlift : Frame -> Traced FormResult.t.

Local Abbreviation dispatch :=
  (analyzeForm findKeypoint calculateAngle analyzeWallSit analyzeRomanianDeadlift).

Lemma invalid_form_no_rep keypoints formAnalysis t0 now s :
  formValid formAnalysis = false ->
  trackRep calculateAngle keypoints formAnalysis t0 now s = s.
Proof.
  intros Hinv. rewrite trackRep_repCompleted.
  destruct (repCompleted calculateAngle keypoints formAnalysis t0 s) eqn:Hdet;
    [|reflexivity].
  apply repCompleted_formValid in Hdet. congruence.
Qed.

Lemma exercise_is_selected (e : option string) (n : string) :
  n <> "" -> exercise_is e n = true -> exercise_selected e = true.
Proof.
  destruct e as [m|]; [|discriminate]. cbn. intros Hn Heq.
  apply String.eqb_eq in Heq. subst m. unfold JS.truthy_str.
  apply negb_true_iff. now apply String.eqb_neq.
Qed.

(** X17: how [analyzeForm] dispatches and what [trackRep] makes of its
    result.  Without keypoints or without a selected exercise the result
    is the neutral one and no angle is computed; 'squat' and 'push-up'
    go to their classifiers; and a frame whose result is not valid never
    completes a rep: [trackRep] leaves the session untouched. *)
Theorem analyzeForm_gates_reps (keypoints : option Frame) t0 now (s : Session) :
  let result := fst (dispatch (exercise s) keypoints) in
  (keypoints = None \/ exercise_selected (exercise s) = false ->
   dispatch (exercise s) keypoints = (noOpinion, []))
  /\ (forall kps, keypoints = Some kps ->
                  exercise_is (exercise s) "squat" = true ->
                  dispatch (exercise s) keypoints
                  = analyzeSquat findKeypoint calculateAngle kps)
  /\ (forall kps, keypoints = Some kps ->
                  exercise_is (exercise s) "squat" = false ->
                  exercise_is (exercise s) "push-up" = true ->
                  dispatch (exercise s) keypoints
                  = analyzePushUp findKeypoint calculateAngle kps)
  /\ (FormResult.isValid result = false ->
      trackRep calculateAngle keypoints (Some result) t0 now s = s).
Proof.
  cbv zeta. split; [|split; [|split]].
  - intros [-> | Hsel]; [reflexivity|].
    unfold analyzeForm. rewrite Hsel. now destruct keypoints.
  - intros kps -> Hsq. unfold analyzeForm.
    rewrite (exercise_is_selected _ "squat" ltac:(discriminate) Hsq), Hsq.
    reflexivity.
  - intros kps -> Hsq Hpu. unfold analyzeForm.
    rewrite (exercise_is_selected _ "push-up" ltac:(discriminate) Hpu), Hsq, Hpu.
    reflexivity.
  - intros Hinv. now apply invalid_form_no_rep.
Qed.

End FormDispatch.

(* ================================================================== *)
(** ** Voice settings *)

Ltac voice_cases :=
  unfold adaptVoiceSettings, getPersonalitySettings;
  cbn [VOICE_PERSONALITY BREATHING_RATE BREATHING_CONSISTENCY SIGNAL_CONFIDENCE];
  repeat match goal with
    | |- context [String.eqb ?a ?b] => is_var a; destruct (String.eqb a b)
    end.

(** X18: whatever the four arguments, [adaptVoiceSettings] returns a
    rate between 0.85 and 1, a pitch between 0.9 and 1.15, a stability
    between 0.2 and 0.8, volume 1, a confidence multiplier of 1, 1.2 or
    1.5, and the voice of the personality. *)
Theorem adaptVoiceSettings_bounds
  (personality breathingRate breathingConsistency signalConfidence : string) :
  let v := adaptVoiceSettings personality breathingRate breathingConsistency
             signalConfidence in
  JS.le 0.85%float (VoiceSettings.rate v) = true
  /\ JS.le (VoiceSettings.rate v) 1%float = true
  /\ JS.le 0.9%float (VoiceSettings.pitch v) = true
  /\ JS.le (VoiceSettings.pitch v) 1.15%float = true
  /\ JS.le 0.2%float (VoiceSettings.stability v) = true
  /\ JS.le (VoiceSettings.stability v) 0.8%float = true
  /\ VoiceSettings.volume v = 1%float
  /\ (VoiceSettings.confidenceMultiplier v = 1%float
      \/ VoiceSettings.confidenceMultiplier v = 1.2%float
      \/ VoiceSettings.confidenceMultiplier v = 1.5%float)
  /\ VoiceSettings.voiceId v
     = PersonalitySettings.voiceId (getPersonalitySettings personality).
Proof.
  cbv zeta. voice_cases; vm_compute; repeat split; auto.
Qed.

(** X19: how the breathing metrics adapt the voice.  Fast breathing
    gives the rate 0.85 whatever the personality and the consistency;
    erratic breathing gives a rate of at most 0.88; normal, steady
    breathing leaves rate, pitch and stability at the personality's base
    values; the multiplier is 1.5 for low, 1.2 for medium and 1 for high
    confidence; and a personality that is neither 'calm' nor 'energetic'
    gets the neutral settings. *)
Theorem adaptVoiceSettings_rules (personality : string) :
  (forall consistency confidence,
      VoiceSettings.rate
        (adaptVoiceSettings personality (BREATHING_RATE FAST) consistency
           confidence) = 0.85%float)
  /\ (forall rate confidence,
         JS.le (VoiceSettings.rate
                  (adaptVoiceSettings personality rate
                     (BREATHING_CONSISTENCY ERRATIC) confidence))
           0.88%float = true)
  /\ (forall confidence,
         let base := getPersonalitySettings personality in
         let v := adaptVoiceSettings personality (BREATHING_RATE NORMAL)
                    (BREATHING_CONSISTENCY STEADY) confidence in
         VoiceSettings.rate v = PersonalitySettings.baseRate base
         /\ VoiceSettings.pitch v = PersonalitySettings.basePitch base
         /\ VoiceSettings.stability v = PersonalitySettings.baseStability base)
  /\ (forall rate consistency,
         map (fun c => VoiceSettings.confidenceMultiplier
                         (adaptVoiceSettings personality rate consistency
                            (SIGNAL_CONFIDENCE c)))
           [LOW; MEDIUM; HIGH]
         = [1.5; 1.2; 1]%float)
  /\ (personality <> VOICE_PERSONALITY CALM ->
      personality <> VOICE_PERSONALITY ENERGETIC ->
      getPersonalitySettings personality
      = getPersonalitySettings (VOICE_PERSONALITY NEUTRAL)).
Proof.
  split; [|split; [|split; [|split]]].
  - intros consistency confidence. voice_cases; vm_compute; reflexivity.
  - intros rate confidence. voice_cases; vm_compute; reflexivity.
  - intros confidence. cbv zeta. voice_cases; vm_compute; repeat split.
  - intros rate consistency. cbn [map]. voice_cases; vm_compute; reflexivity.
  - intros Hc He. unfold getPersonalitySettings.
    apply String.eqb_neq in Hc, He. rewrite Hc, He. reflexivity.
Qed.


(* ================================================================== *)
(** ** The audio queue *)

Lemma added_app (evs1 evs2 : list AudioQueue.Event) :
  AudioQueue.added (evs1 ++ evs2)
  = AudioQueue.added evs1 ++ AudioQueue.added evs2.
Proof.
  induction evs1 as [|[u|n|n|n] evs1 IH]; cbn; try exact IH.
  - reflexivity.
  - now rewrite IH.
Qed.

(** [processQueue] on a queue that is not playing starts the next
    waiting URL, if there is one. *)
Lemma processQueue_idle (waiting started : list string)
  (settled : list (nat * bool)) :
  AudioQueue.processQueue (AudioQueue.mk waiting false started settled)
  = match waiting with
    | [] => AudioQueue.mk [] false started settled
    | audioUrl :: rest =>
        AudioQueue.mk rest true (started ++ [audioUrl]) settled
    end.
Proof. now destruct waiting. Qed.

(** Any handler of a created audio: its callback is logged and the next
    waiting URL is started. *)
Lemma handler_invariant (urls : list string) (q : AudioQueue.t) (n : nat)
  (ok : bool) :
  queue_invariant urls q ->
  n < List.length (AudioQueue.started q) ->
  queue_invariant urls
    (AudioQueue.processQueue
       (AudioQueue.mk (AudioQueue.queue q) false (AudioQueue.started q)
          (AudioQueue.settled q ++ [(n, ok)]))).
Proof.
  intros (Hcons & Hstall & Hvalid) Hn. rewrite processQueue_idle.
  unfold queue_invariant, AudioQueue.handled in *.
  destruct (AudioQueue.queue q) as [|v waiting];
    cbn [AudioQueue.isPlaying AudioQueue.queue AudioQueue.started
           AudioQueue.settled].
  - split; [exact Hcons|]. split; [reflexivity|].
    rewrite map_app. apply Forall_app. split; [exact Hvalid|].
    now repeat constructor.
  - split; [now rewrite <- app_assoc|]. split; [discriminate|].
    rewrite map_app, length_app. apply Forall_app. split.
    + eapply Forall_impl; [|exact Hvalid]. cbn. intros; lia.
    + repeat constructor. cbn. lia.
Qed.

Lemma step_queue_invariant (urls : list string) (ev : AudioQueue.Event)
  (q : AudioQueue.t) :
  queue_invariant urls q ->
  queue_invariant (urls ++ AudioQueue.added [ev]) (AudioQueue.step ev q).
Proof.
  intros Hinv.
  destruct ev as [u|n|n|n]; cbn [AudioQueue.step AudioQueue.added];
    rewrite ?app_nil_r;
    try (destruct (Nat.ltb_spec n (List.length (AudioQueue.started q)));
         [now apply handler_invariant | exact Hinv]).
  destruct Hinv as (Hcons & Hstall & Hvalid).
  unfold AudioQueue.add, queue_invariant, AudioQueue.handled in *.
  destruct (AudioQueue.isPlaying q) eqn:Hp.
  - unfold AudioQueue.processQueue.
    cbn [AudioQueue.isPlaying AudioQueue.queue AudioQueue.started
           AudioQueue.settled orb].
    split; [now rewrite app_assoc, Hcons|]. split; [discriminate|exact Hvalid].
  - rewrite processQueue_idle, (Hstall eq_refl) in *.
    cbn [app AudioQueue.isPlaying AudioQueue.queue AudioQueue.started
           AudioQueue.settled].
    rewrite app_nil_r in *. split; [now rewrite Hcons|].
    split; [discriminate|].
    rewrite length_app. eapply Forall_impl; [|exact Hvalid]. cbn. intros; lia.
Qed.

(** When every created audio has been handled, no audio is left to
    handle. *)
Lemma all_handled (n : nat) (l : list nat) (a : nat) :
  NoDup l -> Forall (fun i => i < n) l -> List.length l = n ->
  a < n -> In a l.
Proof.
  intros Hnd Hall Hlen Ha.
  apply (NoDup_length_incl (l := l) (l' := seq 0 n)); auto.
  - rewrite length_seq. lia.
  - intros i Hi. apply in_seq. rewrite Forall_forall in Hall.
    specialize (Hall i Hi). lia.
  - apply in_seq. lia.
Qed.

Lemma handler_single (urls : list string) (q : AudioQueue.t) (n : nat)
  (ok : bool) :
  queue_invariant urls q -> queue_single q ->
  n < List.length (AudioQueue.started q) ->
  existsb (Nat.eqb n) (AudioQueue.handled q) = false ->
  queue_single
    (AudioQueue.processQueue
       (AudioQueue.mk (AudioQueue.queue q) false (AudioQueue.started q)
          (AudioQueue.settled q ++ [(n, ok)]))).
Proof.
  intros (_ & _ & Hvalid) (Hnd & Hlen) Hn Hfresh.
  assert (Hnot : ~ In n (AudioQueue.handled q)).
  { intros Hin.
    assert (Hex : existsb (Nat.eqb n) (AudioQueue.handled q) = true)
      by (apply existsb_exists; exists n; split; [exact Hin|apply Nat.eqb_refl]).
    congruence. }
  assert (Hplaying : AudioQueue.isPlaying q = true).
  { destruct (AudioQueue.isPlaying q); [reflexivity|]. exfalso. apply Hnot.
    apply (all_handled (List.length (AudioQueue.started q))); auto. lia. }
  rewrite Hplaying in Hlen. rewrite processQueue_idle.
  unfold queue_single, AudioQueue.handled in *.
  assert (Hnd' : NoDup (map fst (AudioQueue.settled q ++ [(n, ok)]))).
  { rewrite map_app. cbn [map fst]. apply NoDup_app; [exact Hnd| |].
    - repeat constructor. intros [].
    - intros a Ha [<-|[]]. now apply Hnot. }
  destruct (AudioQueue.queue q) as [|v waiting];
    cbn [AudioQueue.isPlaying AudioQueue.started AudioQueue.settled];
    (split; [exact Hnd'|]);
    rewrite !length_map in *; rewrite ?length_app; cbn [List.length]; lia.
Qed.

Lemma step_queue_single (urls : list string) (ev : AudioQueue.Event)
  (q : AudioQueue.t) :
  queue_invariant urls q -> queue_single q ->
  AudioQueue.oncePerAudio [ev] q = true ->
  queue_single (AudioQueue.step ev q).
Proof.
  intros Hinv Hsingle Honce. cbn [AudioQueue.oncePerAudio] in Honce.
  rewrite andb_true_r in Honce.
  destruct ev as [u|n|n|n]; cbn [AudioQueue.step AudioQueue.audioOf] in *;
    try (apply andb_true_iff in Honce as [Hn Hfresh]; rewrite Hn;
         apply Nat.ltb_lt in Hn; apply negb_true_iff in Hfresh;
         now apply (handler_single urls)).
  destruct Hinv as (_ & Hstall & _). destruct Hsingle as (Hnd & Hlen).
  unfold AudioQueue.add, queue_single, AudioQueue.handled in *.
  destruct (AudioQueue.isPlaying q) eqn:Hp.
  - unfold AudioQueue.processQueue.
    cbn [AudioQueue.isPlaying AudioQueue.queue AudioQueue.started
           AudioQueue.settled orb]. now split.
  - rewrite processQueue_idle, (Hstall eq_refl).
    cbn [app AudioQueue.isPlaying AudioQueue.started AudioQueue.settled].
    split; [exact Hnd|]. rewrite length_app. cbn [List.length]. lia.
Qed.

Lemma run_queue_invariant (evs : list AudioQueue.Event) :
  forall (urls : list string) (q : AudioQueue.t),
    queue_invariant urls q ->
    queue_invariant (urls ++ AudioQueue.added evs) (AudioQueue.run evs q).
Proof.
  induction evs as [|ev evs IH]; intros urls q Hinv.
  - cbn. now rewrite app_nil_r.
  - change (ev :: evs) with ([ev] ++ evs). rewrite added_app, app_assoc.
    apply IH. now apply step_queue_invariant.
Qed.

Lemma run_queue_single (evs : list AudioQueue.Event) :
  forall (urls : list string) (q : AudioQueue.t),
    queue_invariant urls q -> queue_single q ->
    AudioQueue.oncePerAudio evs q = true ->
    queue_single (AudioQueue.run evs q).
Proof.
  induction evs as [|ev evs IH]; intros urls q Hinv Hsingle Honce;
    [exact Hsingle|].
  cbn [AudioQueue.oncePerAudio] in Honce.
  apply andb_true_iff in Honce as [Hev Hrest].
  apply (IH (urls ++ AudioQueue.added [ev])); [| |exact Hrest].
  - now apply step_queue_invariant.
  - apply (step_queue_single urls); auto.
    cbn [AudioQueue.oncePerAudio]. now rewrite Hev.
Qed.

(** X20: what the audio queue guarantees and what it does not.
    Whatever handlers run, starting from the empty queue: the started
    URLs followed by the waiting ones are the added URLs in order, no
    URL waits while [isPlaying] is false, and promise callbacks are only
    called for created audios.  If each created audio ends or fails
    once, no audio is handled twice and there is exactly one started,
    unhandled audio while [isPlaying] holds and none otherwise, so one
    audio plays at a time.  Without that the queue does overlap: when
    [onerror] and the [catch] branch both run for the first of three
    added audios, the second and the third are both started although no
    handler of either has run. *)
Theorem audio_queue_order_and_overlap :
  (forall evs : list AudioQueue.Event,
      let q := AudioQueue.run evs AudioQueue.empty in
      AudioQueue.started q ++ AudioQueue.queue q = AudioQueue.added evs
      /\ (AudioQueue.isPlaying q = false -> AudioQueue.queue q = [])
      /\ Forall (fun n => n < List.length (AudioQueue.started q))
           (AudioQueue.handled q))
  /\ (forall evs : list AudioQueue.Event,
         AudioQueue.oncePerAudio evs AudioQueue.empty = true ->
         let q := AudioQueue.run evs AudioQueue.empty in
         NoDup (AudioQueue.handled q)
         /\ List.length (AudioQueue.started q)
            = List.length (AudioQueue.handled q)
              + (if AudioQueue.isPlaying q then 1 else 0))
  /\ (let q := AudioQueue.run
                 [AudioQueue.Add "a"; AudioQueue.Add "b"; AudioQueue.Add "c";
                  AudioQueue.Failed 0; AudioQueue.Caught 0]
                 AudioQueue.empty in
      AudioQueue.started q = ["a"; "b"; "c"]
      /\ AudioQueue.handled q = [0; 0]
      /\ AudioQueue.isPlaying q = true
      /\ AudioQueue.queue q = []).
Proof.
  assert (H0 : queue_invariant [] AudioQueue.empty).
  { unfold queue_invariant. cbn. repeat split; auto. }
  assert (H1 : queue_single AudioQueue.empty).
  { unfold queue_single. cbn. split; [constructor|reflexivity]. }
  split; [|split].
  - intros evs. exact (run_queue_invariant evs [] AudioQueue.empty H0).
  - intros evs Honce. exact (run_queue_single evs [] AudioQueue.empty H0 H1 Honce).
  - vm_compute. repeat split.
Qed.

Lemma audio_queue_order_and_overlap_witness :
  AudioQueue.oncePerAudio
    [AudioQueue.Add "a"; AudioQueue.Add "b"; AudioQueue.Ended 0;
     AudioQueue.Add "c"; AudioQueue.Failed 1]
    AudioQueue.empty = true
  /\ (let q := AudioQueue.run
                 [AudioQueue.Add "a"; AudioQueue.Add "b"; AudioQueue.Ended 0;
                  AudioQueue.Add "c"; AudioQueue.Failed 1]
                 AudioQueue.empty in
      NoDup (AudioQueue.handled q)
      /\ List.length (AudioQueue.started q)
         = List.length (AudioQueue.handled q)
           + (if AudioQueue.isPlaying q then 1 else 0)).
Proof.
  assert (H : AudioQueue.oncePerAudio
                [AudioQueue.Add "a"; AudioQueue.Add "b"; AudioQueue.Ended 0;
                 AudioQueue.Add "c"; AudioQueue.Failed 1]
                AudioQueue.empty = true) by reflexivity.
  split; [exact H|].
  exact (proj1 (proj2 audio_queue_order_and_overlap) _ H).
Defined.

(* ================================================================== *)
(** ** Sampling and detection *)


Lemma createDataPoint_retime keypoints (t t' : float) :
  createDataPoint keypoints t' = option_map (retime t') (createDataPoint keypoints t).
Proof.
  unfold createDataPoint. destruct keypoints as [kps|]; [|reflexivity].
  destruct (_ =? 0)%nat; [reflexivity|].
  destruct (_ && _); reflexivity.
Qed.

Section Stateless.

Variable calculateAngle : Keypoint.t -> Keypoint.t -> Keypoint.t -> float.

(** Whether a frame completes a rep depends on the hook's arguments, the
    motion window and the frame, and on nothing else. *)
Lemma repCompleted_reads keypoints formAnalysis t0 t0' s s' :
  isActive s' = isActive s -> exercise s' = exercise s ->
  movementHistoryRef s' = movementHistoryRef s ->
  repCompleted calculateAngle keypoints formAnalysis t0' s'
  = repCompleted calculateAngle keypoints formAnalysis t0 s.
Proof.
  intros Ha He Hm. unfold repCompleted. rewrite Ha, He, Hm.
  rewrite (createDataPoint_retime keypoints t0 t0').
  destruct (createDataPoint keypoints t0) as [dataPoint|]; reflexivity.
Qed.

(** X22: rep detection keeps no state of its own.  If a frame completes
    a rep, the call has changed nothing that detection reads, so the
    same frame (or the next frame of the same ascent) passed to
    [trackRep] again completes another rep: with a non-zero clock
    reading the second call appends a record whose duration is the time
    between the two calls. *)
Theorem same_frame_counts_again keypoints formAnalysis t0 now t0' now' s :
  repCompleted calculateAngle keypoints formAnalysis t0 s = true ->
  JS.truthy now = true ->
  let s1 := trackRep calculateAngle keypoints formAnalysis t0 now s in
  let s2 := trackRep calculateAngle keypoints formAnalysis t0' now' s1 in
  repCompleted calculateAngle keypoints formAnalysis t0' s1 = true
  /\ lastRepTimeRef s2 = Some now'
  /\ repHistoryRef s2
     = (let pushed := repHistoryRef s1 ++ [RepRecord.mk now' (now' - now) good] in
        if (10 <? List.length pushed)%nat then tl pushed else pushed).
Proof.
  intros Hdet Hnow. cbv zeta.
  assert (Hs1 : trackRep calculateAngle keypoints formAnalysis t0 now s
                = recordRep formAnalysis now s)
    by now rewrite trackRep_repCompleted, Hdet.
  rewrite Hs1.
  destruct (recordRep_sameButReps formAnalysis now s)
    as (He & Ha & _ & _ & _ & _ & _ & Hm & _).
  assert (Hdet' : repCompleted calculateAngle keypoints formAnalysis t0'
                    (recordRep formAnalysis now s) = true)
    by now rewrite (repCompleted_reads keypoints formAnalysis t0 t0' s _ Ha He Hm).
  split; [exact Hdet'|].
  rewrite trackRep_repCompleted, Hdet'.
  pose proof (repCompleted_formValid _ _ _ _ _ Hdet) as Hvalid.
  destruct (recordRep_history formAnalysis now' (recordRep formAnalysis now s))
    as (Hlast & Hpush & _).
  split; [exact Hlast|].
  rewrite (Hpush now (proj1 (recordRep_history formAnalysis now s)) Hnow), Hvalid.
  reflexivity.
Qed.

End Stateless.

Lemma same_frame_counts_again_witness :
  repCompleted flatAngle (Some (body 200)) (Some validForm) 3000
    (session_after 0) = true
  /\ repHistoryRef
       (trackRep flatAngle (Some (body 200)) (Some validForm) 3001 3001
          (trackRep flatAngle (Some (body 200)) (Some validForm) 3000 3000
             (session_after 0)))
     = [RepRecord.mk 3001 1 good].
Proof.
  assert (H : repCompleted flatAngle (Some (body 200)) (Some validForm) 3000
                (session_after 0) = true) by (vm_compute; reflexivity).
  split; [exact H|].
  destruct (same_frame_counts_again flatAngle (Some (body 200)) (Some validForm)
              3000 3000 3001 3001 (session_after 0) H eq_refl)
    as (_ & _ & Hhist).
  rewrite Hhist. vm_compute. reflexivity.
Defined.

(* ================================================================== *)
(** ** Instances *)

Lemma trackRep_footprint_witness :
  exercise_is (exercise wallSit_session) "squat" = false
  /\ exercise_is (exercise wallSit_session) "push-up" = false
  /\ List.length (movementHistoryRef wallSit_session) = 20
  /\ trackRep flatAngle (Some (body 200)) (Some validForm) 9000 9000
       wallSit_session = wallSit_session.
Proof.
  split; [reflexivity|]. split; [reflexivity|]. split; [reflexivity|].
  destruct (trackRep_footprint flatAngle (Some (body 200)) (Some validForm)
              9000 9000 wallSit_session) as (_ & _ & Hother & _).
  apply Hother; reflexivity.
Defined.

Lemma depth_bands_witness :
  JS.lt 65 70 = true /\ squatDepth 65 = (squat_great_depth, true)
  /\ JS.gt 170 160 = true /\ squatDepth 170 = (squat_bend, false)
  /\ JS.ge 150 140 = true /\ JS.le 150 170 = true
  /\ pushUpDepth 150 = (pushup_complete, false).
Proof.
  split; [reflexivity|]. split.
  { apply (proj1 (depth_bands 65)). reflexivity. }
  split; [reflexivity|]. split.
  { apply (proj1 (depth_bands 170)). reflexivity. }
  split; [reflexivity|]. split; [reflexivity|].
  apply (proj2 (depth_bands 150)); reflexivity.
Defined.

Lemma analyzeForm_gates_reps_witness :
  analyzeForm getKeypoint flatAngle (fun _ => ret noOpinion)
    (fun _ => ret noOpinion) (exercise (session_after 3))
    (Some frame_torso_only) = (noOpinion, [])
  /\ trackRep flatAngle (Some frame_torso_only)
       (Some (fst (analyzeForm getKeypoint flatAngle (fun _ => ret noOpinion)
                     (fun _ => ret noOpinion) (exercise (session_after 3))
                     (Some frame_torso_only))))
       9000 9000 (session_after 3)
     = session_after 3.
Proof.
  split; [reflexivity|].
  destruct (analyzeForm_gates_reps getKeypoint flatAngle
              (fun _ => ret noOpinion) (fun _ => ret noOpinion)
              (Some frame_torso_only) 9000 9000 (session_after 3))
    as (_ & _ & _ & Hinvalid).
  apply Hinvalid. reflexivity.
Defined.
